(** * Toko Pintar: the transaction ledger engine and the settlement tracker

    A shallow embedding of the three server handlers that carry the
    invariants of the point of sale:

    - [createTransaction]  (server/src/handlers/create_transaction.ts)
    - [createPayment]      (server/src/handlers/create_payment.ts)
    - [getCustomerDebt]    (server/src/handlers/get_customer_debt.ts)

    together with the part of the relational schema
    (server/src/db/schema.ts) and of the input and result types
    (server/src/schema.ts) they read or write; and, around them,

    - [getProductById] and [getTransactionById], which read back what a
      sale has written (server/src/handlers/get_product_by_id.ts,
      server/src/handlers/get_transaction_by_id.ts),
    - the input schemas of the two mutations and their procedures in
      the router (server/src/schema.ts, server/src/index.ts),
    - the cart and the checkout of the point of sale
      (client/src/components/POSSystem.tsx).

    Modelling conventions.

    - Rows.  A table is the list of its rows in insertion order.  The
      display-only columns (barcode, cost, min_stock, category, image_url,
      contact data of customers) and the timestamps are left out: no
      handler below reads them.  The width of the integer and numeric
      columns is not modelled.
    - Money in the store.  The amount columns are [numeric(10,2)]: a
      stored amount is exact and is carried as an integer number of
      hundredths.
    - Money in the handlers.  The handlers compute with JavaScript
      numbers: they read a stored amount with [parseFloat] and hand a
      number to the store as the text [x.toString()].  The handlers are
      written over an interface [Number] of the operations they use, with
      two instances: [decimal], exact arithmetic on hundredths, and
      [binary64], the numbers JavaScript has.  Quantities and stocks are
      integers, which both represent exactly.  What depends on no
      arithmetic is stated for every instance; what is stated of amounts
      is stated in [decimal], and evaluated in [binary64] on amounts with
      two decimals.  A number with more decimals is rounded by the column
      that takes it, from the digits of its text.
    - Keys.  [serial] columns draw their value from a sequence kept next
      to the tables.
    - Effects.  A handler is a computation over a connection to the store:
      it returns a value or throws, and leaves a connection behind.  Every
      [.execute()] is one statement; the connection carries how many more
      statements the store will serve before it fails, so that a failure
      of the store in the middle of a handler can be expressed.
    - The [try { ... } catch (error) { console.error(...); throw error; }]
      frame around each handler rethrows what it caught and is the
      identity here. *)

From Stdlib Require Import ZArith List Bool String Lia Permutation.
From Stdlib Require PrimFloat Uint63 FloatOps SpecFloat.
Import ListNotations.
Open Scope Z_scope.

(** ** Numbers *)

Class Number : Type := {
  number : Type;
  zero : number;
  add : number -> number -> number;
  sub : number -> number -> number;
  (** [n * x] for an integer [n] *)
  times : Z -> number -> number;
  (** [x >= y] and [x > y] *)
  geb : number -> number -> bool;
  gtb : number -> number -> bool;
  (** [Math.max(x, y)], for numbers that are not NaN *)
  Math_max : number -> number -> number;
  (** [parseFloat(text)] of the text of a [numeric(10,2)] value, which is
      given in hundredths *)
  parseFloat : Z -> number;
  (** the value, in hundredths, that a [numeric(10,2)] column keeps of
      the text [x.toString()] *)
  to_numeric : number -> Z
}.

(** Exact arithmetic: a number is an amount in hundredths. *)
Definition decimal : Number :=
  {| number := Z;
     zero := 0;
     add := Z.add;
     sub := Z.sub;
     times := Z.mul;
     geb := Z.geb;
     gtb := Z.gtb;
     Math_max := Z.max;
     parseFloat := fun hundredths => hundredths;
     to_numeric := fun x => x |}.

(** The numbers of JavaScript. *)
Definition binary64_of_Z (z : Z) : PrimFloat.float :=
  if z <? 0
  then PrimFloat.opp (PrimFloat.of_uint63 (Uint63.of_Z (- z)))
  else PrimFloat.of_uint63 (Uint63.of_Z z).

(** The double nearest to [hundredths / 100]: the quotient of two
    integers that are doubles is rounded once. *)
Definition binary64_parseFloat (hundredths : Z) : PrimFloat.float :=
  PrimFloat.div (binary64_of_Z hundredths) (binary64_of_Z 100).

(** [numerator / denominator] rounded to the nearest integer, halves
    away from zero, for a non-negative numerator. *)
Definition round_half_up (numerator denominator : Z) : Z :=
  (2 * numerator + denominator) / (2 * denominator).

(** [x.toString()] writes the shortest decimal that reads back as [x]:
    digits [s] and an exponent [p] with [s * 10^p] nearer to [x] than to
    any other double, [p] as large as can be, and [s] the nearest to [x]
    then.  A double is [m * 2^e]; what reads back as it lies between the
    midpoints to the doubles next to it.

    [shortest_digits_at m e p]: the digits [s] for the exponent [p], when
    there are any. *)
Definition shortest_digits_at (m : positive) (e p : Z) : option Z :=
  let x := 4 * Z.pos m in
  (* the double and the two midpoints, in units of 2^(e-2); the double
     below is half as far where the mantissa starts a binade *)
  let low := if (Z.pos m =? 2 ^ 52) && (-1074 <? e) then x - 1 else x - 2 in
  let high := x + 2 in
  (* s * 10^p is s * a / b of these units *)
  let a := 10 ^ Z.max p 0 * 2 ^ Z.max (2 - e) 0 in
  let b := 10 ^ Z.max (- p) 0 * 2 ^ Z.max (e - 2) 0 in
  (* a midpoint reads back as the double when the mantissa is even *)
  let inclusive := Z.even (Z.pos m) in
  let s_min :=
    if inclusive then (low * b + a - 1) / a else low * b / a + 1 in
  let s_max :=
    if inclusive then high * b / a else (high * b + a - 1) / a - 1 in
  let below := x * b / a in
  let above := (x * b + a - 1) / a in
  if s_max <? s_min then None
  else if (s_min <=? below) && (above <=? s_max)
  then
    match (x * b - below * a) ?= (above * a - x * b) with
    | Lt => Some below
    | Gt => Some above
    | Eq => Some (if Z.even below then below else above)
    end
  else if s_min <=? below then Some below
  else Some above.

(** The digits and the exponent of the shortest decimal, looked for from
    the exponent [p] downwards. *)
Fixpoint shortest_decimal_from (fuel : nat) (m : positive) (e p : Z)
  : option (Z * Z) :=
  match fuel with
  | O => None
  | S fuel' =>
      match shortest_digits_at m e p with
      | Some s => Some (s, p)
      | None => shortest_decimal_from fuel' m e (p - 1)
      end
  end.

(** What a [numeric(10,2)] column keeps of the text [x.toString()]: the
    shortest decimal, rounded to two places, halves away from zero.  The
    decimal is looked for from an exponent above the size of [x] down to
    thousandths; when it has more places than that, no half hundredth
    reads back as [x], so that the decimal and [x] itself round alike, and
    [x] is rounded.  Not-a-number and the infinities, which no finite
    amount produces, are given 0. *)
Definition binary64_to_numeric (x : PrimFloat.float) : Z :=
  match FloatOps.Prim2SF x with
  | SpecFloat.S754_finite negative mantissa exponent =>
      (* x < 2^(54 + exponent) <= 10^first *)
      let first :=
        if 54 + exponent <=? 0 then 0
        else (54 + exponent) * 30103 / 100000 + 1 in
      let magnitude :=
        match shortest_decimal_from (Z.to_nat (first + 4)) mantissa exponent
                first with
        | Some (s, p) =>
            if -2 <=? p then s * 10 ^ (p + 2) else round_half_up s 10
        | None =>
            round_half_up (100 * Z.pos mantissa * 2 ^ Z.max exponent 0)
              (2 ^ Z.max (- exponent) 0)
        end in
      if negative then - magnitude else magnitude
  | _ => 0
  end.

Definition binary64 : Number :=
  {| number := PrimFloat.float;
     zero := PrimFloat.zero;
     add := PrimFloat.add;
     sub := PrimFloat.sub;
     times := fun n x => PrimFloat.mul (binary64_of_Z n) x;
     geb := fun x y => PrimFloat.leb y x;
     gtb := fun x y => PrimFloat.ltb y x;
     Math_max := fun x y => if PrimFloat.ltb x y then y else x;
     parseFloat := binary64_parseFloat;
     to_numeric := binary64_to_numeric |}.

(** ** Enumerations *)

(** [paymentMethodEnum] and [paymentStatusEnum]. *)
Inductive PaymentMethod : Type := cash | qris | debt | bank_transfer.
Inductive PaymentStatus : Type := paid | pending | partial.

(** [createPaymentInputSchema.payment_method]: a payment is never itself
    on credit. *)
Inductive SettlementMethod : Type := by_cash | by_qris | by_bank_transfer.

Definition as_payment_method (m : SettlementMethod) : PaymentMethod :=
  match m with
  | by_cash => cash
  | by_qris => qris
  | by_bank_transfer => bank_transfer
  end.

Definition PaymentMethod_eqb (a b : PaymentMethod) : bool :=
  match a, b with
  | cash, cash | qris, qris | debt, debt | bank_transfer, bank_transfer => true
  | _, _ => false
  end.

Definition PaymentStatus_eqb (a b : PaymentStatus) : bool :=
  match a, b with
  | paid, paid | pending, pending | partial, partial => true
  | _, _ => false
  end.

(** ** Rows of the tables *)

Module Product.
Record t : Type := {
  id : Z;
  name : string;
  price : Z;
  stock_quantity : Z;
  is_active : bool
}.
End Product.

Module TransactionRow.
Record t : Type := {
  id : Z;
  customer_id : option Z;
  total_amount : Z;
  discount_amount : Z;
  tax_amount : Z;
  final_amount : Z;
  payment_method : PaymentMethod;
  payment_status : PaymentStatus;
  notes : option string
}.
End TransactionRow.

Module TransactionItem.
Record t : Type := {
  id : Z;
  transaction_id : Z;
  product_id : Z;
  quantity : Z;
  unit_price : Z;
  subtotal : Z
}.
End TransactionItem.

Module PaymentRow.
Record t : Type := {
  id : Z;
  transaction_id : Z;
  customer_id : Z;
  amount : Z;
  payment_method : PaymentMethod;
  notes : option string
}.
End PaymentRow.

(** ** Inputs and results of the handlers *)

Module CartItem.
Record t {N : Number} : Type := {
  product_id : Z;
  quantity : Z;
  unit_price : number
}.
End CartItem.

Module CreateTransactionInput.
Record t {N : Number} : Type := {
  customer_id : option Z;
  items : list CartItem.t;
  discount_amount : number;
  tax_amount : number;
  payment_method : PaymentMethod;
  notes : option string
}.
End CreateTransactionInput.

Module Transaction.
Record t {N : Number} : Type := {
  id : Z;
  customer_id : option Z;
  total_amount : number;
  discount_amount : number;
  tax_amount : number;
  final_amount : number;
  payment_method : PaymentMethod;
  payment_status : PaymentStatus;
  notes : option string
}.
End Transaction.

Module CreatePaymentInput.
Record t {N : Number} : Type := {
  transaction_id : Z;
  customer_id : Z;
  amount : number;
  payment_method : SettlementMethod;
  notes : option string
}.
End CreatePaymentInput.

Module Payment.
Record t {N : Number} : Type := {
  id : Z;
  transaction_id : Z;
  customer_id : Z;
  amount : number;
  payment_method : SettlementMethod;
  notes : option string
}.
End Payment.

(** ** The store *)

Record Tables : Type := {
  products : list Product.t;
  transactions : list TransactionRow.t;
  transaction_items : list TransactionItem.t;
  payments : list PaymentRow.t
}.

(** Last value handed out by the sequence behind each [serial] key the
    handlers below insert into. *)
Record Sequences : Type := {
  transactions_id_seq : Z;
  transaction_items_id_seq : Z;
  payments_id_seq : Z
}.

Record Db : Type := {
  tables : Tables;
  sequences : Sequences
}.

(** ** Handler computations *)

Inductive Error : Type :=
| ProductNotFound (productId : Z)
    (* `Product with ID ${productId} not found` *)
| InsufficientStock (product : string) (available requested : Z)
    (* `Insufficient stock for product ${name}. Available: ..., Requested: ...` *)
| TransactionNotFound
    (* 'Transaction not found' *)
| NotADebtTransaction
    (* 'Payment can only be made for debt transactions' *)
| StorageError.
    (* raised by the driver when the store does not serve a statement *)

Inductive Outcome (A : Type) : Type :=
| Returned (a : A)
| Thrown (e : Error).
Arguments Returned {A} a.
Arguments Thrown {A} e.

(** [budget = None]: the store serves every statement; [budget = Some n]:
    it serves [n] more and fails on the next. *)
Record Conn : Type := {
  store : Db;
  budget : option nat
}.

Definition online (d : Db) : Conn := {| store := d; budget := None |}.
Definition failing_after (n : nat) (d : Db) : Conn :=
  {| store := d; budget := Some n |}.

(** A computation returns or throws, and in both cases leaves the
    connection as it was at that point: what was written before a throw
    stays written unless someone rolls it back. *)
Definition M (A : Type) : Type := Conn -> Outcome A * Conn.

Definition ret {A} (a : A) : M A := fun c => (Returned a, c).

Definition throw {A} (e : Error) : M A := fun c => (Thrown e, c).

Definition bind {A B} (m : M A) (k : A -> M B) : M B :=
  fun c =>
    match m c with
    | (Returned a, c') => k a c'
    | (Thrown e, c') => (Thrown e, c')
    end.

Declare Scope handler_scope.
Delimit Scope handler_scope with handler.
Notation "x <- m ;; k" := (bind m (fun x => k))
  (at level 61, m at next level, right associativity) : handler_scope.
Notation "m ;; k" := (bind m (fun _ => k))
  (at level 61, right associativity) : handler_scope.
Open Scope handler_scope.

(** [for (const x of l) { body }] *)
Fixpoint for_of {A} (l : list A) (body : A -> M unit) : M unit :=
  match l with
  | [] => ret tt
  | x :: rest => body x ;; for_of rest body
  end.

(** [const acc = []; for (const x of l) { ...; acc.push(y) }] *)
Fixpoint for_of_push {A B} (l : list A) (body : A -> M B) : M (list B) :=
  match l with
  | [] => ret []
  | x :: rest =>
      y <- body x ;;
      ys <- for_of_push rest body ;;
      ret (y :: ys)
  end.

(** One statement sent to the store: [query.execute()]. *)
Definition execute {A} (q : Db -> A * Db) : M A :=
  fun c =>
    match budget c with
    | Some O => (Thrown StorageError, c)
    | Some (S n) =>
        let (a, d) := q (store c) in
        (Returned a, {| store := d; budget := Some n |})
    | None =>
        let (a, d) := q (store c) in
        (Returned a, {| store := d; budget := None |})
    end.

(** [db.transaction(async (tx) => body)]: the writes of [body] are kept
    when it returns and undone when it throws.  Sequences are not
    transactional: a value drawn by a rolled back insert stays drawn. *)
Definition rollback (before now : Db) : Db :=
  {| tables := tables before; sequences := sequences now |}.

Definition transaction {A} (body : M A) : M A :=
  fun c =>
    match body c with
    | (Returned a, c') => (Returned a, c')
    | (Thrown e, c') =>
        (Thrown e, {| store := rollback (store c) (store c'); budget := budget c' |})
    end.

(** ** Statements *)

(** [select().from(table).where(cond)] *)
Definition select {R} (from : Tables -> list R) (where_ : R -> bool)
  : Db -> list R * Db :=
  fun d => (filter where_ (from (tables d)), d).

(** [eq(column, value)], and the same with a value that may be
    [undefined] (it then matches no row). *)
Definition eq_ {R} (column : R -> Z) (value : Z) : R -> bool :=
  fun r => column r =? value.

Definition eq_opt {R} (column : R -> Z) (value : option Z) : R -> bool :=
  fun r => match value with Some v => column r =? v | None => false end.

(** [eq(nullable_column, value)]: NULL is equal to nothing. *)
Definition eq_nullable {R} (column : R -> option Z) (value : Z) : R -> bool :=
  fun r => match column r with Some v => v =? value | None => false end.

Definition with_products (ps : list Product.t) (t : Tables) : Tables :=
  {| products := ps;
     transactions := transactions t;
     transaction_items := transaction_items t;
     payments := payments t |}.

Definition with_transactions (ts : list TransactionRow.t) (t : Tables) : Tables :=
  {| products := products t;
     transactions := ts;
     transaction_items := transaction_items t;
     payments := payments t |}.

Definition with_transaction_items (is_ : list TransactionItem.t) (t : Tables)
  : Tables :=
  {| products := products t;
     transactions := transactions t;
     transaction_items := is_;
     payments := payments t |}.

Definition with_payments (ps : list PaymentRow.t) (t : Tables) : Tables :=
  {| products := products t;
     transactions := transactions t;
     transaction_items := transaction_items t;
     payments := ps |}.

(** [insert(transactionsTable).values(v).returning()]: the row is given
    without its key, as a function of it. *)
Definition insert_transaction (values : Z -> TransactionRow.t)
  : Db -> TransactionRow.t * Db :=
  fun d =>
    let key := transactions_id_seq (sequences d) + 1 in
    let row := values key in
    (row,
     {| tables := with_transactions (transactions (tables d) ++ [row]) (tables d);
        sequences :=
          {| transactions_id_seq := key;
             transaction_items_id_seq := transaction_items_id_seq (sequences d);
             payments_id_seq := payments_id_seq (sequences d) |} |}).

(** [insert(transactionItemsTable).values(v)] *)
Definition insert_transaction_item (values : Z -> TransactionItem.t)
  : Db -> unit * Db :=
  fun d =>
    let key := transaction_items_id_seq (sequences d) + 1 in
    (tt,
     {| tables :=
          with_transaction_items
            (transaction_items (tables d) ++ [values key]) (tables d);
        sequences :=
          {| transactions_id_seq := transactions_id_seq (sequences d);
             transaction_items_id_seq := key;
             payments_id_seq := payments_id_seq (sequences d) |} |}).

(** [insert(paymentsTable).values(v).returning()] *)
Definition insert_payment (values : Z -> PaymentRow.t) : Db -> PaymentRow.t * Db :=
  fun d =>
    let key := payments_id_seq (sequences d) + 1 in
    let row := values key in
    (row,
     {| tables := with_payments (payments (tables d) ++ [row]) (tables d);
        sequences :=
          {| transactions_id_seq := transactions_id_seq (sequences d);
             transaction_items_id_seq := transaction_items_id_seq (sequences d);
             payments_id_seq := key |} |}).

Definition set_stock_quantity (n : Z) (p : Product.t) : Product.t :=
  {| Product.id := Product.id p;
     Product.name := Product.name p;
     Product.price := Product.price p;
     Product.stock_quantity := n;
     Product.is_active := Product.is_active p |}.

Definition set_payment_status (s : PaymentStatus) (t : TransactionRow.t)
  : TransactionRow.t :=
  {| TransactionRow.id := TransactionRow.id t;
     TransactionRow.customer_id := TransactionRow.customer_id t;
     TransactionRow.total_amount := TransactionRow.total_amount t;
     TransactionRow.discount_amount := TransactionRow.discount_amount t;
     TransactionRow.tax_amount := TransactionRow.tax_amount t;
     TransactionRow.final_amount := TransactionRow.final_amount t;
     TransactionRow.payment_method := TransactionRow.payment_method t;
     TransactionRow.payment_status := s;
     TransactionRow.notes := TransactionRow.notes t |}.

(** [update(table).set(change).where(cond)] on one table. *)
Definition update_where {R} (where_ : R -> bool) (change : R -> R)
  (rows : list R) : list R :=
  map (fun r => if where_ r then change r else r) rows.

Definition update_products (change : Product.t -> Product.t)
  (where_ : Product.t -> bool) : Db -> unit * Db :=
  fun d =>
    (tt,
     {| tables :=
          with_products (update_where where_ change (products (tables d)))
            (tables d);
        sequences := sequences d |}).

Definition update_transactions (change : TransactionRow.t -> TransactionRow.t)
  (where_ : TransactionRow.t -> bool) : Db -> unit * Db :=
  fun d =>
    (tt,
     {| tables :=
          with_transactions
            (update_where where_ change (transactions (tables d))) (tables d);
        sequences := sequences d |}).

(** * The handlers *)

Section Handlers.

Context {N : Number}.

(** ** createTransaction *)

(** [allProducts.find(p => p.id === id)] *)
Definition find_product (allProducts : list Product.t) (id : Z)
  : option Product.t :=
  find (fun p => Product.id p =? id) allProducts.

(** Step 1 of the handler: one select per cart line, in cart order. *)
Definition load_product (productId : Z) : M Product.t :=
  productResult <- execute (select products (eq_ Product.id productId)) ;;
  match productResult with
  | [] => throw (ProductNotFound productId)
  | first :: _ => ret first
  end.

(** Step 2: each line against the row loaded for its product. *)
Definition check_stock (allProducts : list Product.t) (item : CartItem.t)
  : M unit :=
  match find_product allProducts (CartItem.product_id item) with
  | None => throw (ProductNotFound (CartItem.product_id item))
  | Some product =>
      if Product.stock_quantity product <? CartItem.quantity item
      then throw (InsufficientStock (Product.name product)
                    (Product.stock_quantity product) (CartItem.quantity item))
      else ret tt
  end.

(** Step 3: [items.reduce((sum, item) => sum + item.quantity * item.unit_price, 0)] *)
Definition totalAmount (items : list CartItem.t) : number :=
  fold_left
    (fun sum item =>
       add sum (times (CartItem.quantity item) (CartItem.unit_price item)))
    items zero.

Definition finalAmount (input : CreateTransactionInput.t) : number :=
  add (sub (totalAmount (CreateTransactionInput.items input))
         (CreateTransactionInput.discount_amount input))
    (CreateTransactionInput.tax_amount input).

(** Step 4 *)
Definition paymentStatus (input : CreateTransactionInput.t) : PaymentStatus :=
  if PaymentMethod_eqb (CreateTransactionInput.payment_method input) debt
  then pending else paid.

(** Step 5: the values of the transaction row, each amount as the text
    of a number. *)
Definition transaction_values (input : CreateTransactionInput.t) (key : Z)
  : TransactionRow.t :=
  {| TransactionRow.id := key;
     TransactionRow.customer_id := CreateTransactionInput.customer_id input;
     TransactionRow.total_amount :=
       to_numeric (totalAmount (CreateTransactionInput.items input));
     TransactionRow.discount_amount :=
       to_numeric (CreateTransactionInput.discount_amount input);
     TransactionRow.tax_amount :=
       to_numeric (CreateTransactionInput.tax_amount input);
     TransactionRow.final_amount := to_numeric (finalAmount input);
     TransactionRow.payment_method := CreateTransactionInput.payment_method input;
     TransactionRow.payment_status := paymentStatus input;
     TransactionRow.notes := CreateTransactionInput.notes input |}.

(** Step 6: the values of one item row. *)
Definition item_values (transaction_ : TransactionRow.t) (item : CartItem.t)
  (key : Z) : TransactionItem.t :=
  {| TransactionItem.id := key;
     TransactionItem.transaction_id := TransactionRow.id transaction_;
     TransactionItem.product_id := CartItem.product_id item;
     TransactionItem.quantity := CartItem.quantity item;
     TransactionItem.unit_price := to_numeric (CartItem.unit_price item);
     TransactionItem.subtotal :=
       to_numeric (times (CartItem.quantity item) (CartItem.unit_price item)) |}.

(** Step 7: the new stock of a line is computed from the row loaded in
    step 1, and written to the rows with the line's product id. *)
Definition update_stock (allProducts : list Product.t) (item : CartItem.t)
  : M unit :=
  match find_product allProducts (CartItem.product_id item) with
  | Some product =>
      let newStockQuantity :=
        Product.stock_quantity product - CartItem.quantity item in
      execute (update_products (set_stock_quantity newStockQuantity)
                 (eq_ Product.id (CartItem.product_id item)))
  | None => ret tt
  end.

(** Step 8: the row that was inserted, its amounts read back as numbers. *)
Definition returned_transaction (transaction_ : TransactionRow.t)
  : Transaction.t :=
  {| Transaction.id := TransactionRow.id transaction_;
     Transaction.customer_id := TransactionRow.customer_id transaction_;
     Transaction.total_amount :=
       parseFloat (TransactionRow.total_amount transaction_);
     Transaction.discount_amount :=
       parseFloat (TransactionRow.discount_amount transaction_);
     Transaction.tax_amount :=
       parseFloat (TransactionRow.tax_amount transaction_);
     Transaction.final_amount :=
       parseFloat (TransactionRow.final_amount transaction_);
     Transaction.payment_method := TransactionRow.payment_method transaction_;
     Transaction.payment_status := TransactionRow.payment_status transaction_;
     Transaction.notes := TransactionRow.notes transaction_ |}.

Definition createTransaction_body (input : CreateTransactionInput.t)
  : M Transaction.t :=
  let items := CreateTransactionInput.items input in
  let productIds := map CartItem.product_id items in
  (* the result of this first select is not used *)
  _ <- execute (select products (eq_opt Product.id (hd_error productIds))) ;;
  allProducts <- for_of_push productIds load_product ;;
  for_of items (check_stock allProducts) ;;
  transaction_ <- execute (insert_transaction (transaction_values input)) ;;
  for_of items
    (fun item => execute (insert_transaction_item (item_values transaction_ item))) ;;
  for_of items (update_stock allProducts) ;;
  ret (returned_transaction transaction_).

Definition createTransaction (input : CreateTransactionInput.t)
  : M Transaction.t :=
  transaction (createTransaction_body input).

(** ** createPayment *)

(** The values of the payment row. *)
Definition payment_values (input : CreatePaymentInput.t) (key : Z)
  : PaymentRow.t :=
  {| PaymentRow.id := key;
     PaymentRow.transaction_id := CreatePaymentInput.transaction_id input;
     PaymentRow.customer_id := CreatePaymentInput.customer_id input;
     PaymentRow.amount := to_numeric (CreatePaymentInput.amount input);
     PaymentRow.payment_method :=
       as_payment_method (CreatePaymentInput.payment_method input);
     PaymentRow.notes := CreatePaymentInput.notes input |}.

(** [totalPayments.reduce((sum, payment) => sum + parseFloat(payment.amount), 0)] *)
Definition totalPaidAmount (totalPayments : list PaymentRow.t) : number :=
  fold_left (fun sum payment => add sum (parseFloat (PaymentRow.amount payment)))
    totalPayments zero.

(** The status derived from the amount paid so far, the amount due and
    the status read at the start of the handler. *)
Definition newPaymentStatus (stored : PaymentStatus)
  (totalPaid transactionFinalAmount : number) : PaymentStatus :=
  if geb totalPaid transactionFinalAmount then paid
  else if gtb totalPaid zero then partial
  else stored.

(** The payment that is returned: the inserted row, its amount read back
    as a number, with the payment method of the input. *)
Definition returned_payment (input : CreatePaymentInput.t) (payment : PaymentRow.t)
  : Payment.t :=
  {| Payment.id := PaymentRow.id payment;
     Payment.transaction_id := PaymentRow.transaction_id payment;
     Payment.customer_id := PaymentRow.customer_id payment;
     Payment.amount := parseFloat (PaymentRow.amount payment);
     Payment.payment_method := CreatePaymentInput.payment_method input;
     Payment.notes := PaymentRow.notes payment |}.

Definition createPayment (input : CreatePaymentInput.t) : M Payment.t :=
  let transaction_id := CreatePaymentInput.transaction_id input in
  transaction_ <-
    execute (select transactions (eq_ TransactionRow.id transaction_id)) ;;
  match transaction_ with
  | [] => throw TransactionNotFound
  | transaction0 :: _ =>
      if negb (PaymentMethod_eqb (TransactionRow.payment_method transaction0) debt)
      then throw NotADebtTransaction
      else
        payment <- execute (insert_payment (payment_values input)) ;;
        totalPayments <-
          execute (select payments (eq_ PaymentRow.transaction_id transaction_id)) ;;
        let status :=
          newPaymentStatus (TransactionRow.payment_status transaction0)
            (totalPaidAmount totalPayments)
            (parseFloat (TransactionRow.final_amount transaction0)) in
        (if negb (PaymentStatus_eqb status
                    (TransactionRow.payment_status transaction0))
         then execute (update_transactions (set_payment_status status)
                         (eq_ TransactionRow.id transaction_id))
         else ret tt) ;;
        ret (returned_payment input payment)
  end.

(** ** getCustomerDebt *)

(** [select({ total: sum(column) }).from(table).where(cond)]: one row,
    whose [total] is NULL when no row matches.  The sum is computed by the
    store, on numeric values. *)
Definition select_sum {R} (from : Tables -> list R) (column : R -> Z)
  (where_ : R -> bool) : Db -> list (option Z) * Db :=
  fun d =>
    let matching := filter where_ (from (tables d)) in
    ([match matching with
      | [] => None
      | _ :: _ => Some (fold_left (fun sum r => sum + column r) matching 0)
      end], d).

(** [parseFloat(rows[0]?.total || '0')] *)
Definition total_or_zero (rows : list (option Z)) : number :=
  match rows with
  | Some total :: _ => parseFloat total
  | _ => parseFloat 0
  end.

(** [payment_status IN ('pending', 'partial')] *)
Definition is_unpaid (t : TransactionRow.t) : bool :=
  match TransactionRow.payment_status t with
  | pending | partial => true
  | paid => false
  end.

Definition getCustomerDebt (customerId : Z) : M number :=
  unpaidTransactions <-
    execute (select_sum transactions TransactionRow.final_amount
               (fun t => eq_nullable TransactionRow.customer_id customerId t
                         && is_unpaid t)) ;;
  totalPayments <-
    execute (select_sum payments PaymentRow.amount
               (eq_ PaymentRow.customer_id customerId)) ;;
  let unpaidAmount := total_or_zero unpaidTransactions in
  let paidAmount := total_or_zero totalPayments in
  let debt_ := sub unpaidAmount paidAmount in
  ret (Math_max debt_ zero).

End Handlers.

(** * Vocabulary of the statements *)

(** [triple P m Q E]: started on a connection satisfying [P], the
    computation [m] either returns [a] leaving a connection with [Q a], or
    throws [e] leaving a connection with [E e].  Computations are total
    functions, so one of the two always happens. *)
Definition triple {A} (P : Conn -> Prop) (m : M A)
  (Q : A -> Conn -> Prop) (E : Error -> Conn -> Prop) : Prop :=
  forall c, P c ->
    match m c with
    | (Returned a, c') => Q a c'
    | (Thrown e, c') => E e c'
    end.

(** What a served statement leaves of the budget. *)
Definition spend (b : option nat) : option nat :=
  match b with
  | Some (S n) => Some n
  | other => other
  end.

(** The sum of a column over rows. *)
Definition sum_of {R} (g : R -> Z) (l : list R) : Z :=
  fold_right (fun r acc => g r + acc) 0 l.

(** A store that serves every statement when a call starts (on [c0])
    still does so later in the call (on [c]). *)
Definition keeps_serving (c0 c : Conn) : Prop :=
  budget c0 = None -> budget c = None.

Definition stock_nonnegative (rows : list Product.t) : Prop :=
  Forall (fun p => 0 <= Product.stock_quantity p) rows.

(** The primary key of the products table. *)
Definition unique_product_ids (rows : list Product.t) : Prop :=
  NoDup (map Product.id rows).

(** The row createPayment reads as [transaction[0]]. *)
Definition find_transaction (rows : list TransactionRow.t) (id : Z)
  : option TransactionRow.t :=
  find (fun t => TransactionRow.id t =? id) rows.

(** The payment status stored for a transaction. *)
Definition stored_status (d : Db) (transactionId : Z) : option PaymentStatus :=
  option_map TransactionRow.payment_status
    (find_transaction (transactions (tables d)) transactionId).

(** The payment ledger of a transaction, and what it adds up to. *)
Definition payments_of (d : Db) (transactionId : Z) : list PaymentRow.t :=
  filter (fun p => PaymentRow.transaction_id p =? transactionId)
    (payments (tables d)).

Definition paid_on (d : Db) (transactionId : Z) : Z :=
  sum_of PaymentRow.amount (payments_of d transactionId).

(** Customer debt as the specification writes it: the transactions of a
    customer that are not fully paid, less all the customer's payments,
    not below zero. *)
Definition owed_by (customerId : Z) (t : TransactionRow.t) : bool :=
  match TransactionRow.customer_id t, TransactionRow.payment_status t with
  | Some c, pending | Some c, partial => c =? customerId
  | _, _ => false
  end.

Definition unpaid_total (d : Db) (customerId : Z) : Z :=
  sum_of TransactionRow.final_amount
    (filter (owed_by customerId) (transactions (tables d))).

Definition paid_total (d : Db) (customerId : Z) : Z :=
  sum_of PaymentRow.amount
    (filter (fun p => PaymentRow.customer_id p =? customerId)
       (payments (tables d))).

Definition customer_debt (d : Db) (customerId : Z) : Z :=
  Z.max 0 (unpaid_total d customerId - paid_total d customerId).

Section Vocabulary.

Context {N : Number}.

(** A cart line passes the two validation steps on the rows [rows] when
    its product is there with at least the quantity of the line. *)
Definition accepted (rows : list Product.t) (item : CartItem.t) : bool :=
  match find_product rows (CartItem.product_id item) with
  | Some product => CartItem.quantity item <=? Product.stock_quantity product
  | None => false
  end.

(** The two ways a cart line fails validation. *)
Definition missing_product (rows : list Product.t) (item : CartItem.t) : Prop :=
  find_product rows (CartItem.product_id item) = None.

Definition insufficient_stock (rows : list Product.t) (item : CartItem.t)
  : Prop :=
  exists product,
    find_product rows (CartItem.product_id item) = Some product
    /\ Product.stock_quantity product < CartItem.quantity item.

(** The error thrown for a line that does not pass. *)
Definition rejection (rows : list Product.t) (item : CartItem.t) : Error :=
  match find_product rows (CartItem.product_id item) with
  | Some product =>
      InsufficientStock (Product.name product) (Product.stock_quantity product)
        (CartItem.quantity item)
  | None => ProductNotFound (CartItem.product_id item)
  end.

(** The products table after step 7 has run over [items], the new stock
    of each line being computed from the rows [loaded] before any write. *)
Definition sell_line (loaded : list Product.t) (rows : list Product.t)
  (item : CartItem.t) : list Product.t :=
  match find_product loaded (CartItem.product_id item) with
  | Some product =>
      update_where (eq_ Product.id (CartItem.product_id item))
        (set_stock_quantity
           (Product.stock_quantity product - CartItem.quantity item))
        rows
  | None => rows
  end.

Definition sell (loaded : list Product.t) (items : list CartItem.t)
  : list Product.t :=
  fold_left (sell_line loaded) items loaded.

(** Why a call of createTransaction started on [c0] can throw: the store
    refused a statement, or a cart line did not pass validation. *)
Definition failure (input : CreateTransactionInput.t) (c0 : Conn) (e : Error)
  : Prop :=
  (e = StorageError /\ budget c0 <> None)
  \/ exists item,
       In item (CreateTransactionInput.items input)
       /\ accepted (products (tables (store c0))) item = false
       /\ e = rejection (products (tables (store c0))) item.

(** The products table at any point of a call started on [c0]: the stock
    updates of the first lines of the cart, all of which passed
    validation, have been written. *)
Definition partly_sold (input : CreateTransactionInput.t) (c0 c : Conn)
  : Prop :=
  exists visited rest,
    CreateTransactionInput.items input = visited ++ rest
    /\ Forall (fun item => accepted (products (tables (store c0))) item = true)
         visited
    /\ products (tables (store c))
       = sell (products (tables (store c0))) visited.

(** The quantities of a cart, and the stock held by the products a cart
    refers to. *)
Definition quantity_sold (items : list CartItem.t) : Z :=
  sum_of CartItem.quantity items.

Definition affected (items : list CartItem.t) (p : Product.t) : bool :=
  existsb (fun item => Product.id p =? CartItem.product_id item) items.

Definition affected_stock (items : list CartItem.t) (rows : list Product.t)
  : Z :=
  sum_of Product.stock_quantity (filter (affected items) rows).

(** The quantity a cart asks of one product, over all its lines. *)
Definition cumulative_demand (items : list CartItem.t) (productId : Z) : Z :=
  sum_of CartItem.quantity
    (filter (fun item => CartItem.product_id item =? productId) items).

(** The store after a payment on the debt transaction [transaction0] went
    through: the payment row, then the status when it changes. *)
Definition settled (input : CreatePaymentInput.t)
  (transaction0 : TransactionRow.t) (d : Db) : Db :=
  let d1 := snd (insert_payment (payment_values input) d) in
  let status :=
    newPaymentStatus (TransactionRow.payment_status transaction0)
      (totalPaidAmount
         (payments_of d1 (CreatePaymentInput.transaction_id input)))
      (parseFloat (TransactionRow.final_amount transaction0)) in
  if PaymentStatus_eqb status (TransactionRow.payment_status transaction0)
  then d1
  else snd (update_transactions (set_payment_status status)
              (eq_ TransactionRow.id (CreatePaymentInput.transaction_id input))
              d1).

(** Payments recorded one after the other. *)
Definition record_payments (inputs : list CreatePaymentInput.t) : M unit :=
  for_of inputs (fun input => createPayment input ;; ret tt).

(** A call of one of the three handlers, and the store after a run of
    calls, each made on a connection that serves the given number of
    statements ([None]: all of them). *)
Inductive Call : Type :=
| CreateTransaction (input : CreateTransactionInput.t)
| CreatePayment (input : CreatePaymentInput.t)
| GetCustomerDebt (customerId : Z).

Definition after_call (d : Db) (call : Call * option nat) : Db :=
  let c := {| store := d; budget := snd call |} in
  match fst call with
  | CreateTransaction input => store (snd (createTransaction input c))
  | CreatePayment input => store (snd (createPayment input c))
  | GetCustomerDebt customerId => store (snd (getCustomerDebt customerId c))
  end.

Definition after_calls (calls : list (Call * option nat)) (d : Db) : Db :=
  fold_left after_call calls d.

(** ** The claims that do not hold of the code, as they are stated *)

(** Conservation of stock, for every cart. *)
Definition stock_conservation : Prop :=
  forall input c0 t c,
    createTransaction input c0 = (Returned t, c) ->
    affected_stock (CreateTransactionInput.items input)
      (products (tables (store c0)))
    - affected_stock (CreateTransactionInput.items input)
        (products (tables (store c)))
    = quantity_sold (CreateTransactionInput.items input).

(** Validation of the cumulative demand on a product. *)
Definition cumulative_stock_validation : Prop :=
  forall input d item product,
    In item (CreateTransactionInput.items input) ->
    find_product (products (tables d)) (CartItem.product_id item)
    = Some product ->
    Product.stock_quantity product
    < cumulative_demand (CreateTransactionInput.items input)
        (CartItem.product_id item) ->
    exists requested,
      fst (createTransaction input (online d))
      = Thrown (InsufficientStock (Product.name product)
                  (Product.stock_quantity product) requested).

(** Gating on [is_active]. *)
Definition active_product_gating : Prop :=
  forall input c0 item product,
    In item (CreateTransactionInput.items input) ->
    find_product (products (tables (store c0))) (CartItem.product_id item)
    = Some product ->
    Product.is_active product = false ->
    forall t c, createTransaction input c0 <> (Returned t, c).

(** The stored status follows the payment ledger: after a payment on a
    debt transaction, paid when the payments of the transaction add up to
    its final amount or more, partial when they add up to something
    strictly between zero and the final amount. *)
Definition status_follows_ledger : Prop :=
  forall d input transaction0 payment d',
    find_transaction (transactions (tables d))
      (CreatePaymentInput.transaction_id input) = Some transaction0 ->
    TransactionRow.payment_method transaction0 = debt ->
    createPayment input (online d) = (Returned payment, online d') ->
    (TransactionRow.final_amount transaction0
     <= paid_on d' (CreatePaymentInput.transaction_id input) ->
     stored_status d' (CreatePaymentInput.transaction_id input) = Some paid)
    /\ (0 < paid_on d' (CreatePaymentInput.transaction_id input)
          < TransactionRow.final_amount transaction0 ->
        stored_status d' (CreatePaymentInput.transaction_id input)
        = Some partial).

(** The final status does not depend on the order of the payments. *)
Definition status_order_independent : Prop :=
  forall d transactionId transaction0 inputs1 inputs2 d1 d2,
    find_transaction (transactions (tables d)) transactionId
    = Some transaction0 ->
    TransactionRow.payment_method transaction0 = debt ->
    Permutation inputs1 inputs2 ->
    Forall (fun input =>
              CreatePaymentInput.transaction_id input = transactionId
              /\ 0 < to_numeric (CreatePaymentInput.amount input)) inputs1 ->
    record_payments inputs1 (online d) = (Returned tt, online d1) ->
    record_payments inputs2 (online d) = (Returned tt, online d2) ->
    stored_status d1 transactionId = stored_status d2 transactionId.

(** ** Sample data: amounts are given in hundredths *)

Definition a_line (productId quantity unit_price : Z) : CartItem.t :=
  {| CartItem.product_id := productId;
     CartItem.quantity := quantity;
     CartItem.unit_price := parseFloat unit_price |}.

Definition a_cart (lines : list CartItem.t) (discount tax : Z)
  (method : PaymentMethod) : CreateTransactionInput.t :=
  {| CreateTransactionInput.customer_id := None;
     CreateTransactionInput.items := lines;
     CreateTransactionInput.discount_amount := parseFloat discount;
     CreateTransactionInput.tax_amount := parseFloat tax;
     CreateTransactionInput.payment_method := method;
     CreateTransactionInput.notes := None |}.

Definition a_payment (transactionId customerId amount : Z)
  : CreatePaymentInput.t :=
  {| CreatePaymentInput.transaction_id := transactionId;
     CreatePaymentInput.customer_id := customerId;
     CreatePaymentInput.amount := parseFloat amount;
     CreatePaymentInput.payment_method := by_cash;
     CreatePaymentInput.notes := None |}.

End Vocabulary.

(** The tables once the transaction row [t] is in, with [rows] as
    products. *)
Definition ledger_written (c0 : Conn) (t : TransactionRow.t)
  (rows : list Product.t) (c : Conn) : Prop :=
  products (tables (store c)) = rows
  /\ transactions (tables (store c))
     = transactions (tables (store c0)) ++ [t]
  /\ payments (tables (store c)) = payments (tables (store c0))
  /\ keeps_serving c0 c.


(** The status after a run of payments of the given amounts, in exact
    arithmetic, from the status [stored] and the amount [paid] so far. *)
Fixpoint status_after (final : Z) (stored : PaymentStatus) (paid : Z)
  (amounts : list Z) : PaymentStatus :=
  match amounts with
  | [] => stored
  | a :: rest =>
      status_after final
        (newPaymentStatus (N := decimal) stored (paid + a) final) (paid + a)
        rest
  end.

Definition a_product (id stock : Z) (active : bool) : Product.t :=
  {| Product.id := id;
     Product.name := "P";
     Product.price := 1000;
     Product.stock_quantity := stock;
     Product.is_active := active |}.

Definition a_shop (rows : list Product.t) : Db :=
  {| tables :=
       {| products := rows;
          transactions := [];
          transaction_items := [];
          payments := [] |};
     sequences :=
       {| transactions_id_seq := 0;
          transaction_items_id_seq := 0;
          payments_id_seq := 0 |} |}.

Definition a_sale (id : Z) (customer : option Z) (final : Z)
  (method : PaymentMethod) (status : PaymentStatus) : TransactionRow.t :=
  {| TransactionRow.id := id;
     TransactionRow.customer_id := customer;
     TransactionRow.total_amount := final;
     TransactionRow.discount_amount := 0;
     TransactionRow.tax_amount := 0;
     TransactionRow.final_amount := final;
     TransactionRow.payment_method := method;
     TransactionRow.payment_status := status;
     TransactionRow.notes := None |}.

Definition a_ledger (sales : list TransactionRow.t) (paid : list PaymentRow.t)
  : Db :=
  {| tables :=
       {| products := [];
          transactions := sales;
          transaction_items := [];
          payments := paid |};
     sequences :=
       {| transactions_id_seq := Z.of_nat (List.length sales);
          transaction_items_id_seq := 0;
          payments_id_seq := Z.of_nat (List.length paid) |} |}.

Definition a_paid (id transactionId customerId amount : Z) : PaymentRow.t :=
  {| PaymentRow.id := id;
     PaymentRow.transaction_id := transactionId;
     PaymentRow.customer_id := customerId;
     PaymentRow.amount := amount;
     PaymentRow.payment_method := cash;
     PaymentRow.notes := None |}.

(** * The handlers that read back, the router and the point of sale *)

(** ** getProductById and getTransactionById

    (server/src/handlers/get_product_by_id.ts,
    server/src/handlers/get_transaction_by_id.ts) *)

(** [productSchema]: a row of the products table as the API gives it,
    its price a number. *)
Module ApiProduct.
Record t {N : Number} : Type := {
  id : Z;
  name : string;
  price : number;
  stock_quantity : Z;
  is_active : bool
}.
End ApiProduct.

(** A row of the customers table.  No handler of this development writes
    that table: where a handler reads it, its rows are given. *)
Module Customer.
Record t : Type := {
  id : Z;
  name : string
}.
End Customer.

(** [left.leftJoin(right, on)]: each row of the left side with every row
    of the right side that matches it, or with NULL when none does. *)
Definition leftJoin {L R} (left : list L) (right : list R) (on : L -> R -> bool)
  : list (L * option R) :=
  flat_map
    (fun l =>
       match filter (on l) right with
       | [] => [(l, None)]
       | matching => map (fun r => (l, Some r)) matching
       end)
    left.

(** A row of transactions left-joined with customers, transaction items
    and products, and its [transactions] part. *)
Definition JoinedRow : Type :=
  TransactionRow.t * option Customer.t * option TransactionItem.t
  * option Product.t.

Definition joined_transactions (row : JoinedRow) : TransactionRow.t :=
  fst (fst (fst row)).

(** The statement of getTransactionById. *)
Definition select_transaction_joined (customersTable : list Customer.t) (id : Z)
  : Db -> list JoinedRow * Db :=
  fun d =>
    let with_customers :=
      leftJoin (transactions (tables d)) customersTable
        (fun t c =>
           match TransactionRow.customer_id t with
           | Some customerId => customerId =? Customer.id c
           | None => false
           end) in
    let with_items :=
      leftJoin with_customers (transaction_items (tables d))
        (fun row item =>
           TransactionRow.id (fst row) =? TransactionItem.transaction_id item) in
    let with_products :=
      leftJoin with_items (products (tables d))
        (fun row p =>
           match snd row with
           | Some item => TransactionItem.product_id item =? Product.id p
           | None => false
           end) in
    (filter (fun row => TransactionRow.id (joined_transactions row) =? id)
       with_products,
     d).

Section ReadBack.

Context {N : Number}.

Definition returned_product (product : Product.t) : ApiProduct.t :=
  {| ApiProduct.id := Product.id product;
     ApiProduct.name := Product.name product;
     ApiProduct.price := parseFloat (Product.price product);
     ApiProduct.stock_quantity := Product.stock_quantity product;
     ApiProduct.is_active := Product.is_active product |}.

Definition getProductById (id : Z) : M (option ApiProduct.t) :=
  result <- execute (select products (eq_ Product.id id)) ;;
  match result with
  | [] => ret None
  | product :: _ => ret (Some (returned_product product))
  end.

Definition getTransactionById (customersTable : list Customer.t) (id : Z)
  : M (option Transaction.t) :=
  result <- execute (select_transaction_joined customersTable id) ;;
  match result with
  | [] => ret None
  | first :: _ => ret (Some (returned_transaction (joined_transactions first)))
  end.

(** ** The input schemas (server/src/schema.ts)

    The types of the fields are those of the records; what is left of a
    schema is the conditions on the values. *)

(** [z.number().positive()], [z.number().nonnegative()] *)
Definition positive (x : number) : bool := gtb x zero.
Definition nonnegative (x : number) : bool := geb x zero.

Definition createTransactionInputSchema (input : CreateTransactionInput.t)
  : bool :=
  forallb
    (fun item =>
       (0 <? CartItem.quantity item) && positive (CartItem.unit_price item))
    (CreateTransactionInput.items input)
  && (1 <=? Z.of_nat (List.length (CreateTransactionInput.items input)))
  && nonnegative (CreateTransactionInput.discount_amount input)
  && nonnegative (CreateTransactionInput.tax_amount input).

Definition createPaymentInputSchema (input : CreatePaymentInput.t) : bool :=
  positive (CreatePaymentInput.amount input).

End ReadBack.

(** ** The router (server/src/index.ts) *)

(** What a procedure answers: the result of its handler, or the error
    that is made of an input the schema refuses ([BAD_REQUEST]) or of an
    exception of the handler ([INTERNAL_SERVER_ERROR]). *)
Inductive Response (A : Type) : Type :=
| Ok (data : A)
| BAD_REQUEST
| INTERNAL_SERVER_ERROR (cause : Error).
Arguments Ok {A} data.
Arguments BAD_REQUEST {A}.
Arguments INTERNAL_SERVER_ERROR {A} cause.

(** [publicProcedure.input(schema).mutation(({ input }) => handler(input))] *)
Definition procedure {I A} (schema : I -> bool) (handler : I -> M A) (input : I)
  : Conn -> Response A * Conn :=
  fun c =>
    if schema input
    then match handler input c with
         | (Returned a, c') => (Ok a, c')
         | (Thrown e, c') => (INTERNAL_SERVER_ERROR e, c')
         end
    else (BAD_REQUEST, c).

Module appRouter.
Section Procedures.

Context {N : Number}.

Definition createTransaction :=
  procedure createTransactionInputSchema createTransaction.

Definition createPayment :=
  procedure createPaymentInputSchema createPayment.

End Procedures.
End appRouter.

(** ** The cart of the point of sale (client/src/components/POSSystem.tsx) *)

Module POSSystem.

(** [interface CartItem] of the component. *)
Module CartLine.
Record t {N : Number} : Type := {
  product : ApiProduct.t;
  quantity : Z;
  subtotal : number
}.
End CartLine.

(** The state of the component that a checkout reads. *)
Record State {N : Number} : Type := {
  cart : list CartLine.t;
  selectedCustomer : option Customer.t;
  discountAmount : number;
  taxAmount : number;
  paymentMethod : PaymentMethod;
  notes : string
}.

Section Component.

Context {N : Number}.

Definition addToCart (product : ApiProduct.t) (prevCart : list CartLine.t)
  : list CartLine.t :=
  match find (fun item =>
                ApiProduct.id (CartLine.product item) =? ApiProduct.id product)
          prevCart with
  | Some existingItem =>
      map (fun item =>
             if ApiProduct.id (CartLine.product item) =? ApiProduct.id product
             then {| CartLine.product := CartLine.product item;
                     CartLine.quantity := CartLine.quantity item + 1;
                     CartLine.subtotal :=
                       times (CartLine.quantity item + 1)
                         (ApiProduct.price (CartLine.product item)) |}
             else item)
        prevCart
  | None =>
      prevCart ++ [{| CartLine.product := product;
                      CartLine.quantity := 1;
                      CartLine.subtotal := ApiProduct.price product |}]
  end.

Definition removeFromCart (productId : Z) (prevCart : list CartLine.t)
  : list CartLine.t :=
  filter (fun item => negb (ApiProduct.id (CartLine.product item) =? productId))
    prevCart.

Definition updateQuantity (productId quantity : Z) (prevCart : list CartLine.t)
  : list CartLine.t :=
  if quantity <=? 0
  then removeFromCart productId prevCart
  else
    map (fun item =>
           if ApiProduct.id (CartLine.product item) =? productId
           then {| CartLine.product := CartLine.product item;
                   CartLine.quantity := quantity;
                   CartLine.subtotal :=
                     times quantity (ApiProduct.price (CartLine.product item)) |}
           else item)
      prevCart.

(** [cart.reduce((sum, item) => sum + item.subtotal, 0)] *)
Definition subtotal (cart_ : list CartLine.t) : number :=
  fold_left (fun sum item => add sum (CartLine.subtotal item)) cart_ zero.

Definition total (s : State) : number :=
  add (sub (subtotal (cart s)) (discountAmount s)) (taxAmount s).

(** The request of a checkout. *)
Definition transactionData (s : State) : CreateTransactionInput.t :=
  {| CreateTransactionInput.customer_id :=
       (* selectedCustomer?.id || null *)
       match selectedCustomer s with
       | Some customer =>
           if Customer.id customer =? 0 then None else Some (Customer.id customer)
       | None => None
       end;
     CreateTransactionInput.items :=
       map (fun item =>
              {| CartItem.product_id := ApiProduct.id (CartLine.product item);
                 CartItem.quantity := CartLine.quantity item;
                 CartItem.unit_price := ApiProduct.price (CartLine.product item) |})
         (cart s);
     CreateTransactionInput.discount_amount := discountAmount s;
     CreateTransactionInput.tax_amount := taxAmount s;
     CreateTransactionInput.payment_method := paymentMethod s;
     CreateTransactionInput.notes :=
       (* notes || null *)
       match notes s with
       | EmptyString => None
       | text => Some text
       end |}.

(** The form as it is reset after a sale. *)
Definition reset : State :=
  {| cart := [];
     selectedCustomer := None;
     discountAmount := zero;
     taxAmount := zero;
     paymentMethod := cash;
     notes := EmptyString |}.

(** The state of the component and the connection of the server after a
    checkout: nothing is sent for an empty cart; the form is reset when
    the server answers with the transaction, and kept when it answers with
    an error. *)
Definition processTransaction (s : State) : Conn -> State * Conn :=
  fun c =>
    match cart s with
    | [] => (s, c)
    | _ :: _ =>
        match appRouter.createTransaction (transactionData s) c with
        | (Ok _, c') => (reset, c')
        | (_, c') => (s, c')
        end
    end.

(** What the cashier does to the cart, and the cart after a run of such
    actions on an empty cart. *)
Inductive Action : Type :=
| AddToCart (product : ApiProduct.t)
| UpdateQuantity (productId quantity : Z)
| RemoveFromCart (productId : Z).

Definition act (cart_ : list CartLine.t) (action : Action) : list CartLine.t :=
  match action with
  | AddToCart product => addToCart product cart_
  | UpdateQuantity productId quantity => updateQuantity productId quantity cart_
  | RemoveFromCart productId => removeFromCart productId cart_
  end.

Definition cart_after (actions : list Action) : list CartLine.t :=
  fold_left act actions [].

End Component.
End POSSystem.

(** ** Vocabulary of the further statements *)


(** The transactions table differs at most in the payment status of the
    rows with the given id. *)
Definition only_status_changed (transactionId : Z)
  (before after : list TransactionRow.t) : Prop :=
  Forall2
    (fun t t' =>
       (exists status, t' = set_payment_status status t)
       /\ (TransactionRow.id t <> transactionId -> t' = t))
    before after.

(** The products table differs at most in stock quantities. *)
Definition only_stock_changed (before after : list Product.t) : Prop :=
  Forall2 (fun p p' => exists n, p' = set_stock_quantity n p) before after.

Section FurtherVocabulary.

Context {N : Number}.

(** The first line of a cart whose product is not in the rows, and the
    first line that does not pass validation. *)
Definition is_missing (rows : list Product.t) (item : CartItem.t) : bool :=
  match find_product rows (CartItem.product_id item) with
  | Some _ => false
  | None => true
  end.

Definition first_missing (rows : list Product.t) (items : list CartItem.t)
  : option CartItem.t :=
  find (is_missing rows) items.

Definition first_rejected (rows : list Product.t) (items : list CartItem.t)
  : option CartItem.t :=
  find (fun item => negb (accepted rows item)) items.

(** The last line of a cart that names a product, and the stock a sale
    leaves of a product. *)
Definition last_line (items : list CartItem.t) (productId : Z)
  : option CartItem.t :=
  find (fun item => CartItem.product_id item =? productId) (rev items).

Definition stock_after_sale (items : list CartItem.t) (p : Product.t) : Z :=
  match last_line items (Product.id p) with
  | Some item => Product.stock_quantity p - CartItem.quantity item
  | None => Product.stock_quantity p
  end.

(** The item row of a cart line of the transaction with the given id. *)
Definition item_row_of (transactionId : Z) (item : CartItem.t)
  (row : TransactionItem.t) : Prop :=
  TransactionItem.transaction_id row = transactionId
  /\ TransactionItem.product_id row = CartItem.product_id item
  /\ TransactionItem.quantity row = CartItem.quantity item
  /\ TransactionItem.unit_price row = to_numeric (CartItem.unit_price item)
  /\ TransactionItem.subtotal row
     = to_numeric (times (CartItem.quantity item) (CartItem.unit_price item)).

End FurtherVocabulary.
(** Sample data of the point of sale: a listed product, and the form
    after a run of actions on the cart, amounts in hundredths. *)
Definition a_listed {N : Number} (id stock : Z) : ApiProduct.t :=
  returned_product (a_product id stock true).

Definition a_till {N : Number} (actions : list POSSystem.Action)
  (discount tax : Z) (method : PaymentMethod) : POSSystem.State :=
  {| POSSystem.cart := POSSystem.cart_after actions;
     POSSystem.selectedCustomer := None;
     POSSystem.discountAmount := parseFloat discount;
     POSSystem.taxAmount := parseFloat tax;
     POSSystem.paymentMethod := method;
     POSSystem.notes := EmptyString |}.

(** ** Stores that differ only in [is_active], and amounts as stored *)

(** Two rows of the products table that differ at most in [is_active]. *)
Definition same_but_is_active (p p' : Product.t) : Prop :=
  Product.id p' = Product.id p
  /\ Product.name p' = Product.name p
  /\ Product.price p' = Product.price p
  /\ Product.stock_quantity p' = Product.stock_quantity p.

(** Two stores that differ at most in the [is_active] of their
    products. *)
Definition differ_in_is_active_only (d d' : Db) : Prop :=
  Forall2 same_but_is_active (products (tables d)) (products (tables d'))
  /\ transactions (tables d') = transactions (tables d)
  /\ transaction_items (tables d') = transaction_items (tables d)
  /\ payments (tables d') = payments (tables d)
  /\ sequences d' = sequences d.

(** Two computations that, on two such stores serving the same number of
    statements, both return, values related by [V], or both throw, the
    same error, and leave two such stores, still serving the same number
    of statements. *)
Definition alike {A B} (V : A -> B -> Prop) (m : M A) (m' : M B) : Prop :=
  forall c c',
    differ_in_is_active_only (store c) (store c') ->
    budget c' = budget c ->
    match m c, m' c' with
    | (Returned a, c1), (Returned a', c1') =>
        V a a'
        /\ differ_in_is_active_only (store c1) (store c1')
        /\ budget c1' = budget c1
    | (Thrown e, c1), (Thrown e', c1') =>
        e' = e
        /\ differ_in_is_active_only (store c1) (store c1')
        /\ budget c1' = budget c1
    | _, _ => False
    end.


(** Sample data: a double given in thousandths, and a sale of one unit
    of product 1 with its amounts in thousandths. *)
Definition thousandths (z : Z) : @number binary64 :=
  PrimFloat.div (binary64_of_Z z) (binary64_of_Z 1000).

Definition a_sale_in_thousandths (unit_price discount tax : Z)
  : @CreateTransactionInput.t binary64 :=
  {| CreateTransactionInput.customer_id := None;
     CreateTransactionInput.items :=
       [{| CartItem.product_id := 1;
           CartItem.quantity := 1;
           CartItem.unit_price := thousandths unit_price |}];
     CreateTransactionInput.discount_amount := thousandths discount;
     CreateTransactionInput.tax_amount := thousandths tax;
     CreateTransactionInput.payment_method := cash;
     CreateTransactionInput.notes := None |}.

(** * Reasoning about handler computations *)

Section Triples.

Lemma triple_ret {A} (P : Conn -> Prop) (a : A) Q E :
  (forall c, P c -> Q a c) -> triple P (ret a) Q E.
Proof. intros H c Hc. simpl. auto. Qed.

Lemma triple_throw {A} (P : Conn -> Prop) e (Q : A -> Conn -> Prop) E :
  (forall c, P c -> E e c) -> triple P (throw e) Q E.
Proof. intros H c Hc. simpl. auto. Qed.

Lemma triple_bind {A B} P (m : M A) (k : A -> M B) R Q E :
  triple P m R E ->
  (forall a, triple (R a) (k a) Q E) ->
  triple P (bind m k) Q E.
Proof.
  intros Hm Hk c Hc. unfold bind.
  specialize (Hm c Hc). destruct (m c) as [[a | e] c']; [ | exact Hm].
  exact (Hk a c' Hm).
Qed.

Lemma triple_weaken {A} (P P' : Conn -> Prop) (m : M A)
  (Q Q' : A -> Conn -> Prop) (E E' : Error -> Conn -> Prop) :
  triple P' m Q' E' ->
  (forall c, P c -> P' c) ->
  (forall a c, Q' a c -> Q a c) ->
  (forall e c, E' e c -> E e c) ->
  triple P m Q E.
Proof.
  intros H HP HQ HE c Hc. specialize (H c (HP c Hc)).
  destruct (m c) as [[a | e] c']; auto.
Qed.

Lemma execute_served {A} (q : Db -> A * Db) c :
  budget c <> Some O ->
  execute q c
  = (Returned (fst (q (store c))),
     {| store := snd (q (store c)); budget := spend (budget c) |}).
Proof.
  intros Hb. unfold execute. destruct (budget c) as [[ | n] | ];
    [congruence | | ]; destruct (q (store c)); reflexivity.
Qed.

Lemma execute_refused {A} (q : Db -> A * Db) c :
  budget c = Some O -> execute q c = (Thrown StorageError, c).
Proof. intros Hb. unfold execute. rewrite Hb. reflexivity. Qed.

Lemma triple_execute {A} (P : Conn -> Prop) (q : Db -> A * Db) Q E :
  (forall c, P c -> budget c <> Some O ->
     Q (fst (q (store c)))
       {| store := snd (q (store c)); budget := spend (budget c) |}) ->
  (forall c, P c -> budget c = Some O -> E StorageError c) ->
  triple P (execute q) Q E.
Proof.
  intros HQ HE c Hc.
  destruct (budget c) as [[ | n] | ] eqn:Hb.
  - rewrite execute_refused by assumption. auto.
  - rewrite execute_served by congruence. apply HQ; [assumption | congruence].
  - rewrite execute_served by congruence. apply HQ; [assumption | congruence].
Qed.

(** Loops: the invariant is indexed by the elements already visited. *)
Lemma triple_for_of_from {A} (I : list A -> Conn -> Prop) (body : A -> M unit)
  E (l : list A) :
  forall visited todo,
    l = visited ++ todo ->
    (forall before x after, l = before ++ x :: after ->
       triple (I before) (body x) (fun _ => I (before ++ [x])) E) ->
    triple (I visited) (for_of todo body) (fun _ => I l) E.
Proof.
  intros visited todo. revert visited.
  induction todo as [ | x rest IH]; intros visited Hl Hbody.
  - rewrite app_nil_r in Hl. subst l. apply triple_ret. auto.
  - simpl. eapply triple_bind.
    + apply (Hbody visited x rest Hl).
    + intros u. apply IH; [ | assumption].
      rewrite <- app_assoc. exact Hl.
Qed.

Lemma triple_for_of {A} (I : list A -> Conn -> Prop) (body : A -> M unit)
  E (l : list A) :
  (forall before x after, l = before ++ x :: after ->
     triple (I before) (body x) (fun _ => I (before ++ [x])) E) ->
  triple (I []) (for_of l body) (fun _ => I l) E.
Proof. intros H. apply triple_for_of_from; [reflexivity | assumption]. Qed.

(** A loop whose invariant does not depend on the position. *)
Lemma triple_for_of_In {A} (I : Conn -> Prop) (body : A -> M unit) E
  (l : list A) :
  (forall x, In x l -> triple I (body x) (fun _ => I) E) ->
  triple I (for_of l body) (fun _ => I) E.
Proof.
  intros H. apply (triple_for_of (fun _ => I)).
  intros before x after Hl. apply H. subst l.
  apply in_or_app. right. left. reflexivity.
Qed.

Lemma triple_for_of_push {A B} (I : Conn -> Prop) (R : A -> B -> Prop)
  (body : A -> M B) E (l : list A) :
  (forall x, In x l -> triple I (body x) (fun y c => I c /\ R x y) E) ->
  triple I (for_of_push l body) (fun ys c => I c /\ Forall2 R l ys) E.
Proof.
  induction l as [ | x rest IH]; intros Hbody.
  - apply triple_ret. auto.
  - simpl. eapply triple_bind.
    + apply Hbody. left. reflexivity.
    + intros y. simpl.
      apply (triple_bind (fun c => I c /\ R x y) _ _
               (fun ys c => (I c /\ Forall2 R rest ys) /\ R x y)).
      * intros c [Hc Hxy].
        assert (Hrest : triple I (for_of_push rest body)
                          (fun ys c => I c /\ Forall2 R rest ys) E).
        { apply IH. intros x' Hx'. apply Hbody. right. assumption. }
        specialize (Hrest c Hc).
        destruct (for_of_push rest body c) as [[ys | e] c']; auto.
      * intros ys. apply triple_ret. intros c [[Hc Hys] Hxy]. auto.
Qed.

(** [db.transaction]: what the body leaves on a throw is rolled back. *)
Lemma triple_transaction {A} (P : Conn -> Prop) (body : M A) Q
  (E : Error -> Conn -> Prop) :
  (forall c0, P c0 ->
     triple (fun c => c = c0) body Q
       (fun e c' =>
          E e {| store := rollback (store c0) (store c'); budget := budget c' |})) ->
  triple P (transaction body) Q E.
Proof.
  intros H c Hc. unfold transaction.
  specialize (H c Hc c eq_refl).
  destruct (body c) as [[a | e] c']; assumption.
Qed.

End Triples.

(** * Facts about the statements *)

Lemma filter_head_find {R} (f : R -> bool) (rows : list R) :
  find f rows = hd_error (filter f rows).
Proof.
  induction rows as [ | r rest IH]; simpl; [reflexivity | ].
  destruct (f r); simpl; [reflexivity | exact IH].
Qed.

Lemma fold_left_sum_shift {R} (g : R -> Z) (l : list R) (z : Z) :
  fold_left (fun sum r => sum + g r) l z
  = z + fold_left (fun sum r => sum + g r) l 0.
Proof.
  revert z. induction l as [ | r rest IH]; intros z; simpl; [lia | ].
  rewrite (IH (z + g r)), (IH (g r)). lia.
Qed.

Lemma fold_left_sum_of {R} (g : R -> Z) (l : list R) :
  fold_left (fun sum r => sum + g r) l 0 = sum_of g l.
Proof.
  induction l as [ | r rest IH]; simpl; [reflexivity | ].
  rewrite fold_left_sum_shift, IH. lia.
Qed.

Lemma sum_of_app {R} (g : R -> Z) (l1 l2 : list R) :
  sum_of g (l1 ++ l2) = sum_of g l1 + sum_of g l2.
Proof. induction l1 as [ | r rest IH]; simpl; [reflexivity | rewrite IH; lia]. Qed.

Lemma sum_of_Permutation {R} (g : R -> Z) (l1 l2 : list R) :
  Permutation l1 l2 -> sum_of g l1 = sum_of g l2.
Proof. induction 1; simpl; lia. Qed.

Lemma spend_None b : b = None -> spend b = None.
Proof. intros ->. reflexivity. Qed.

(** * createTransaction: what one call does *)

Lemma find_product_id rows id p :
  find_product rows id = Some p -> Product.id p = id /\ In p rows.
Proof.
  unfold find_product. intros H. apply find_some in H.
  destruct H as [Hin Heq]. split; [lia | assumption].
Qed.

(** The array built by step 1 answers [find] like the table it was
    loaded from, for every id that was loaded. *)
Lemma find_product_loaded rows ids allProducts :
  Forall2 (fun id p => find_product rows id = Some p) ids allProducts ->
  forall id, In id ids -> find_product allProducts id = find_product rows id.
Proof.
  induction 1 as [ | id0 p ids' ps Hp Hrest IH]; intros id Hin.
  - destruct Hin.
  - unfold find_product at 1. simpl.
    destruct (find_product_id _ _ _ Hp) as [Hid _].
    destruct (Z.eqb_spec (Product.id p) id) as [Heq | Hne].
    + rewrite <- Heq, Hid. symmetry. exact Hp.
    + destruct Hin as [Hin | Hin]; [congruence | ].
      apply IH. exact Hin.
Qed.

Section CreateTransactionBody.

Context {N : Number}.
Variable input : CreateTransactionInput.t.
Variable c0 : Conn.

Local Abbreviation items := (CreateTransactionInput.items input).
Local Abbreviation rows0 := (products (tables (store c0))).

(** What holds wherever the body throws. *)
Local Abbreviation thrown :=
  (fun (e : Error) (c : Conn) => failure input c0 e /\ partly_sold input c0 c).

Lemma keeps_serving_spend c :
  keeps_serving c0 c ->
  forall d, keeps_serving c0 {| store := d; budget := spend (budget c) |}.
Proof. intros H d H0. simpl. apply spend_None. auto. Qed.

Lemma refused_is_failure c :
  keeps_serving c0 c -> budget c = Some O -> failure input c0 StorageError.
Proof.
  intros H Hb. left. split; [reflexivity | ].
  intros H0. rewrite (H H0) in Hb. discriminate.
Qed.

Lemma nothing_sold c :
  products (tables (store c)) = rows0 -> partly_sold input c0 c.
Proof.
  intros H. exists [], items. repeat split; [constructor | exact H].
Qed.

Lemma load_product_spec productId :
  In productId (map CartItem.product_id items) ->
  triple (fun c => store c = store c0 /\ keeps_serving c0 c)
    (load_product productId)
    (fun p c => (store c = store c0 /\ keeps_serving c0 c)
                /\ find_product rows0 productId = Some p)
    thrown.
Proof.
  intros Hin. unfold load_product.
  apply (triple_bind _ _ _
           (fun found c => (store c = store c0 /\ keeps_serving c0 c)
                           /\ found = filter (eq_ Product.id productId) rows0)).
  - apply triple_execute.
    + intros c [Hs Hk] _. simpl. rewrite Hs.
      split; [split | reflexivity];
        [reflexivity | apply (keeps_serving_spend c Hk)].
    + intros c [Hs Hk] Hb. split; [exact (refused_is_failure c Hk Hb) | ].
      apply nothing_sold. rewrite Hs. reflexivity.
  - intros found.
    assert (Hfind : find_product rows0 productId = hd_error
                      (filter (eq_ Product.id productId) rows0))
      by apply filter_head_find.
    destruct found as [ | first others].
    + apply triple_throw. intros c [[Hs _] Hfound]. rewrite <- Hfound in Hfind.
      apply in_map_iff in Hin. destruct Hin as [item [Hid Hitem]].
      split; [ | apply nothing_sold; rewrite Hs; reflexivity].
      right. exists item. unfold accepted, rejection.
      rewrite Hid, Hfind. simpl. auto.
    + apply triple_ret. intros c [Hc Hfound]. rewrite <- Hfound in Hfind.
      split; [exact Hc | exact Hfind].
Qed.

Lemma check_stock_spec allProducts :
  (forall item, In item items ->
     find_product allProducts (CartItem.product_id item)
     = find_product rows0 (CartItem.product_id item)) ->
  triple (fun c => store c = store c0 /\ keeps_serving c0 c)
    (for_of items (check_stock allProducts))
    (fun _ c => (store c = store c0 /\ keeps_serving c0 c)
                /\ Forall (fun item => accepted rows0 item = true) items)
    thrown.
Proof.
  intros Hsame.
  apply (triple_weaken _
           ((fun visited c =>
               (store c = store c0 /\ keeps_serving c0 c)
               /\ Forall (fun item => accepted rows0 item = true) visited) [])
           _ _
           (fun _ c => (store c = store c0 /\ keeps_serving c0 c)
                /\ Forall (fun item => accepted rows0 item = true) items)
           _ thrown); auto.
  apply (triple_for_of
           (fun visited c =>
              (store c = store c0 /\ keeps_serving c0 c)
              /\ Forall (fun item => accepted rows0 item = true) visited)).
  intros before item after Hsplit.
  assert (Hin : In item items).
  { rewrite Hsplit. apply in_or_app. right. left. reflexivity. }
  unfold check_stock. rewrite (Hsame item Hin).
  destruct (find_product rows0 (CartItem.product_id item)) as [product | ] eqn:Hf.
  - destruct (Z.ltb_spec (Product.stock_quantity product)
                (CartItem.quantity item)) as [Hlt | Hge].
    + apply triple_throw. intros c [[Hs _] _].
      split; [ | apply nothing_sold; rewrite Hs; reflexivity].
      right. exists item. unfold accepted, rejection. rewrite Hf.
      repeat split; [exact Hin | apply Z.leb_gt; exact Hlt].
    + apply triple_ret. intros c [Hc Hvisited]. split; [exact Hc | ].
      apply Forall_app. split; [exact Hvisited | ].
      constructor; [ | constructor].
      unfold accepted. rewrite Hf. apply Z.leb_le. exact Hge.
  - apply triple_throw. intros c [[Hs _] _].
    split; [ | apply nothing_sold; rewrite Hs; reflexivity].
    right. exists item. unfold accepted, rejection. rewrite Hf. auto.
Qed.

Lemma insert_items_spec t (lines : list CartItem.t) :
  triple (ledger_written c0 t rows0)
    (for_of lines
       (fun item => execute (insert_transaction_item (item_values t item))))
    (fun _ => ledger_written c0 t rows0)
    thrown.
Proof.
  apply triple_for_of_In. intros item _. apply triple_execute.
  - intros c (Hp & Ht & Hpay & Hk) _. unfold ledger_written. simpl.
    repeat split; try assumption. apply (keeps_serving_spend c Hk).
  - intros c (Hp & _ & _ & Hk) Hb.
    split; [exact (refused_is_failure c Hk Hb) | apply nothing_sold; exact Hp].
Qed.

Lemma sell_snoc loaded visited (item : CartItem.t) :
  sell loaded (visited ++ [item])
  = sell_line loaded (sell loaded visited) item.
Proof. unfold sell. rewrite fold_left_app. reflexivity. Qed.

Lemma update_stock_spec t allProducts :
  (forall item, In item items ->
     find_product allProducts (CartItem.product_id item)
     = find_product rows0 (CartItem.product_id item)) ->
  Forall (fun item => accepted rows0 item = true) items ->
  triple (ledger_written c0 t rows0)
    (for_of items (update_stock allProducts))
    (fun _ => ledger_written c0 t (sell rows0 items))
    thrown.
Proof.
  intros Hsame Hok.
  apply (triple_for_of (fun visited => ledger_written c0 t (sell rows0 visited))).
  intros before item after Hsplit.
  assert (Hin : In item items).
  { rewrite Hsplit. apply in_or_app. right. left. reflexivity. }
  rewrite sell_snoc. unfold update_stock, sell_line. rewrite (Hsame item Hin).
  destruct (find_product rows0 (CartItem.product_id item)) as [product | ].
  - apply triple_execute.
    + intros c (Hp & Ht & Hpay & Hk) _. unfold ledger_written. simpl.
      rewrite Hp. repeat split; try assumption.
      apply (keeps_serving_spend c Hk).
    + intros c (Hp & _ & _ & Hk) Hb.
      split; [exact (refused_is_failure c Hk Hb) | ].
      exists before, (item :: after). repeat split; [exact Hsplit | | exact Hp].
      rewrite Hsplit in Hok. apply Forall_app in Hok. apply Hok.
  - apply triple_ret. auto.
Qed.

(** One run of the body of the handler, from the connection [c0]. *)
Lemma createTransaction_body_spec :
  triple (fun c => c = c0) (createTransaction_body input)
    (fun t c =>
       Forall (fun item => accepted rows0 item = true) items
       /\ t = returned_transaction
                (transaction_values input
                   (transactions_id_seq (sequences (store c0)) + 1))
       /\ ledger_written c0
            (transaction_values input
               (transactions_id_seq (sequences (store c0)) + 1))
            (sell rows0 items) c)
    thrown.
Proof.
  unfold createTransaction_body.
  apply (triple_bind _ _ _
           (fun _ c => store c = store c0 /\ keeps_serving c0 c)).
  { apply triple_execute.
    - intros c -> _. simpl. split; [reflexivity | ].
      apply keeps_serving_spend. intros H. exact H.
    - intros c -> Hb. split; [ | apply nothing_sold; reflexivity].
      apply (refused_is_failure c0); [ | exact Hb].
      intros H. exact H. }
  intros _.
  eapply triple_bind.
  { apply (triple_for_of_push _
             (fun id p => find_product rows0 id = Some p)).
    intros productId Hin. apply load_product_spec. exact Hin. }
  intros allProducts. simpl.
  apply (triple_bind _ _ _
           (fun _ c =>
              ((store c = store c0 /\ keeps_serving c0 c)
               /\ Forall (fun item => accepted rows0 item = true) items)
              /\ forall item, In item items ->
                   find_product allProducts (CartItem.product_id item)
                   = find_product rows0 (CartItem.product_id item))).
  { intros c [Hc Hloaded].
    assert (Hsame : forall item, In item items ->
              find_product allProducts (CartItem.product_id item)
              = find_product rows0 (CartItem.product_id item)).
    { intros item Hin. apply (find_product_loaded _ _ _ Hloaded).
      apply in_map. exact Hin. }
    pose proof (check_stock_spec allProducts Hsame c Hc) as H.
    destruct (for_of items (check_stock allProducts) c) as [[u | e] c'];
      [split; [exact H | exact Hsame] | exact H]. }
  intros _.
  apply (triple_bind _ _ _
           (fun t c =>
              (Forall (fun item => accepted rows0 item = true) items
               /\ t = transaction_values input
                        (transactions_id_seq (sequences (store c0)) + 1)
               /\ forall item, In item items ->
                    find_product allProducts (CartItem.product_id item)
                    = find_product rows0 (CartItem.product_id item))
              /\ ledger_written c0 t rows0 c)).
  { apply triple_execute.
    - intros c [[[Hs Hk] Hok] Hsame] _. unfold ledger_written. simpl.
      rewrite Hs. repeat split; try assumption.
      apply (keeps_serving_spend c Hk).
    - intros c [[[Hs Hk] _] _] Hb.
      split; [exact (refused_is_failure c Hk Hb) | ].
      apply nothing_sold. rewrite Hs. reflexivity. }
  intros t.
  apply (triple_bind _ _ _
           (fun _ c =>
              (Forall (fun item => accepted rows0 item = true) items
               /\ t = transaction_values input
                        (transactions_id_seq (sequences (store c0)) + 1)
               /\ forall item, In item items ->
                    find_product allProducts (CartItem.product_id item)
                    = find_product rows0 (CartItem.product_id item))
              /\ ledger_written c0 t rows0 c)).
  { intros c [Hfacts Hc].
    pose proof (insert_items_spec t items c Hc) as H.
    destruct (for_of items _ c) as [[u | e] c']; [split | ]; assumption. }
  intros _.
  apply (triple_bind _ _ _
           (fun _ c =>
              (Forall (fun item => accepted rows0 item = true) items
               /\ t = transaction_values input
                        (transactions_id_seq (sequences (store c0)) + 1))
              /\ ledger_written c0 t (sell rows0 items) c)).
  { intros c [(Hok & Ht & Hsame) Hc].
    pose proof (update_stock_spec t allProducts Hsame Hok c Hc) as H.
    destruct (for_of items _ c) as [[u | e] c']; [split; [split | ] | ];
      assumption. }
  intros _. apply triple_ret. intros c [[Hok Ht] Hc]. subst t. auto.
Qed.

End CreateTransactionBody.

Section CreateTransaction.

Context {N : Number}.

(** One call of the handler, from the connection [c0]: either it returns
    the new transaction, every line having passed validation, or it throws
    and the tables are those of [c0]. *)
Lemma createTransaction_spec (input : CreateTransactionInput.t) c0 :
  match createTransaction input c0 with
  | (Returned t, c) =>
      Forall (fun item => accepted (products (tables (store c0))) item = true)
        (CreateTransactionInput.items input)
      /\ t = returned_transaction
               (transaction_values input
                  (transactions_id_seq (sequences (store c0)) + 1))
      /\ ledger_written c0
           (transaction_values input
              (transactions_id_seq (sequences (store c0)) + 1))
           (sell (products (tables (store c0)))
              (CreateTransactionInput.items input)) c
  | (Thrown e, c) =>
      failure input c0 e /\ tables (store c) = tables (store c0)
  end.
Proof.
  unfold createTransaction, transaction.
  pose proof (createTransaction_body_spec input c0 c0 eq_refl) as H.
  destruct (createTransaction_body input c0) as [[t | e] c].
  - exact H.
  - split; [apply H | reflexivity].
Qed.

Lemma accepted_false_iff rows (item : CartItem.t) :
  accepted rows item = false
  <-> missing_product rows item \/ insufficient_stock rows item.
Proof.
  unfold accepted, missing_product, insufficient_stock.
  destruct (find_product rows (CartItem.product_id item)) as [product | ].
  - rewrite Z.leb_gt. split.
    + intros H. right. exists product. auto.
    + intros [H | [p [Hp Hlt]]]; [discriminate | ].
      injection Hp as <-. exact Hlt.
  - split; auto.
Qed.

Lemma accepted_true_iff rows (item : CartItem.t) :
  accepted rows item = true
  <-> exists product,
        find_product rows (CartItem.product_id item) = Some product
        /\ CartItem.quantity item <= Product.stock_quantity product.
Proof.
  unfold accepted.
  destruct (find_product rows (CartItem.product_id item)) as [product | ].
  - rewrite Z.leb_le. split.
    + intros H. exists product. auto.
    + intros [p [Hp Hle]]. injection Hp as <-. exact Hle.
  - split; [discriminate | ]. intros [p [Hp _]]. discriminate.
Qed.

Lemma sell_line_nonnegative loaded rows (item : CartItem.t) :
  accepted loaded item = true ->
  stock_nonnegative rows ->
  stock_nonnegative (sell_line loaded rows item).
Proof.
  intros Hok Hrows. unfold sell_line.
  apply accepted_true_iff in Hok. destruct Hok as [product [Hf Hle]].
  rewrite Hf. unfold update_where, stock_nonnegative.
  apply Forall_map.
  apply (Forall_impl _ (P := fun p => 0 <= Product.stock_quantity p));
    [ | exact Hrows].
  intros p Hp. destruct (eq_ Product.id (CartItem.product_id item) p); simpl; lia.
Qed.

Lemma sell_from_nonnegative loaded (items : list CartItem.t) :
  Forall (fun item => accepted loaded item = true) items ->
  forall rows, stock_nonnegative rows ->
  stock_nonnegative (fold_left (sell_line loaded) items rows).
Proof.
  induction 1 as [ | item rest Hok _ IH]; intros rows Hrows; simpl.
  - exact Hrows.
  - apply IH. apply sell_line_nonnegative; assumption.
Qed.

Lemma partly_sold_nonnegative (input : CreateTransactionInput.t) c0 c :
  partly_sold input c0 c ->
  stock_nonnegative (products (tables (store c0))) ->
  stock_nonnegative (products (tables (store c))).
Proof.
  intros (visited & rest & _ & Hok & Hrows) Hbefore. rewrite Hrows.
  apply sell_from_nonnegative; assumption.
Qed.

(** * The claims about createTransaction *)

(** C3 -- Atomicity of createTransaction on failure.  A cart with a line
    whose product is missing, or whose product has less stock than the
    line asks for, makes the call throw; and whenever the call throws,
    for that or any other reason (the store failing at a later statement
    included), the four tables are afterwards exactly what they were: no
    transaction row, no item row, no stock change. *)
Theorem createTransaction_atomic (input : CreateTransactionInput.t) (c0 : Conn) :
  ((exists item,
       In item (CreateTransactionInput.items input)
       /\ (missing_product (products (tables (store c0))) item
           \/ insufficient_stock (products (tables (store c0))) item)) ->
   exists e, fst (createTransaction input c0) = Thrown e)
  /\ (forall e, fst (createTransaction input c0) = Thrown e ->
        tables (store (snd (createTransaction input c0))) = tables (store c0)).
Proof.
  pose proof (createTransaction_spec input c0) as H.
  destruct (createTransaction input c0) as [[t | e] c]; simpl.
  - destruct H as [Hok _]. split; [ | discriminate].
    intros [item [Hin Hbad]]. apply accepted_false_iff in Hbad.
    rewrite Forall_forall in Hok. rewrite (Hok item Hin) in Hbad. discriminate.
  - destruct H as [_ Hsame]. split; [exists e; reflexivity | ].
    intros _ _. exact Hsame.
Qed.

(** C9 -- Stock never goes negative.  From a store in which every stock
    is non-negative, a call of createTransaction, whether it returns or
    throws, whatever the cart (lines repeating a product included) and
    whatever the store serves, leaves every stock non-negative; and so is
    every stock in the table as the body of the handler leaves it before a
    rollback, so that no write of the call stores a negative stock. *)
Theorem createTransaction_stock_nonnegative
  (input : CreateTransactionInput.t) (c0 : Conn) :
  stock_nonnegative (products (tables (store c0))) ->
  stock_nonnegative
    (products (tables (store (snd (createTransaction input c0)))))
  /\ stock_nonnegative
       (products (tables (store (snd (createTransaction_body input c0))))).
Proof.
  intros Hbefore. split.
  - pose proof (createTransaction_spec input c0) as H.
    destruct (createTransaction input c0) as [[t | e] c]; simpl.
    + destruct H as (Hok & _ & Hrows & _). rewrite Hrows.
      apply sell_from_nonnegative; assumption.
    + destruct H as [_ Hsame]. rewrite Hsame. exact Hbefore.
  - pose proof (createTransaction_body_spec input c0 c0 eq_refl) as H.
    destruct (createTransaction_body input c0) as [[t | e] c]; simpl.
    + destruct H as (Hok & _ & Hrows & _). rewrite Hrows.
      apply sell_from_nonnegative; assumption.
    + destruct H as [_ Hpartly].
      exact (partly_sold_nonnegative input c0 c Hpartly Hbefore).
Qed.

End CreateTransaction.

Lemma createTransaction_atomic_witness :
  (exists e,
      fst (createTransaction (N := binary64) (a_cart [a_line 1 3 1000] 0 0 cash)
             (online (a_shop [a_product 1 2 true])))
      = Thrown e)
  /\ tables (store (snd (createTransaction (N := binary64)
                           (a_cart [a_line 1 3 1000] 0 0 cash)
                           (online (a_shop [a_product 1 2 true])))))
     = tables (a_shop [a_product 1 2 true]).
Proof.
  destruct (createTransaction_atomic (N := binary64)
              (a_cart [a_line 1 3 1000] 0 0 cash)
              (online (a_shop [a_product 1 2 true])))
    as [Hthrows Hunchanged].
  split.
  - apply Hthrows. exists (a_line 1 3 1000). split; [left; reflexivity | ].
    right. exists (a_product 1 2 true). split; [reflexivity | simpl; lia].
  - apply (Hunchanged (InsufficientStock "P" 2 3)). reflexivity.
Defined.

(** The rollback at work: the store fails on the last stock update of a
    two-line cart, after the transaction row, both item rows and the
    first stock update were written by the body; the handler throws and
    none of these writes is left. *)
Example createTransaction_rolls_back :
  let input :=
    a_cart (N := binary64) [a_line 1 2 1000; a_line 2 1 500] 0 0 cash in
  let d := a_shop [a_product 1 5 true; a_product 2 5 true] in
  map Product.stock_quantity
    (products (tables (store (snd (createTransaction_body input
                                     (failing_after 7 d))))))
  = [3; 5]
  /\ map TransactionRow.total_amount
       (transactions (tables (store (snd (createTransaction_body input
                                            (failing_after 7 d))))))
     = [2500]
  /\ fst (createTransaction input (failing_after 7 d)) = Thrown StorageError
  /\ tables (store (snd (createTransaction input (failing_after 7 d))))
     = tables d.
Proof. cbv zeta. repeat split. Qed.

Lemma createTransaction_stock_nonnegative_witness :
  stock_nonnegative
    (products (tables (store (snd
       (createTransaction (N := binary64)
          (a_cart [a_line 1 2 1000; a_line 1 2 1000] 0 0 cash)
          (online (a_shop [a_product 1 3 true]))))))).
Proof.
  apply (createTransaction_stock_nonnegative
           (a_cart [a_line 1 2 1000; a_line 1 2 1000] 0 0 cash)
           (online (a_shop [a_product 1 3 true]))).
  repeat constructor. simpl. lia.
Defined.


(** The row of that sale, as the transactions table keeps it: total,
    discount, tax and final amount, in hundredths. *)
Example createTransaction_amounts_in_thousandths :
  map (fun row => (TransactionRow.total_amount row,
                   TransactionRow.discount_amount row,
                   TransactionRow.tax_amount row,
                   TransactionRow.final_amount row))
    (transactions (tables (store (snd
       (createTransaction (N := binary64)
          (a_sale_in_thousandths 10000 4 8)
          (online (a_shop [a_product 1 10 true])))))))
  = [(1000, 0, 1, 1000)].
Proof. vm_compute. reflexivity. Qed.

(** The column rounds the digits of the text, not the double behind
    them: the double of 1.005 lies below 1.005, its text is 1.005, and
    the column keeps 1.01. *)
Example to_numeric_rounds_the_text :
  to_numeric (Number := binary64) (thousandths 1005) = 101
  /\ to_numeric (Number := binary64) (thousandths 4) = 0
  /\ to_numeric (Number := binary64) (thousandths 8) = 1
  /\ to_numeric (Number := binary64) (thousandths 10004) = 1000.
Proof. vm_compute. repeat split. Qed.



(** A sale with the numbers of JavaScript: 3 at 0.10 with a discount of
    0.10.  The total computed is 0.30000000000000004, not the double of
    0.30, and the final amount 0.20000000000000004; the rows keep 0.30
    and 0.20: the rounding of the numeric columns takes the error of the
    doubles away from amounts that have two decimals. *)
Example createTransaction_amounts_binary64 :
  PrimFloat.eqb
    (totalAmount (N := binary64) [a_line 1 3 10])
    (parseFloat (Number := binary64) 30)
  = false
  /\ map (fun row => (TransactionRow.total_amount row,
                      TransactionRow.discount_amount row,
                      TransactionRow.final_amount row))
       (transactions (tables (store (snd
          (createTransaction (N := binary64)
             (a_cart [a_line 1 3 10] 10 0 cash)
             (online (a_shop [a_product 1 10 true])))))))
     = [(30, 10, 20)].
Proof. vm_compute. split; reflexivity. Qed.

(** ** Lines that repeat a product *)

(** C1 -- Conservation of stock does not hold for a cart that repeats a
    product.  Product 1 has 10 in stock and the cart has two lines of 2
    for it: the call returns, 4 were sold, and the stock is 8.  Each line
    writes the loaded stock minus its own quantity, so the second write
    replaces the first instead of adding to it. *)
Theorem stock_not_conserved_on_repeated_product (N : Number) :
  let input := a_cart [a_line 1 2 1000; a_line 1 2 1000] 0 0 cash in
  let d := a_shop [a_product 1 10 true] in
  exists t c,
    createTransaction input (online d) = (Returned t, c)
    /\ quantity_sold (CreateTransactionInput.items input) = 4
    /\ map TransactionItem.quantity (transaction_items (tables (store c)))
       = [2; 2]
    /\ affected_stock (CreateTransactionInput.items input) (products (tables d))
       = 10
    /\ affected_stock (CreateTransactionInput.items input)
         (products (tables (store c)))
       = 8.
Proof. simpl. eexists. eexists. repeat split. Qed.

Lemma stock_conservation_refuted (N : Number) : ~ stock_conservation.
Proof.
  intros H.
  specialize (H (a_cart [a_line 1 2 1000; a_line 1 2 1000] 0 0 cash)
                (online (a_shop [a_product 1 10 true])) _ _ eq_refl).
  discriminate H.
Qed.

(** C2 -- The cumulative demand on a product is not validated.  Product 1
    has 3 in stock and the cart has two lines of 2 for it, 4 in all: each
    line is compared with the loaded stock on its own, the call returns
    and the stock is 1. *)
Theorem cumulative_demand_not_validated (N : Number) :
  let input := a_cart [a_line 1 2 1000; a_line 1 2 1000] 0 0 cash in
  let d := a_shop [a_product 1 3 true] in
  cumulative_demand (CreateTransactionInput.items input) 1 = 4
  /\ exists t c,
       createTransaction input (online d) = (Returned t, c)
       /\ map Product.stock_quantity (products (tables (store c))) = [1]
       /\ map TransactionItem.quantity (transaction_items (tables (store c)))
          = [2; 2].
Proof. simpl. split; [reflexivity | ]. eexists. eexists. repeat split. Qed.

Lemma cumulative_stock_validation_refuted (N : Number) :
  ~ cumulative_stock_validation.
Proof.
  intros H.
  destruct (H (a_cart [a_line 1 2 1000; a_line 1 2 1000] 0 0 cash)
              (a_shop [a_product 1 3 true]) (a_line 1 2 1000)
              (a_product 1 3 true))
    as [requested Hthrown].
  - left. reflexivity.
  - reflexivity.
  - reflexivity.
  - discriminate Hthrown.
Qed.

(** ** Carts that do not repeat a product *)

Section Conservation.

Context {N : Number}.

Lemma update_where_absent (id : Z) (change : Product.t -> Product.t) rows :
  ~ In id (map Product.id rows) ->
  update_where (eq_ Product.id id) change rows = rows.
Proof.
  unfold update_where, eq_. induction rows as [ | r rest IH]; intros Hnot;
    simpl; [reflexivity | ].
  destruct (Z.eqb_spec (Product.id r) id) as [Heq | Hne].
  - exfalso. apply Hnot. left. exact Heq.
  - rewrite IH; [reflexivity | ]. intros Hin. apply Hnot. right. exact Hin.
Qed.

Lemma update_where_ids (where_ : Product.t -> bool) n rows :
  map Product.id (update_where where_ (set_stock_quantity n) rows)
  = map Product.id rows.
Proof.
  unfold update_where. rewrite map_map. apply map_ext.
  intros r. destruct (where_ r); reflexivity.
Qed.

Lemma find_product_other id n rows id' :
  id' <> id ->
  find_product (update_where (eq_ Product.id id) (set_stock_quantity n) rows) id'
  = find_product rows id'.
Proof.
  intros Hne. unfold find_product, update_where, eq_.
  induction rows as [ | r rest IH]; simpl; [reflexivity | ].
  destruct (Z.eqb_spec (Product.id r) id) as [Heq | Hne']; simpl.
  - destruct (Z.eqb_spec (Product.id r) id') as [Heq' | _]; [congruence | ].
    exact IH.
  - destruct (Product.id r =? id'); [reflexivity | exact IH].
Qed.

(** Writing the stock of the one row that has a given id. *)
Lemma update_where_stock id n rows p :
  unique_product_ids rows ->
  find_product rows id = Some p ->
  sum_of Product.stock_quantity
    (update_where (eq_ Product.id id) (set_stock_quantity n) rows)
  = sum_of Product.stock_quantity rows - Product.stock_quantity p + n.
Proof.
  unfold unique_product_ids, find_product.
  induction rows as [ | r rest IH]; intros Hunique Hfind; [discriminate | ].
  simpl in Hunique. apply NoDup_cons_iff in Hunique.
  destruct Hunique as [Hfresh Hrest].
  simpl in Hfind. simpl update_where. unfold eq_ at 1. simpl sum_of.
  destruct (Z.eqb_spec (Product.id r) id) as [Heq | Hne].
  - injection Hfind as <-. rewrite update_where_absent by congruence.
    simpl. lia.
  - rewrite (IH Hrest Hfind). lia.
Qed.

Lemma sell_conserves loaded (items : list CartItem.t) :
  NoDup (map CartItem.product_id items) ->
  forall rows,
    unique_product_ids rows ->
    (forall item, In item items ->
       exists p,
         find_product loaded (CartItem.product_id item) = Some p
         /\ find_product rows (CartItem.product_id item) = Some p) ->
    sum_of Product.stock_quantity (fold_left (sell_line loaded) items rows)
    = sum_of Product.stock_quantity rows - quantity_sold items.
Proof.
  unfold quantity_sold.
  induction items as [ | item rest IH]; intros Hdistinct rows Hunique Hfound;
    simpl; [lia | ].
  simpl in Hdistinct. apply NoDup_cons_iff in Hdistinct.
  destruct Hdistinct as [Hfresh Hrest].
  destruct (Hfound item (or_introl eq_refl)) as (p & Hloaded & Hrow).
  assert (Hline : sell_line loaded rows item
                  = update_where (eq_ Product.id (CartItem.product_id item))
                      (set_stock_quantity
                         (Product.stock_quantity p - CartItem.quantity item))
                      rows).
  { unfold sell_line. rewrite Hloaded. reflexivity. }
  rewrite IH.
  - rewrite Hline, (update_where_stock _ _ _ p Hunique Hrow). lia.
  - exact Hrest.
  - rewrite Hline. unfold unique_product_ids. rewrite update_where_ids.
    exact Hunique.
  - intros item' Hin'.
    destruct (Hfound item' (or_intror Hin')) as (p' & Hloaded' & Hrow').
    exists p'. split; [exact Hloaded' | ].
    rewrite Hline, find_product_other; [exact Hrow' | ].
    intros Heq. apply Hfresh. rewrite <- Heq. apply in_map. exact Hin'.
Qed.

Lemma sum_of_filter_split {R} (g : R -> Z) (f : R -> bool) (l : list R) :
  sum_of g l
  = sum_of g (filter f l) + sum_of g (filter (fun r => negb (f r)) l).
Proof.
  induction l as [ | r rest IH]; simpl; [reflexivity | ].
  destruct (f r); simpl; lia.
Qed.

Lemma affected_by_line (items : list CartItem.t) item r :
  In item items ->
  eq_ Product.id (CartItem.product_id item) r = true ->
  affected items r = true.
Proof.
  intros Hin Hid. unfold affected. apply existsb_exists.
  exists item. split; [exact Hin | exact Hid].
Qed.

(** The rows of the products no line refers to are not written. *)
Lemma sell_line_unaffected loaded (items : list CartItem.t) rows item :
  In item items ->
  filter (fun r => negb (affected items r)) (sell_line loaded rows item)
  = filter (fun r => negb (affected items r)) rows.
Proof.
  intros Hin. unfold sell_line.
  destruct (find_product loaded (CartItem.product_id item)) as [p | ];
    [ | reflexivity].
  unfold update_where. induction rows as [ | r rest IH]; simpl; [reflexivity | ].
  destruct (eq_ Product.id (CartItem.product_id item) r) eqn:Hid.
  - assert (Hr : affected items r = true)
      by exact (affected_by_line items item r Hin Hid).
    assert (Hset : affected items
                     (set_stock_quantity
                        (Product.stock_quantity p - CartItem.quantity item) r)
                   = true) by exact Hr.
    rewrite Hr, Hset. simpl. exact IH.
  - destruct (negb (affected items r)); [f_equal | ]; exact IH.
Qed.

Lemma sell_unaffected loaded (items visited : list CartItem.t) :
  incl visited items ->
  forall rows,
    filter (fun r => negb (affected items r))
      (fold_left (sell_line loaded) visited rows)
    = filter (fun r => negb (affected items r)) rows.
Proof.
  induction visited as [ | item rest IH]; intros Hincl rows; simpl;
    [reflexivity | ].
  rewrite IH.
  - apply sell_line_unaffected. apply Hincl. left. reflexivity.
  - intros x Hx. apply Hincl. right. exact Hx.
Qed.

(** Conservation of stock, for a cart whose lines refer to different
    products, on a products table whose ids are unique: when
    createTransaction returns, the stock of the products the cart refers
    to has gone down by the quantities of the cart. *)
Lemma stock_conserved_for_distinct_products
  (input : CreateTransactionInput.t) c0 t c :
  unique_product_ids (products (tables (store c0))) ->
  NoDup (map CartItem.product_id (CreateTransactionInput.items input)) ->
  createTransaction input c0 = (Returned t, c) ->
  affected_stock (CreateTransactionInput.items input)
    (products (tables (store c0)))
  - affected_stock (CreateTransactionInput.items input)
      (products (tables (store c)))
  = quantity_sold (CreateTransactionInput.items input).
Proof.
  intros Hunique Hdistinct Hrun.
  pose proof (createTransaction_spec input c0) as H. rewrite Hrun in H.
  destruct H as (Hok & _ & Hrows & _).
  unfold affected_stock. rewrite Hrows.
  pose proof (sum_of_filter_split Product.stock_quantity
                (affected (CreateTransactionInput.items input))
                (products (tables (store c0)))) as Hbefore.
  pose proof (sum_of_filter_split Product.stock_quantity
                (affected (CreateTransactionInput.items input))
                (sell (products (tables (store c0)))
                   (CreateTransactionInput.items input))) as Hafter.
  unfold sell in *.
  rewrite (sell_unaffected _ _ _ (incl_refl _)) in Hafter.
  rewrite (sell_conserves _ _ Hdistinct _ Hunique) in Hafter.
  - lia.
  - intros item Hin. rewrite Forall_forall in Hok.
    specialize (Hok item Hin). apply accepted_true_iff in Hok.
    destruct Hok as (p & Hp & _). exists p. split; exact Hp.
Qed.

End Conservation.

(** ** Inactive products *)

Lemma differ_in_is_active_only_refl d : differ_in_is_active_only d d.
Proof.
  repeat split.
  induction (products (tables d)) as [ | p rest IH]; constructor;
    [repeat split | exact IH].
Qed.

Lemma alike_ret {A B} (V : A -> B -> Prop) a b :
  V a b -> alike V (ret a) (ret b).
Proof. intros H c c' Hd Hb. simpl. auto. Qed.

Lemma alike_throw {A B} (V : A -> B -> Prop) e :
  alike V (throw e) (throw e).
Proof. intros c c' Hd Hb. simpl. auto. Qed.

Lemma alike_bind {A B A' B'} (V : A -> A' -> Prop) (W : B -> B' -> Prop)
  (m : M A) (m' : M A') (k : A -> M B) (k' : A' -> M B') :
  alike V m m' ->
  (forall a a', V a a' -> alike W (k a) (k' a')) ->
  alike W (bind m k) (bind m' k').
Proof.
  intros Hm Hk c c' Hd Hb. unfold bind. specialize (Hm c c' Hd Hb).
  destruct (m c) as [[a | e] c1], (m' c') as [[a' | e'] c1'];
    try contradiction.
  - destruct Hm as (Ha & Hd1 & Hb1). exact (Hk a a' Ha c1 c1' Hd1 Hb1).
  - exact Hm.
Qed.

Lemma alike_execute {A B} (V : A -> B -> Prop)
  (q : Db -> A * Db) (q' : Db -> B * Db) :
  (forall d d', differ_in_is_active_only d d' ->
     V (fst (q d)) (fst (q' d'))
     /\ differ_in_is_active_only (snd (q d)) (snd (q' d'))) ->
  alike V (execute q) (execute q').
Proof.
  intros H c c' Hd Hb. specialize (H _ _ Hd).
  destruct (budget c) as [[ | n] | ] eqn:Hbudget.
  - rewrite !execute_refused by congruence. simpl.
    split; [reflexivity | split; [exact Hd | congruence]].
  - rewrite !execute_served by congruence. simpl.
    destruct H as [Hv Hd1]. split; [exact Hv | split; [exact Hd1 | congruence]].
  - rewrite !execute_served by congruence. simpl.
    destruct H as [Hv Hd1]. split; [exact Hv | split; [exact Hd1 | congruence]].
Qed.

Lemma alike_for_of {A} (l : list A) (body body' : A -> M unit) :
  (forall x, alike (fun _ _ => True) (body x) (body' x)) ->
  alike (fun _ _ => True) (for_of l body) (for_of l body').
Proof.
  intros H. induction l as [ | x rest IH]; simpl.
  - apply alike_ret. exact I.
  - eapply alike_bind; [apply H | ]. intros _ _ _. exact IH.
Qed.

Lemma alike_for_of_push {A B B'} (V : B -> B' -> Prop) (l : list A)
  (body : A -> M B) (body' : A -> M B') :
  (forall x, alike V (body x) (body' x)) ->
  alike (Forall2 V) (for_of_push l body) (for_of_push l body').
Proof.
  intros H. induction l as [ | x rest IH]; simpl.
  - apply alike_ret. constructor.
  - eapply alike_bind; [apply H | ]. intros y y' Hy.
    eapply alike_bind; [exact IH | ]. intros ys ys' Hys.
    apply alike_ret. constructor; assumption.
Qed.

Lemma alike_transaction {A B} (V : A -> B -> Prop) (m : M A) (m' : M B) :
  alike V m m' -> alike V (transaction m) (transaction m').
Proof.
  intros H c c' Hd Hb. unfold transaction. specialize (H c c' Hd Hb).
  destruct (m c) as [[a | e] c1], (m' c') as [[a' | e'] c1'];
    try contradiction.
  - exact H.
  - destruct H as (He & Hd1 & Hb1). split; [exact He | ]. split; [ | exact Hb1].
    destruct Hd as (Hp & Ht & Hi & Hy & _).
    destruct Hd1 as (_ & _ & _ & _ & Hs).
    repeat split; assumption.
Qed.

(** The statements of createTransaction on two such stores *)

Lemma filter_same_but_is_active (where_ : Product.t -> bool) rows rows' :
  (forall p p', same_but_is_active p p' -> where_ p' = where_ p) ->
  Forall2 same_but_is_active rows rows' ->
  Forall2 same_but_is_active (filter where_ rows) (filter where_ rows').
Proof.
  intros Hw H. induction H as [ | p p' rest rest' Hp Hrest IH]; simpl.
  - constructor.
  - rewrite (Hw p p' Hp). destruct (where_ p); [constructor | ]; assumption.
Qed.

Lemma eq__same_but_is_active id p p' :
  same_but_is_active p p' -> eq_ Product.id id p' = eq_ Product.id id p.
Proof. intros (Hid & _). unfold eq_. rewrite Hid. reflexivity. Qed.

Lemma eq_opt_same_but_is_active id p p' :
  same_but_is_active p p' -> eq_opt Product.id id p' = eq_opt Product.id id p.
Proof. intros (Hid & _). unfold eq_opt. rewrite Hid. reflexivity. Qed.

Lemma select_products_alike (where_ : Product.t -> bool) :
  (forall p p', same_but_is_active p p' -> where_ p' = where_ p) ->
  alike (Forall2 same_but_is_active)
    (execute (select products where_)) (execute (select products where_)).
Proof.
  intros Hw. apply alike_execute. intros d d' Hd. simpl. split; [ | exact Hd].
  apply filter_same_but_is_active; [exact Hw | ]. apply Hd.
Qed.

Lemma find_product_same_but_is_active {N : Number} rows rows' id :
  Forall2 same_but_is_active rows rows' ->
  match find_product rows id, find_product rows' id with
  | Some p, Some p' => same_but_is_active p p'
  | None, None => True
  | _, _ => False
  end.
Proof.
  intros H. unfold find_product.
  induction H as [ | p p' rest rest' Hp Hrest IH]; simpl; [exact I | ].
  destruct Hp as (Hid & Hrow). rewrite Hid.
  destruct (Product.id p =? id); [ | exact IH].
  split; assumption.
Qed.

Lemma update_stock_same_but_is_active n id rows rows' :
  Forall2 same_but_is_active rows rows' ->
  Forall2 same_but_is_active
    (update_where (eq_ Product.id id) (set_stock_quantity n) rows)
    (update_where (eq_ Product.id id) (set_stock_quantity n) rows').
Proof.
  intros H. unfold update_where.
  induction H as [ | p p' rest rest' Hp Hrest IH]; simpl; constructor;
    [ | exact IH].
  rewrite (eq__same_but_is_active id p p' Hp).
  destruct (eq_ Product.id id p); [ | exact Hp].
  destruct Hp as (Hid & Hname & Hprice & _). repeat split; assumption.
Qed.

Section CreateTransactionAlike.

Context {N : Number}.

Lemma load_product_alike productId :
  alike same_but_is_active (load_product productId) (load_product productId).
Proof.
  unfold load_product. eapply alike_bind.
  - apply select_products_alike. apply eq__same_but_is_active.
  - intros rows rows' Hrows. destruct Hrows as [ | p p' rest rest' Hp _].
    + apply alike_throw.
    + apply alike_ret. exact Hp.
Qed.

Lemma check_stock_alike allProducts allProducts' (item : CartItem.t) :
  Forall2 same_but_is_active allProducts allProducts' ->
  alike (fun _ _ => True)
    (check_stock allProducts item) (check_stock allProducts' item).
Proof.
  intros H. unfold check_stock.
  pose proof (find_product_same_but_is_active _ _ (CartItem.product_id item) H)
    as Hfind.
  destruct (find_product allProducts (CartItem.product_id item)) as [p | ],
    (find_product allProducts' (CartItem.product_id item)) as [p' | ];
    try contradiction.
  - destruct Hfind as (_ & Hname & _ & Hstock). rewrite Hname, Hstock.
    destruct (Product.stock_quantity p <? CartItem.quantity item).
    + apply alike_throw.
    + apply alike_ret. exact I.
  - apply alike_throw.
Qed.

Lemma update_stock_alike allProducts allProducts' (item : CartItem.t) :
  Forall2 same_but_is_active allProducts allProducts' ->
  alike (fun _ _ => True)
    (update_stock allProducts item) (update_stock allProducts' item).
Proof.
  intros H. unfold update_stock.
  pose proof (find_product_same_but_is_active _ _ (CartItem.product_id item) H)
    as Hfind.
  destruct (find_product allProducts (CartItem.product_id item)) as [p | ],
    (find_product allProducts' (CartItem.product_id item)) as [p' | ];
    try contradiction.
  - destruct Hfind as (_ & _ & _ & Hstock). rewrite Hstock.
    apply alike_execute. intros d d' (Hp & Ht & Hi & Hy & Hs).
    split; [exact I | ]. repeat split; simpl; try assumption.
    apply update_stock_same_but_is_active. exact Hp.
  - apply alike_ret. exact I.
Qed.

Lemma insert_transaction_alike values :
  alike eq (execute (insert_transaction values))
    (execute (insert_transaction values)).
Proof.
  apply alike_execute. intros d d' (Hp & Ht & Hi & Hy & Hs). simpl.
  rewrite Hs, Ht. split; [reflexivity | ]. repeat split; assumption.
Qed.

Lemma insert_transaction_item_alike values :
  alike (fun _ _ => True) (execute (insert_transaction_item values))
    (execute (insert_transaction_item values)).
Proof.
  apply alike_execute. intros d d' (Hp & Ht & Hi & Hy & Hs). simpl.
  rewrite Hs, Hi. split; [exact I | ]. repeat split; assumption.
Qed.

Lemma createTransaction_alike (input : CreateTransactionInput.t) :
  alike eq (createTransaction input) (createTransaction input).
Proof.
  apply alike_transaction. unfold createTransaction_body.
  eapply alike_bind.
  { apply select_products_alike. apply eq_opt_same_but_is_active. }
  intros _ _ _. eapply alike_bind.
  { apply alike_for_of_push. apply load_product_alike. }
  intros allProducts allProducts' Hall. eapply alike_bind.
  { apply alike_for_of. intros item. apply check_stock_alike. exact Hall. }
  intros _ _ _. eapply alike_bind.
  { apply insert_transaction_alike. }
  intros transaction_ ? <-. eapply alike_bind.
  { apply alike_for_of. intros item. apply insert_transaction_item_alike. }
  intros _ _ _. eapply alike_bind.
  { apply alike_for_of. intros item. apply update_stock_alike. exact Hall. }
  intros _ _ _. apply alike_ret. reflexivity.
Qed.

(** No statement of createTransaction writes [is_active]. *)
Lemma update_stock_keeps_is_active n id rows :
  map Product.is_active
    (update_where (eq_ Product.id id) (set_stock_quantity n) rows)
  = map Product.is_active rows.
Proof.
  unfold update_where. rewrite map_map. apply map_ext. intros p.
  destruct (eq_ Product.id id p); reflexivity.
Qed.

Lemma createTransaction_keeps_is_active (input : CreateTransactionInput.t) c :
  map Product.is_active
    (products (tables (store (snd (createTransaction input c)))))
  = map Product.is_active (products (tables (store c))).
Proof.
  set (kept := fun c' : Conn =>
         map Product.is_active (products (tables (store c')))
         = map Product.is_active (products (tables (store c)))).
  assert (H : triple (fun c' => c' = c) (createTransaction input)
                (fun _ => kept) (fun _ => kept)).
  { apply triple_transaction. intros c0 Hc0. subst c0.
    apply (triple_weaken _ kept _ _ (fun _ => kept) _ (fun _ _ => True)).
    - unfold createTransaction_body. eapply triple_bind.
      { apply (triple_execute kept _ (fun _ => kept));
          [intros c' Hc' _; exact Hc' | auto]. }
      intros ?. eapply triple_bind.
      { apply (triple_for_of_push kept (fun _ _ => True)).
        intros productId _. unfold load_product. eapply triple_bind.
        - apply (triple_execute kept _ (fun _ => kept));
            [intros c' Hc' _; exact Hc' | auto].
        - intros [ | first rest]; [apply triple_throw | apply triple_ret]; auto. }
      intros allProducts. simpl.
      apply (triple_bind _ _ _ (fun _ => kept)).
      { apply (triple_weaken _ kept _ _ (fun _ => kept) _ (fun _ _ => True));
          [ | intros c' [Hc' _]; exact Hc' | auto | auto].
        apply triple_for_of_In. intros item _. unfold check_stock.
        destruct (find_product allProducts (CartItem.product_id item))
          as [product | ]; [ | apply triple_throw; auto].
        destruct (Product.stock_quantity product <? CartItem.quantity item);
          [apply triple_throw | apply triple_ret]; auto. }
      intros ?. eapply triple_bind.
      { apply (triple_execute kept _ (fun _ => kept));
          [intros c' Hc' _; exact Hc' | auto]. }
      intros transaction_. eapply triple_bind.
      { apply triple_for_of_In. intros item _.
        apply (triple_execute kept _ (fun _ => kept));
          [intros c' Hc' _; exact Hc' | auto]. }
      intros ?. eapply triple_bind.
      { apply triple_for_of_In. intros item _. unfold update_stock.
        destruct (find_product allProducts (CartItem.product_id item));
          [ | apply triple_ret; auto].
        apply (triple_execute kept _ (fun _ => kept)); [ | auto].
        intros c' Hc' _. unfold kept in *. simpl.
        rewrite update_stock_keeps_is_active. exact Hc'. }
      intros ?. apply triple_ret. auto.
    - intros c' Hc'. subst c'. reflexivity.
    - auto.
    - intros e c' _. reflexivity. }
  specialize (H c eq_refl).
  destruct (createTransaction input c) as [[t | e] c']; exact H.
Qed.

End CreateTransactionAlike.

(** C6, as stated, fails: a cart for a product whose [is_active] is false
    is committed. *)
Lemma inactive_product_is_sold : ~ @active_product_gating binary64.
Proof.
  intros H.
  apply (H (a_cart (N := binary64) [a_line 1 3 1000] 0 0 cash)
           (online (a_shop [a_product 1 10 false]))
           (a_line 1 3 1000) (a_product 1 10 false)
           (or_introl eq_refl) eq_refl eq_refl _ _ eq_refl).
Qed.

(** C6, amended -- createTransaction neither reads nor writes
    [is_active].  On two stores that differ only in the [is_active] of
    their products, and that serve the same number of statements, a call
    with the same input ends alike: it returns the same transaction or
    throws the same error, and it leaves two stores that again differ
    only in [is_active]; and the [is_active] of every product is after
    the call what it was before.  So a cart is treated as it would be if
    each of its products were active. *)
Theorem createTransaction_ignores_is_active {N : Number}
  (input : CreateTransactionInput.t) (c c' : Conn) :
  differ_in_is_active_only (store c) (store c') ->
  budget c' = budget c ->
  fst (createTransaction input c') = fst (createTransaction input c)
  /\ differ_in_is_active_only
       (store (snd (createTransaction input c)))
       (store (snd (createTransaction input c')))
  /\ budget (snd (createTransaction input c'))
     = budget (snd (createTransaction input c))
  /\ map Product.is_active
       (products (tables (store (snd (createTransaction input c')))))
     = map Product.is_active (products (tables (store c'))).
Proof.
  intros Hd Hb. pose proof (createTransaction_alike input c c' Hd Hb) as H.
  pose proof (createTransaction_keeps_is_active input c') as Hkept.
  destruct (createTransaction input c) as [[t | e] c1],
    (createTransaction input c') as [[t' | e'] c1']; try contradiction;
    destruct H as (Hv & Hd1 & Hb1); simpl; subst; auto.
Qed.

Lemma createTransaction_ignores_is_active_witness :
  fst (createTransaction (N := binary64) (a_cart [a_line 1 3 1000] 0 0 cash)
         (online (a_shop [a_product 1 10 false; a_product 2 5 true])))
  = fst (createTransaction (N := binary64) (a_cart [a_line 1 3 1000] 0 0 cash)
           (online (a_shop [a_product 1 10 true; a_product 2 5 true])))
  /\ map Product.is_active
       (products (tables (store (snd
          (createTransaction (N := binary64)
             (a_cart [a_line 1 3 1000] 0 0 cash)
             (online (a_shop [a_product 1 10 false; a_product 2 5 true])))))))
     = [false; true].
Proof.
  destruct (createTransaction_ignores_is_active
              (N := binary64) (a_cart [a_line 1 3 1000] 0 0 cash)
              (online (a_shop [a_product 1 10 true; a_product 2 5 true]))
              (online (a_shop [a_product 1 10 false; a_product 2 5 true])))
    as (Hsame & _ & _ & Hkept).
  - repeat split; simpl. repeat constructor.
  - reflexivity.
  - split; [exact Hsame | exact Hkept].
Defined.

(** * createPayment: what one call does *)

Lemma execute_online {A} (q : Db -> A * Db) d :
  execute q {| store := d; budget := None |}
  = (Returned (fst (q d)), {| store := snd (q d); budget := None |}).
Proof. rewrite execute_served by (simpl; discriminate). reflexivity. Qed.

Lemma find_filter_cons {R} (f : R -> bool) (rows : list R) r :
  find f rows = Some r -> exists others, filter f rows = r :: others.
Proof.
  rewrite filter_head_find. destruct (filter f rows) as [ | r' others]; simpl.
  - discriminate.
  - intros H. injection H as ->. exists others. reflexivity.
Qed.

Lemma find_filter_nil {R} (f : R -> bool) (rows : list R) :
  find f rows = None -> filter f rows = [].
Proof.
  rewrite filter_head_find. destruct (filter f rows); simpl;
    [reflexivity | discriminate].
Qed.

Lemma PaymentStatus_eqb_eq a b : PaymentStatus_eqb a b = true <-> a = b.
Proof. destruct a, b; simpl; split; congruence. Qed.

Lemma PaymentMethod_eqb_eq a b : PaymentMethod_eqb a b = true <-> a = b.
Proof. destruct a, b; simpl; split; congruence. Qed.

Lemma set_payment_status_same t :
  set_payment_status (TransactionRow.payment_status t) t = t.
Proof. destruct t. reflexivity. Qed.

Lemma find_transaction_updated status rows id :
  find_transaction
    (update_where (eq_ TransactionRow.id id) (set_payment_status status) rows) id
  = option_map (set_payment_status status) (find_transaction rows id).
Proof.
  unfold find_transaction, update_where, eq_.
  induction rows as [ | t rest IH]; simpl; [reflexivity | ].
  destruct (Z.eqb_spec (TransactionRow.id t) id) as [Heq | Hne]; simpl.
  - apply Z.eqb_eq in Heq. rewrite Heq. reflexivity.
  - apply Z.eqb_neq in Hne. rewrite Hne. exact IH.
Qed.

Section CreatePayment.

Context {N : Number}.

(** The first statement of createPayment and the two checks after it. *)
Lemma createPayment_not_found (input : CreatePaymentInput.t) c0 :
  budget c0 <> Some O ->
  find_transaction (transactions (tables (store c0)))
    (CreatePaymentInput.transaction_id input) = None ->
  createPayment input c0
  = (Thrown TransactionNotFound,
     {| store := store c0; budget := spend (budget c0) |}).
Proof.
  intros Hb Hnone. unfold createPayment, bind.
  rewrite execute_served by exact Hb. simpl.
  unfold find_transaction in Hnone. apply find_filter_nil in Hnone.
  unfold eq_. rewrite Hnone. reflexivity.
Qed.

Lemma createPayment_not_debt (input : CreatePaymentInput.t) c0 transaction0 :
  budget c0 <> Some O ->
  find_transaction (transactions (tables (store c0)))
    (CreatePaymentInput.transaction_id input) = Some transaction0 ->
  TransactionRow.payment_method transaction0 <> debt ->
  createPayment input c0
  = (Thrown NotADebtTransaction,
     {| store := store c0; budget := spend (budget c0) |}).
Proof.
  intros Hb Hsome Hmethod. unfold createPayment, bind.
  rewrite execute_served by exact Hb. simpl.
  unfold find_transaction in Hsome. apply find_filter_cons in Hsome.
  destruct Hsome as [others Hrows]. unfold eq_. rewrite Hrows.
  destruct (PaymentMethod_eqb (TransactionRow.payment_method transaction0) debt)
    eqn:Heq; [ | reflexivity].
  apply PaymentMethod_eqb_eq in Heq. contradiction.
Qed.

(** A payment on a debt transaction, the store serving every statement. *)
Lemma createPayment_online (input : CreatePaymentInput.t) d transaction0 :
  find_transaction (transactions (tables d))
    (CreatePaymentInput.transaction_id input) = Some transaction0 ->
  TransactionRow.payment_method transaction0 = debt ->
  createPayment input (online d)
  = (Returned (returned_payment input
                 (payment_values input (payments_id_seq (sequences d) + 1))),
     online (settled input transaction0 d)).
Proof.
  intros Hsome Hmethod. unfold createPayment, bind, online.
  rewrite execute_online. simpl.
  unfold find_transaction in Hsome. apply find_filter_cons in Hsome.
  destruct Hsome as [others Hrows]. unfold eq_. rewrite Hrows.
  rewrite Hmethod. simpl.
  unfold settled, payments_of. simpl.
  destruct (PaymentStatus_eqb _ (TransactionRow.payment_status transaction0));
    reflexivity.
Qed.

Lemma settled_payments (input : CreatePaymentInput.t) transaction0 d :
  payments (tables (settled input transaction0 d))
  = payments (tables d)
    ++ [payment_values input (payments_id_seq (sequences d) + 1)].
Proof.
  unfold settled. destruct (PaymentStatus_eqb _ _); reflexivity.
Qed.

Lemma settled_products (input : CreatePaymentInput.t) transaction0 d :
  products (tables (settled input transaction0 d)) = products (tables d).
Proof.
  unfold settled. destruct (PaymentStatus_eqb _ _); reflexivity.
Qed.

Lemma settled_payments_of (input : CreatePaymentInput.t) transaction0 d :
  payments_of (settled input transaction0 d)
    (CreatePaymentInput.transaction_id input)
  = payments_of d (CreatePaymentInput.transaction_id input)
    ++ [payment_values input (payments_id_seq (sequences d) + 1)].
Proof.
  unfold payments_of. rewrite settled_payments, filter_app. simpl.
  rewrite Z.eqb_refl. reflexivity.
Qed.

Lemma settled_paid_on (input : CreatePaymentInput.t) transaction0 d :
  paid_on (settled input transaction0 d) (CreatePaymentInput.transaction_id input)
  = paid_on d (CreatePaymentInput.transaction_id input)
    + to_numeric (CreatePaymentInput.amount input).
Proof.
  unfold paid_on. rewrite settled_payments_of, sum_of_app. simpl. lia.
Qed.

Lemma settled_paid_total (input : CreatePaymentInput.t) transaction0 d customerId :
  paid_total (settled input transaction0 d) customerId
  = paid_total d customerId
    + (if CreatePaymentInput.customer_id input =? customerId
       then to_numeric (CreatePaymentInput.amount input) else 0).
Proof.
  unfold paid_total. rewrite settled_payments.
  rewrite filter_app, sum_of_app. simpl.
  destruct (CreatePaymentInput.customer_id input =? customerId); simpl; lia.
Qed.

(** The status a payment leaves: derived from the sum, by the reducer of
    the handler, of the ledger of the transaction with the new row. *)
Lemma settled_transaction (input : CreatePaymentInput.t) transaction0 d :
  find_transaction (transactions (tables d))
    (CreatePaymentInput.transaction_id input) = Some transaction0 ->
  find_transaction (transactions (tables (settled input transaction0 d)))
    (CreatePaymentInput.transaction_id input)
  = Some (set_payment_status
            (newPaymentStatus (TransactionRow.payment_status transaction0)
               (totalPaidAmount
                  (payments_of d (CreatePaymentInput.transaction_id input)
                   ++ [payment_values input
                         (payments_id_seq (sequences d) + 1)]))
               (parseFloat (TransactionRow.final_amount transaction0)))
            transaction0).
Proof.
  intros Hsome. unfold settled. cbv zeta.
  set (d1 := snd (insert_payment (payment_values input) d)).
  assert (Hd1 : payments_of d1 (CreatePaymentInput.transaction_id input)
                = payments_of d (CreatePaymentInput.transaction_id input)
                  ++ [payment_values input
                        (payments_id_seq (sequences d) + 1)]).
  { unfold payments_of, d1. simpl. rewrite filter_app. simpl.
    rewrite Z.eqb_refl. reflexivity. }
  rewrite Hd1.
  destruct (PaymentStatus_eqb _ (TransactionRow.payment_status transaction0))
    eqn:Hsame.
  - apply PaymentStatus_eqb_eq in Hsame. rewrite Hsame.
    rewrite set_payment_status_same. exact Hsome.
  - simpl. rewrite find_transaction_updated. rewrite Hsome. reflexivity.
Qed.

(** * The claims about createPayment that hold in any arithmetic *)

(** C8 -- Preconditions of createPayment.  With the store serving the
    first statement: when no transaction has the id of the payment the call
    throws 'Transaction not found', and when the transaction is there with
    a payment method other than debt it throws 'Payment can only be made
    for debt transactions'; in both cases the store is left as it was, so
    no payment row is created and no transaction is modified. *)
Theorem createPayment_preconditions (input : CreatePaymentInput.t) (c0 : Conn) :
  budget c0 <> Some O ->
  (find_transaction (transactions (tables (store c0)))
     (CreatePaymentInput.transaction_id input) = None ->
   fst (createPayment input c0) = Thrown TransactionNotFound
   /\ store (snd (createPayment input c0)) = store c0)
  /\ (forall transaction0,
        find_transaction (transactions (tables (store c0)))
          (CreatePaymentInput.transaction_id input) = Some transaction0 ->
        TransactionRow.payment_method transaction0 <> debt ->
        fst (createPayment input c0) = Thrown NotADebtTransaction
        /\ store (snd (createPayment input c0)) = store c0).
Proof.
  intros Hb. split.
  - intros Hnone. rewrite (createPayment_not_found input c0 Hb Hnone).
    split; reflexivity.
  - intros transaction0 Hsome Hmethod.
    rewrite (createPayment_not_debt input c0 transaction0 Hb Hsome Hmethod).
    split; reflexivity.
Qed.

End CreatePayment.

Lemma createPayment_preconditions_witness :
  (fst (createPayment (N := binary64) (a_payment 9 7 4000)
          (online (a_ledger [a_sale 1 (Some 7) 10000 cash paid] [])))
   = Thrown TransactionNotFound
   /\ store (snd (createPayment (N := binary64) (a_payment 9 7 4000)
                    (online (a_ledger [a_sale 1 (Some 7) 10000 cash paid] []))))
      = a_ledger [a_sale 1 (Some 7) 10000 cash paid] [])
  /\ (fst (createPayment (N := binary64) (a_payment 1 7 4000)
             (online (a_ledger [a_sale 1 (Some 7) 10000 cash paid] [])))
      = Thrown NotADebtTransaction
      /\ store (snd (createPayment (N := binary64) (a_payment 1 7 4000)
                       (online (a_ledger [a_sale 1 (Some 7) 10000 cash paid] []))))
         = a_ledger [a_sale 1 (Some 7) 10000 cash paid] []).
Proof.
  split.
  - apply (createPayment_preconditions (N := binary64) (a_payment 9 7 4000)
             (online (a_ledger [a_sale 1 (Some 7) 10000 cash paid] []))).
    + simpl. discriminate.
    + reflexivity.
  - apply (proj2 (createPayment_preconditions (N := binary64)
                    (a_payment 1 7 4000)
                    (online (a_ledger [a_sale 1 (Some 7) 10000 cash paid] []))
                    ltac:(simpl; discriminate))
             (a_sale 1 (Some 7) 10000 cash paid)).
    + reflexivity.
    + simpl. discriminate.
Defined.

(** * The payment status in exact arithmetic *)

Section Decimal.

Local Existing Instance decimal.

Lemma totalPaidAmount_decimal (rows : list PaymentRow.t) :
  totalPaidAmount rows = sum_of PaymentRow.amount rows.
Proof. unfold totalPaidAmount. simpl. apply fold_left_sum_of. Qed.

Lemma newPaymentStatus_paid stored (totalPaid final : Z) :
  final <= totalPaid -> newPaymentStatus stored totalPaid final = paid.
Proof.
  intros H. unfold newPaymentStatus. simpl. rewrite Z.geb_leb.
  destruct (Z.leb_spec final totalPaid); [reflexivity | lia].
Qed.

Lemma newPaymentStatus_partial stored (totalPaid final : Z) :
  0 < totalPaid < final -> newPaymentStatus stored totalPaid final = partial.
Proof.
  intros H. unfold newPaymentStatus. simpl. rewrite Z.geb_leb, Z.gtb_ltb.
  destruct (Z.leb_spec final totalPaid); [lia | ].
  destruct (Z.ltb_spec 0 totalPaid); [reflexivity | lia].
Qed.

Lemma newPaymentStatus_unchanged stored (totalPaid final : Z) :
  totalPaid < final -> totalPaid <= 0 ->
  newPaymentStatus stored totalPaid final = stored.
Proof.
  intros H1 H2. unfold newPaymentStatus. simpl. rewrite Z.geb_leb, Z.gtb_ltb.
  destruct (Z.leb_spec final totalPaid); [lia | ].
  destruct (Z.ltb_spec 0 totalPaid); [lia | reflexivity].
Qed.

(** Deriving the status again from a larger amount paid forgets the
    earlier derivation. *)
Lemma newPaymentStatus_later stored (paid1 paid2 final : Z) :
  paid1 <= paid2 ->
  newPaymentStatus (newPaymentStatus stored paid1 final) paid2 final
  = newPaymentStatus stored paid2 final.
Proof.
  intros Hle.
  destruct (Z.le_gt_cases final paid2) as [Hfull | Hshort].
  - rewrite !(newPaymentStatus_paid _ paid2) by exact Hfull. reflexivity.
  - destruct (Z.lt_ge_cases 0 paid2) as [Hsome | Hnone].
    + rewrite !(newPaymentStatus_partial _ paid2) by lia. reflexivity.
    + rewrite (newPaymentStatus_unchanged stored paid1) by lia. reflexivity.
Qed.

Lemma status_after_positive final amounts :
  Forall (fun a => 0 < a) amounts ->
  forall stored paid_so_far,
    status_after final stored paid_so_far amounts
    = match amounts with
      | [] => stored
      | _ :: _ =>
          newPaymentStatus stored (paid_so_far + sum_of (fun a => a) amounts)
            final
      end.
Proof.
  induction 1 as [ | a rest Ha Hrest IH]; intros stored paid_so_far;
    [reflexivity | ].
  simpl status_after. rewrite IH. destruct rest as [ | b rest'].
  - simpl. f_equal. lia.
  - assert (Hpos : 0 <= sum_of (fun a => a) (b :: rest')).
    { clear IH. induction Hrest; simpl in *; lia. }
    rewrite newPaymentStatus_later by lia.
    f_equal. simpl. lia.
Qed.

Lemma sum_of_map {R} (g : R -> Z) (l : list R) :
  sum_of (fun a => a) (map g l) = sum_of g l.
Proof. induction l as [ | r rest IH]; simpl; [reflexivity | rewrite IH; lia]. Qed.

(** The order of positive payments does not matter to the final status. *)
Lemma status_after_Permutation final stored paid_so_far amounts1 amounts2 :
  Permutation amounts1 amounts2 ->
  Forall (fun a => 0 < a) amounts1 ->
  status_after final stored paid_so_far amounts1
  = status_after final stored paid_so_far amounts2.
Proof.
  intros Hperm Hpos1.
  assert (Hpos2 : Forall (fun a => 0 < a) amounts2).
  { rewrite Forall_forall in *. intros a Ha. apply Hpos1.
    apply (Permutation_in a (Permutation_sym Hperm) Ha). }
  rewrite !status_after_positive by assumption.
  destruct amounts1 as [ | a1 rest1].
  - apply Permutation_nil in Hperm. subst amounts2. reflexivity.
  - destruct amounts2 as [ | a2 rest2].
    + apply Permutation_sym, Permutation_nil in Hperm. discriminate.
    + rewrite (sum_of_Permutation (fun a => a) _ _ Hperm). reflexivity.
Qed.

Lemma settled_transaction_decimal (input : CreatePaymentInput.t) transaction0 d :
  find_transaction (transactions (tables d))
    (CreatePaymentInput.transaction_id input) = Some transaction0 ->
  find_transaction (transactions (tables (settled input transaction0 d)))
    (CreatePaymentInput.transaction_id input)
  = Some (set_payment_status
            (newPaymentStatus (TransactionRow.payment_status transaction0)
               (paid_on d (CreatePaymentInput.transaction_id input)
                + CreatePaymentInput.amount input)
               (TransactionRow.final_amount transaction0))
            transaction0).
Proof.
  intros Hsome. rewrite (settled_transaction input transaction0 d Hsome).
  rewrite totalPaidAmount_decimal, sum_of_app. simpl.
  unfold paid_on. do 3 f_equal. lia.
Qed.

(** A run of payments on one debt transaction. *)
Lemma record_payments_online transactionId (inputs : list CreatePaymentInput.t) :
  Forall (fun input => CreatePaymentInput.transaction_id input = transactionId)
    inputs ->
  forall d transaction0,
    find_transaction (transactions (tables d)) transactionId
    = Some transaction0 ->
    TransactionRow.payment_method transaction0 = debt ->
    exists d',
      record_payments inputs (online d) = (Returned tt, online d')
      /\ find_transaction (transactions (tables d')) transactionId
         = Some (set_payment_status
                   (status_after (TransactionRow.final_amount transaction0)
                      (TransactionRow.payment_status transaction0)
                      (paid_on d transactionId)
                      (map CreatePaymentInput.amount inputs))
                   transaction0)
      /\ paid_on d' transactionId
         = paid_on d transactionId + sum_of CreatePaymentInput.amount inputs.
Proof.
  induction 1 as [ | input rest Hid _ IH]; intros d transaction0 Hsome Hmethod.
  - exists d. simpl. rewrite set_payment_status_same.
    repeat split; [exact Hsome | lia].
  - subst transactionId.
    pose proof (settled_transaction_decimal input transaction0 d Hsome) as Hnext.
    destruct (IH (settled input transaction0 d) _ Hnext Hmethod)
      as (d' & Hrun & Hfound & Hpaid).
    exists d'. unfold record_payments in *. simpl for_of. unfold bind at 1 2.
    rewrite (createPayment_online input d transaction0 Hsome Hmethod).
    unfold ret at 1. rewrite Hrun. split; [reflexivity | ].
    rewrite settled_paid_on in Hfound, Hpaid. split.
    + rewrite Hfound. destruct transaction0. reflexivity.
    + rewrite Hpaid. simpl. lia.
Qed.

(** In exact arithmetic the stored status follows the payment ledger. *)
Lemma status_follows_ledger_decimal : status_follows_ledger.
Proof.
  intros d input transaction0 payment d' Hsome Hmethod Hrun.
  rewrite (createPayment_online input d transaction0 Hsome Hmethod) in Hrun.
  injection Hrun as _ <-.
  unfold stored_status.
  rewrite (settled_transaction_decimal input transaction0 d Hsome).
  rewrite settled_paid_on. simpl. split; intros Hpaid.
  - rewrite newPaymentStatus_paid by exact Hpaid. reflexivity.
  - rewrite newPaymentStatus_partial by exact Hpaid. reflexivity.
Qed.

(** In exact arithmetic the final status does not depend on the order of
    positive payments. *)
Lemma status_order_independent_decimal : status_order_independent.
Proof.
  intros d transactionId transaction0 inputs1 inputs2 d1 d2
    Hsome Hmethod Hperm Hall Hrun1 Hrun2.
  assert (Hall2 : Forall (fun input =>
                    CreatePaymentInput.transaction_id input = transactionId
                    /\ 0 < to_numeric (CreatePaymentInput.amount input))
                    inputs2).
  { rewrite Forall_forall in *. intros input Hin. apply Hall.
    apply (Permutation_in input (Permutation_sym Hperm) Hin). }
  assert (Hids : forall inputs,
             Forall (fun input =>
                       CreatePaymentInput.transaction_id input = transactionId
                       /\ 0 < to_numeric (CreatePaymentInput.amount input))
               inputs ->
             Forall (fun input =>
                       CreatePaymentInput.transaction_id input = transactionId)
               inputs
             /\ Forall (fun a => 0 < a) (map CreatePaymentInput.amount inputs)).
  { intros inputs H. split.
    - apply (Forall_impl _ (P := fun input =>
               CreatePaymentInput.transaction_id input = transactionId
               /\ 0 < to_numeric (CreatePaymentInput.amount input)));
        [tauto | exact H].
    - apply Forall_map.
      apply (Forall_impl _ (P := fun input =>
               CreatePaymentInput.transaction_id input = transactionId
               /\ 0 < to_numeric (CreatePaymentInput.amount input)));
        [simpl; tauto | exact H]. }
  destruct (Hids inputs1 Hall) as [Hid1 Hpos1].
  destruct (Hids inputs2 Hall2) as [Hid2 _].
  destruct (record_payments_online transactionId inputs1 Hid1 d transaction0
              Hsome Hmethod) as (d1' & Hrun1' & Hfound1 & _).
  destruct (record_payments_online transactionId inputs2 Hid2 d transaction0
              Hsome Hmethod) as (d2' & Hrun2' & Hfound2 & _).
  rewrite Hrun1 in Hrun1'. injection Hrun1' as ->.
  rewrite Hrun2 in Hrun2'. injection Hrun2' as ->.
  unfold stored_status. rewrite Hfound1, Hfound2. simpl. f_equal.
  apply status_after_Permutation; [ | exact Hpos1].
  apply Permutation_map. exact Hperm.
Qed.

End Decimal.

(** * The payment status with the numbers of JavaScript *)

(** C4 -- The stored status does not follow the payment ledger.  A debt
    of 0.80 is paid with 0.10 and then 0.70: the payments add up to 0.80,
    the handler adds the doubles 0.1 and 0.7 to 0.7999999999999999, which
    is below the double 0.8, and the status stored is partial, not paid.
    And the order matters: on a debt of 0.08 the payments 0.01, 0.01, 0.06
    end with paid, and the payments 0.06, 0.01, 0.01 with partial. *)
Theorem full_payment_left_partial :
  (exists d',
      record_payments (N := binary64) [a_payment 1 7 10; a_payment 1 7 70]
        (online (a_ledger [a_sale 1 (Some 7) 80 debt pending] []))
      = (Returned tt, online d')
      /\ map PaymentRow.amount (payments_of d' 1) = [10; 70]
      /\ stored_status d' 1 = Some partial)
  /\ (exists d1 d2,
        record_payments (N := binary64)
          [a_payment 1 7 1; a_payment 1 7 1; a_payment 1 7 6]
          (online (a_ledger [a_sale 1 (Some 7) 8 debt pending] []))
        = (Returned tt, online d1)
        /\ record_payments (N := binary64)
             [a_payment 1 7 6; a_payment 1 7 1; a_payment 1 7 1]
             (online (a_ledger [a_sale 1 (Some 7) 8 debt pending] []))
           = (Returned tt, online d2)
        /\ stored_status d1 1 = Some paid
        /\ stored_status d2 1 = Some partial).
Proof.
  split.
  - eexists. split; [vm_compute; reflexivity | ]. vm_compute. split; reflexivity.
  - eexists. eexists. split; [vm_compute; reflexivity | ].
    split; [vm_compute; reflexivity | ]. vm_compute. split; reflexivity.
Qed.

(** The scenarios of the tests, with the numbers of JavaScript: on a debt
    of 100.00 a payment of 40.00 leaves partial and a further 60.00 leaves
    paid; a single payment of 150.00 leaves paid. *)
Example whole_amounts_settle_in_binary64 :
  (exists d1 d2,
      record_payments (N := binary64) [a_payment 1 7 4000]
        (online (a_ledger [a_sale 1 (Some 7) 10000 debt pending] []))
      = (Returned tt, online d1)
      /\ stored_status d1 1 = Some partial
      /\ record_payments (N := binary64) [a_payment 1 7 6000] (online d1)
         = (Returned tt, online d2)
      /\ stored_status d2 1 = Some paid)
  /\ (exists d',
        record_payments (N := binary64) [a_payment 1 7 15000]
          (online (a_ledger [a_sale 1 (Some 7) 10000 debt pending] []))
        = (Returned tt, online d')
        /\ stored_status d' 1 = Some paid).
Proof.
  split.
  - eexists. eexists. split; [vm_compute; reflexivity | ].
    split; [vm_compute; reflexivity | ].
    split; [vm_compute; reflexivity | vm_compute; reflexivity].
  - eexists. split; [vm_compute; reflexivity | vm_compute; reflexivity].
Qed.

Section Binary64.

Local Existing Instance binary64.

Lemma status_follows_ledger_binary64_refuted :
  ~ @status_follows_ledger binary64.
Proof.
  intros H.
  pose (d := a_ledger [a_sale 1 (Some 7) 80 debt partial] [a_paid 1 1 7 10]).
  pose (after := createPayment (N := binary64) (a_payment 1 7 70) (online d)).
  assert (Hrun : createPayment (N := binary64) (a_payment 1 7 70) (online d)
                 = (Returned
                      (returned_payment (a_payment 1 7 70)
                         (payment_values (a_payment 1 7 70) 2)),
                    online (store (snd after))))
    by reflexivity.
  destruct (H d (a_payment 1 7 70) (a_sale 1 (Some 7) 80 debt partial) _ _
              eq_refl eq_refl Hrun) as [Hpaid _].
  assert (Hsum : paid_on (store (snd after)) 1 = 80) by (vm_compute; reflexivity).
  simpl CreatePaymentInput.transaction_id in Hpaid.
  rewrite Hsum in Hpaid. specialize (Hpaid (Z.le_refl 80)).
  vm_compute in Hpaid. discriminate Hpaid.
Qed.

Lemma status_order_independent_binary64_refuted :
  ~ @status_order_independent binary64.
Proof.
  intros H.
  pose (d := a_ledger [a_sale 1 (Some 7) 8 debt pending] []).
  pose (inputs := [a_payment (N := binary64) 1 7 1; a_payment 1 7 1;
                   a_payment 1 7 6]).
  pose (after1 := record_payments inputs (online d)).
  pose (after2 := record_payments (rev inputs) (online d)).
  assert (Hrun1 : record_payments inputs (online d)
                  = (Returned tt, online (store (snd after1))))
    by (vm_compute; reflexivity).
  assert (Hrun2 : record_payments (rev inputs) (online d)
                  = (Returned tt, online (store (snd after2))))
    by (vm_compute; reflexivity).
  assert (Hall : Forall (fun input =>
                    CreatePaymentInput.transaction_id input = 1
                    /\ 0 < to_numeric (CreatePaymentInput.amount input))
                   inputs).
  { repeat constructor. }
  pose proof (H d 1 (a_sale 1 (Some 7) 8 debt pending) inputs (rev inputs) _ _
                eq_refl eq_refl (Permutation_rev inputs) Hall Hrun1 Hrun2)
    as Hsame.
  vm_compute in Hsame. discriminate Hsame.
Qed.

End Binary64.

(** * The claims about getCustomerDebt *)

Section GetCustomerDebt.

Context {N : Number}.

Lemma total_or_zero_select_sum {R} (from : Tables -> list R) (column : R -> Z)
  (where_ : R -> bool) d :
  total_or_zero (fst (select_sum from column where_ d))
  = parseFloat (sum_of column (filter where_ (from (tables d)))).
Proof.
  unfold select_sum. simpl.
  destruct (filter where_ (from (tables d))) as [ | r rest] eqn:Hrows.
  - reflexivity.
  - simpl total_or_zero. f_equal. apply fold_left_sum_of.
Qed.

Lemma owed_by_where customerId t :
  eq_nullable TransactionRow.customer_id customerId t && is_unpaid t
  = owed_by customerId t.
Proof.
  unfold eq_nullable, is_unpaid, owed_by.
  destruct (TransactionRow.customer_id t), (TransactionRow.payment_status t);
    simpl; try reflexivity; apply andb_false_r || apply andb_true_r.
Qed.

(** What the handler computes, in its arithmetic, from the two sums the
    store computes. *)
Lemma getCustomerDebt_online customerId d :
  getCustomerDebt customerId (online d)
  = (Returned
       (Math_max
          (sub (parseFloat (unpaid_total d customerId))
             (parseFloat (paid_total d customerId)))
          zero),
     online d).
Proof.
  unfold getCustomerDebt, bind, online. rewrite execute_online.
  replace (snd (select_sum transactions TransactionRow.final_amount
                  (fun t => eq_nullable TransactionRow.customer_id customerId t
                            && is_unpaid t) d)) with d by reflexivity.
  rewrite execute_online.
  replace (snd (select_sum payments PaymentRow.amount
                  (eq_ PaymentRow.customer_id customerId) d)) with d
    by reflexivity.
  rewrite !total_or_zero_select_sum. unfold ret.
  unfold unpaid_total, paid_total.
  rewrite (filter_ext _ _ (owed_by_where customerId)).
  reflexivity.
Qed.

Lemma getCustomerDebt_reads_only customerId c0 :
  store (snd (getCustomerDebt customerId c0)) = store c0.
Proof.
  unfold getCustomerDebt, bind, execute.
  destruct c0 as [d [[ | [ | n]] | ]]; reflexivity.
Qed.

End GetCustomerDebt.

(** With the numbers of JavaScript the result is not below zero. *)
Lemma getCustomerDebt_binary64_not_negative customerId d r :
  fst (getCustomerDebt (N := binary64) customerId (online d)) = Returned r ->
  PrimFloat.ltb r PrimFloat.zero = false.
Proof.
  rewrite getCustomerDebt_online. simpl. intros H. injection H as <-.
  set (x := PrimFloat.sub _ _).
  destruct (PrimFloat.ltb x PrimFloat.zero) eqn:Hlt.
  - reflexivity.
  - exact Hlt.
Qed.

(** createPayment does not write to the products table. *)
Lemma createPayment_keeps_products {N : Number}
  (input : CreatePaymentInput.t) c0 :
  products (tables (store (snd (createPayment input c0))))
  = products (tables (store c0)).
Proof.
  pose (same := fun c : Conn =>
                  products (tables (store c)) = products (tables (store c0))).
  assert (H : triple same (createPayment input)
                (fun _ => same) (fun _ => same)).
  { unfold createPayment.
    apply (triple_bind _ _ _ (fun _ => same)).
    { apply triple_execute; intros c Hc _; exact Hc. }
    intros [ | transaction0 others]; [apply triple_throw; auto | ].
    destruct (negb (PaymentMethod_eqb
                      (TransactionRow.payment_method transaction0) debt));
      [apply triple_throw; auto | ].
    apply (triple_bind _ _ _ (fun _ => same)).
    { apply triple_execute; intros c Hc _; exact Hc. }
    intros payment.
    apply (triple_bind _ _ _ (fun _ => same)).
    { apply triple_execute; intros c Hc _; exact Hc. }
    intros totalPayments.
    apply (triple_bind _ _ _ (fun _ => same)).
    { destruct (negb (PaymentStatus_eqb _ _)).
      - apply triple_execute; intros c Hc _; exact Hc.
      - apply triple_ret. auto. }
    intros _. apply triple_ret. auto. }
  specialize (H c0 eq_refl).
  destruct (createPayment input c0) as [[payment | e] c]; exact H.
Qed.

(** Non-negative stock is an invariant of the three handlers: it holds
    after any run of calls, whatever the store serves to each. *)
Lemma stock_nonnegative_invariant {N : Number}
  (calls : list (Call * option nat)) (d : Db) :
  stock_nonnegative (products (tables d)) ->
  stock_nonnegative (products (tables (after_calls calls d))).
Proof.
  unfold after_calls. revert d.
  induction calls as [ | [call serves] rest IH]; intros d Hd; simpl;
    [exact Hd | ].
  apply IH. unfold after_call. simpl.
  destruct call as [input | input | customerId].
  - pose proof (createTransaction_spec input
                  {| store := d; budget := serves |}) as H.
    destruct (createTransaction input {| store := d; budget := serves |})
      as [[t | e] c]; simpl in *.
    + destruct H as (Hok & _ & Hrows & _). rewrite Hrows.
      apply sell_from_nonnegative; assumption.
    + destruct H as [_ Hsame]. rewrite Hsame. exact Hd.
  - rewrite createPayment_keeps_products. exact Hd.
  - rewrite getCustomerDebt_reads_only. exact Hd.
Qed.

(** C5 -- getCustomerDebt.  For every customer id the call returns
    [Math.max(unpaid - paid, 0)], where [unpaid] is the sum of the final
    amounts of the customer's transactions whose status is pending or
    partial and [paid] the sum of the amounts of all the customer's
    payments, both computed by the store and read with [parseFloat]; in
    exact arithmetic that is the larger of zero and the difference of the
    two sums.  The result is never negative, with the numbers of
    JavaScript too; and the call leaves the store as it found it, whether
    or not the store serves its statements. *)
Theorem getCustomerDebt_spec (customerId : Z) (d : Db) :
  (forall N : Number,
      getCustomerDebt customerId (online d)
      = (Returned
           (Math_max
              (sub (parseFloat (unpaid_total d customerId))
                 (parseFloat (paid_total d customerId)))
              zero),
         online d))
  /\ getCustomerDebt (N := decimal) customerId (online d)
     = (Returned (Z.max 0 (unpaid_total d customerId - paid_total d customerId)),
        online d)
  /\ 0 <= Z.max 0 (unpaid_total d customerId - paid_total d customerId)
  /\ (forall r,
         fst (getCustomerDebt (N := binary64) customerId (online d))
         = Returned r ->
         PrimFloat.ltb r PrimFloat.zero = false)
  /\ (forall (N : Number) c0,
         store (snd (getCustomerDebt customerId c0)) = store c0).
Proof.
  split; [intros N; apply getCustomerDebt_online | ].
  split.
  { rewrite getCustomerDebt_online. simpl. rewrite Z.max_comm. reflexivity. }
  split; [apply Z.le_max_l | ].
  split; [intros r; apply getCustomerDebt_binary64_not_negative | ].
  intros N c0. apply getCustomerDebt_reads_only.
Qed.

(** Payments are netted against the unpaid transactions of the customer
    as a whole: customer 7 paid off transaction 1 and owes all of
    transaction 2, and the debt is 0. *)
Example debt_is_netted_in_aggregate :
  let d :=
    a_ledger [a_sale 1 (Some 7) 10000 debt pending;
              a_sale 2 (Some 7) 10000 debt pending] [] in
  exists payment d',
    createPayment (N := decimal) (a_payment 1 7 10000) (online d)
    = (Returned payment, online d')
    /\ stored_status d' 1 = Some paid
    /\ stored_status d' 2 = Some pending
    /\ paid_on d' 2 = 0
    /\ fst (getCustomerDebt (N := decimal) 7 (online d')) = Returned 0.
Proof.
  vm_compute. eexists. eexists. repeat split.
Qed.

(** C10 -- createPayment does not compare the customer of the payment
    with the customer of the transaction.  For every debt transaction in
    the store and every payment input naming it, whatever its customer id
    (the transaction may belong to another customer or to none), the call
    returns a payment carrying the customer id of the input, the row of
    that payment is the new last row of the payments table, and its amount
    is counted in the payments getCustomerDebt subtracts for that
    customer. *)
Theorem createPayment_accepts_any_customer {N : Number}
  (input : CreatePaymentInput.t) (d : Db) (transaction0 : TransactionRow.t) :
  find_transaction (transactions (tables d))
    (CreatePaymentInput.transaction_id input) = Some transaction0 ->
  TransactionRow.payment_method transaction0 = debt ->
  exists payment row d',
    createPayment input (online d) = (Returned payment, online d')
    /\ Payment.customer_id payment = CreatePaymentInput.customer_id input
    /\ Payment.transaction_id payment = CreatePaymentInput.transaction_id input
    /\ payments (tables d') = payments (tables d) ++ [row]
    /\ PaymentRow.customer_id row = CreatePaymentInput.customer_id input
    /\ PaymentRow.amount row = to_numeric (CreatePaymentInput.amount input)
    /\ getCustomerDebt (CreatePaymentInput.customer_id input) (online d')
       = (Returned
            (Math_max
               (sub
                  (parseFloat
                     (unpaid_total d' (CreatePaymentInput.customer_id input)))
                  (parseFloat
                     (paid_total d (CreatePaymentInput.customer_id input)
                      + to_numeric (CreatePaymentInput.amount input))))
               zero),
          online d').
Proof.
  intros Hsome Hmethod.
  exists (returned_payment input
            (payment_values input (payments_id_seq (sequences d) + 1))),
         (payment_values input (payments_id_seq (sequences d) + 1)),
         (settled input transaction0 d).
  split; [exact (createPayment_online input d transaction0 Hsome Hmethod) | ].
  repeat split.
  - apply settled_payments.
  - rewrite getCustomerDebt_online.
    rewrite settled_paid_total, Z.eqb_refl. reflexivity.
Qed.

Lemma createPayment_accepts_any_customer_witness :
  exists payment d',
    createPayment (N := decimal) (a_payment 1 8 4000)
      (online (a_ledger [a_sale 1 None 10000 debt pending;
                         a_sale 2 (Some 8) 5000 debt pending] []))
    = (Returned payment, online d')
    /\ Payment.customer_id payment = 8
    /\ getCustomerDebt (N := decimal) 8 (online d') = (Returned 1000, online d').
Proof.
  destruct (createPayment_accepts_any_customer (N := decimal)
              (a_payment 1 8 4000)
              (a_ledger [a_sale 1 None 10000 debt pending;
                         a_sale 2 (Some 8) 5000 debt pending] [])
              (a_sale 1 None 10000 debt pending) eq_refl eq_refl)
    as (payment & row & d' & Hrun & Hcustomer & _ & _ & _ & _ & Hdebt).
  exists payment, d'. split; [exact Hrun | ]. split; [exact Hcustomer | ].
  etransitivity; [exact Hdebt | ].
  injection Hrun as _ <-. reflexivity.
Defined.

(** * The scenarios of the repository's tests, with the numbers of JavaScript *)

(** 'should create a transaction with cash payment', 'should update
    product stock quantities': 2 at 10.00 and 1 at 20.00, discount 5.00,
    tax 2.00. *)
Example test_create_transaction :
  exists t c,
    createTransaction (N := binary64)
      (a_cart [a_line 1 2 1000; a_line 2 1 2000] 500 200 cash)
      (online (a_shop [a_product 1 100 true; a_product 2 50 true]))
    = (Returned t, c)
    /\ Transaction.total_amount t = binary64_parseFloat 4000
    /\ Transaction.final_amount t = binary64_parseFloat 3700
    /\ Transaction.payment_status t = paid
    /\ map Product.stock_quantity (products (tables (store c))) = [98; 49]
    /\ map TransactionItem.subtotal (transaction_items (tables (store c)))
       = [2000; 2000].
Proof. eexists. eexists. split; [reflexivity | ]. repeat split. Qed.

(** 'should handle multiple transactions and payments': 100.00 pending,
    200.00 partial, 50.00 paid in cash, one payment of 75.00. *)
Example test_get_customer_debt :
  getCustomerDebt (N := binary64) 7
    (online (a_ledger [a_sale 1 (Some 7) 10000 debt pending;
                       a_sale 2 (Some 7) 20000 debt partial;
                       a_sale 3 (Some 7) 5000 cash paid]
               [a_paid 1 2 7 7500]))
  = (Returned (binary64_parseFloat 22500),
     online (a_ledger [a_sale 1 (Some 7) 10000 debt pending;
                       a_sale 2 (Some 7) 20000 debt partial;
                       a_sale 3 (Some 7) 5000 cash paid]
               [a_paid 1 2 7 7500])).
Proof. reflexivity. Qed.

(** 'should return 0 when payments exceed unpaid amount'. *)
Example test_get_customer_debt_overpaid :
  fst (getCustomerDebt (N := binary64) 7
         (online (a_ledger [a_sale 1 (Some 7) 10000 debt pending]
                    [a_paid 1 1 7 15000])))
  = Returned PrimFloat.zero.
Proof. reflexivity. Qed.

(** * createTransaction on a store that serves every statement *)

Section Outcome.

Context {N : Number}.

Lemma load_product_online d productId :
  load_product productId (online d)
  = match find_product (products (tables d)) productId with
    | Some p => (Returned p, online d)
    | None => (Thrown (ProductNotFound productId), online d)
    end.
Proof.
  unfold load_product, bind, online. rewrite execute_online. simpl.
  unfold find_product. rewrite filter_head_find. unfold eq_.
  destruct (filter _ (products (tables d))); reflexivity.
Qed.

(** Step 1 stops at the first line whose product is not there. *)
Lemma load_all_online d (items : list CartItem.t) :
  match first_missing (products (tables d)) items with
  | Some item =>
      for_of_push (map CartItem.product_id items) load_product (online d)
      = (Thrown (ProductNotFound (CartItem.product_id item)), online d)
  | None =>
      exists allProducts,
        for_of_push (map CartItem.product_id items) load_product (online d)
        = (Returned allProducts, online d)
        /\ Forall2 (fun id p => find_product (products (tables d)) id = Some p)
             (map CartItem.product_id items) allProducts
  end.
Proof.
  unfold first_missing.
  induction items as [ | item rest IH]; simpl.
  - exists []. split; [reflexivity | constructor].
  - unfold bind at 1. rewrite load_product_online. unfold is_missing at 1.
    destruct (find_product (products (tables d)) (CartItem.product_id item))
      as [p | ] eqn:Hp; [ | reflexivity].
    destruct (find (is_missing (products (tables d))) rest) as [bad | ].
    + unfold bind. rewrite IH. reflexivity.
    + destruct IH as (ps & Hrun & Hall). exists (p :: ps). split.
      * unfold bind. rewrite load_product_online, Hp, Hrun. reflexivity.
      * constructor; assumption.
Qed.

(** Step 2 stops at the first line that does not pass. *)
Lemma check_all_online d allProducts (items : list CartItem.t) :
  (forall item, In item items ->
     find_product allProducts (CartItem.product_id item)
     = find_product (products (tables d)) (CartItem.product_id item)) ->
  for_of items (check_stock allProducts) (online d)
  = match first_rejected (products (tables d)) items with
    | Some item => (Thrown (rejection (products (tables d)) item), online d)
    | None => (Returned tt, online d)
    end.
Proof.
  unfold first_rejected.
  induction items as [ | item rest IH]; intros Hsame; simpl; [reflexivity | ].
  unfold bind at 1. unfold check_stock at 1. unfold accepted at 1.
  rewrite (Hsame item (or_introl eq_refl)).
  destruct (find_product (products (tables d)) (CartItem.product_id item))
    as [p | ] eqn:Hp; simpl.
  - rewrite Z.ltb_antisym.
    destruct (CartItem.quantity item <=? Product.stock_quantity p); simpl.
    + apply IH. intros item' Hin. apply Hsame. right. exact Hin.
    + unfold rejection. rewrite Hp. reflexivity.
  - unfold rejection. rewrite Hp. reflexivity.
Qed.

Lemma first_missing_rejected rows (items : list CartItem.t) :
  first_missing rows items = None ->
  first_rejected rows items = None ->
  Forall (fun item => accepted rows item = true) items.
Proof.
  unfold first_rejected. intros _ Hnone. apply Forall_forall. intros item Hin.
  pose proof (find_none _ _ Hnone item Hin) as H. simpl in H.
  destruct (accepted rows item); [reflexivity | discriminate].
Qed.

End Outcome.

(** X1 -- The outcome of createTransaction on a store that serves every
    statement is decided by the cart and the products table alone, and
    a missing product is reported before any shortage of stock: if some
    line names a product that is not in the table, the call throws
    'Product with ID ... not found' for the first such line, even when
    an earlier line asks for more than is in stock; otherwise, if some
    line asks for more than the stock of its product, the call throws
    'Insufficient stock ...' with the name, the stock and the quantity of
    the first such line; otherwise it returns the transaction, numbered
    by the sequence. *)
Theorem createTransaction_outcome {N : Number}
  (input : CreateTransactionInput.t) (d : Db) :
  fst (createTransaction input (online d))
  = match first_missing (products (tables d))
            (CreateTransactionInput.items input) with
    | Some item => Thrown (ProductNotFound (CartItem.product_id item))
    | None =>
        match first_rejected (products (tables d))
                (CreateTransactionInput.items input) with
        | Some item => Thrown (rejection (products (tables d)) item)
        | None =>
            Returned
              (returned_transaction
                 (transaction_values input
                    (transactions_id_seq (sequences d) + 1)))
        end
    end.
Proof.
  pose proof (load_all_online d (CreateTransactionInput.items input)) as Hload.
  destruct (first_missing (products (tables d))
              (CreateTransactionInput.items input)) as [missing | ] eqn:Hmissing.
  - unfold createTransaction, transaction, createTransaction_body. cbv zeta.
    unfold bind at 1. unfold online at 1. rewrite execute_online.
    replace (snd (select products
                    (eq_opt Product.id
                       (hd_error
                          (map CartItem.product_id
                             (CreateTransactionInput.items input)))) d))
      with d by reflexivity.
    unfold bind at 1. fold (online d). rewrite Hload. reflexivity.
  - destruct Hload as (allProducts & Hrun & Hall).
    destruct (first_rejected (products (tables d))
                (CreateTransactionInput.items input)) as [short | ] eqn:Hshort.
    + unfold createTransaction, transaction, createTransaction_body. cbv zeta.
      unfold bind at 1. unfold online at 1. rewrite execute_online.
      replace (snd (select products
                      (eq_opt Product.id
                         (hd_error
                            (map CartItem.product_id
                               (CreateTransactionInput.items input)))) d))
        with d by reflexivity.
      unfold bind at 1. fold (online d). rewrite Hrun.
      unfold bind at 1. rewrite check_all_online.
      * rewrite Hshort. reflexivity.
      * intros item Hin. apply (find_product_loaded _ _ _ Hall).
        apply in_map. exact Hin.
    + pose proof (first_missing_rejected _ _ Hmissing Hshort) as Hok.
      pose proof (createTransaction_spec input (online d)) as H.
      destruct (createTransaction input (online d)) as [[t | e] c]; simpl.
      * destruct H as (_ & Ht & _). rewrite Ht. reflexivity.
      * exfalso. destruct H as [[[_ Hbudget] | (item & Hin & Hbad & _)] _].
        -- apply Hbudget. reflexivity.
        -- rewrite Forall_forall in Hok. simpl in Hbad.
           rewrite (Hok item Hin) in Hbad. discriminate.
Qed.

(** * The stock a sale leaves *)

Section StockAfterSale.

Context {N : Number}.

Lemma find_product_same id n rows :
  find_product (update_where (eq_ Product.id id) (set_stock_quantity n) rows) id
  = option_map (set_stock_quantity n) (find_product rows id).
Proof.
  unfold find_product, update_where, eq_.
  induction rows as [ | r rest IH]; simpl; [reflexivity | ].
  destruct (Product.id r =? id) eqn:Heq; simpl; rewrite Heq;
    [reflexivity | exact IH].
Qed.

Lemma find_in_app {R} (f : R -> bool) (l1 l2 : list R) :
  find f (l1 ++ l2)
  = match find f l1 with
    | Some r => Some r
    | None => find f l2
    end.
Proof.
  induction l1 as [ | r rest IH]; simpl; [reflexivity | ].
  destruct (f r); [reflexivity | exact IH].
Qed.

Lemma set_stock_quantity_same p :
  set_stock_quantity (Product.stock_quantity p) p = p.
Proof. destruct p. reflexivity. Qed.

(** The row found for an id after step 7 has run over some lines. *)
Lemma find_product_sold loaded (items : list CartItem.t) productId :
  forall rows,
    find_product (fold_left (sell_line loaded) items rows) productId
    = match last_line items productId, find_product loaded productId with
      | Some item, Some p0 =>
          option_map
            (set_stock_quantity
               (Product.stock_quantity p0 - CartItem.quantity item))
            (find_product rows productId)
      | _, _ => find_product rows productId
      end.
Proof.
  unfold last_line.
  induction items as [ | item rest IH]; intros rows; simpl; [reflexivity | ].
  rewrite IH. rewrite find_in_app.
  assert (Hline : find_product (sell_line loaded rows item) productId
                  = if CartItem.product_id item =? productId
                    then match find_product loaded productId with
                         | Some p0 =>
                             option_map
                               (set_stock_quantity
                                  (Product.stock_quantity p0
                                   - CartItem.quantity item))
                               (find_product rows productId)
                         | None => find_product rows productId
                         end
                    else find_product rows productId).
  { unfold sell_line.
    destruct (Z.eqb_spec (CartItem.product_id item) productId) as [Heq | Hne].
    - rewrite Heq.
      destruct (find_product loaded productId) as [p0 | ]; [ | reflexivity].
      apply find_product_same.
    - destruct (find_product loaded (CartItem.product_id item)) as [p | ];
        [ | reflexivity].
      apply find_product_other. congruence. }
  destruct (find (fun item0 : CartItem.t => CartItem.product_id item0 =? productId)
              (rev rest)) as [later | ].
  - destruct (find_product loaded productId) as [p0 | ] eqn:Hp0.
    + rewrite Hline.
      destruct (CartItem.product_id item =? productId); [ | reflexivity].
      destruct (find_product rows productId); reflexivity.
    + rewrite Hline.
      destruct (CartItem.product_id item =? productId); reflexivity.
  - simpl. rewrite Hline.
    destruct (CartItem.product_id item =? productId); [reflexivity | ].
    destruct (find_product loaded productId); reflexivity.
Qed.

Lemma find_product_after_sale rows (items : list CartItem.t) productId :
  find_product (sell rows items) productId
  = option_map (fun p => set_stock_quantity (stock_after_sale items p) p)
      (find_product rows productId).
Proof.
  unfold sell. rewrite find_product_sold.
  destruct (find_product rows productId) as [p0 | ] eqn:Hp0.
  - destruct (find_product_id _ _ _ Hp0) as [Hid _].
    simpl. unfold stock_after_sale. rewrite Hid.
    destruct (last_line items productId).
    + reflexivity.
    + rewrite set_stock_quantity_same. reflexivity.
  - destruct (last_line items productId); reflexivity.
Qed.

Lemma getProductById_online id d :
  getProductById id (online d)
  = (Returned (option_map returned_product (find_product (products (tables d)) id)),
     online d).
Proof.
  unfold getProductById, bind, online. rewrite execute_online. simpl.
  unfold find_product. rewrite filter_head_find. unfold eq_.
  destruct (filter _ (products (tables d))); reflexivity.
Qed.

End StockAfterSale.

(** X2 -- The stock a committed sale leaves, as getProductById reads it
    back.  After createTransaction has returned, a product that was in
    the table is still there with its name, its price and its flag, and
    its stock is the stock it had before the call minus the quantity of
    the last line of the cart that names it (one line, whatever the
    earlier lines for the same product asked); the stock of a product no
    line names is what it was; and an id that was not in the table is
    still answered with null. *)
Theorem stock_after_createTransaction {N : Number}
  (input : CreateTransactionInput.t) (c0 c : Conn) (t : Transaction.t)
  (productId : Z) :
  createTransaction input c0 = (Returned t, c) ->
  getProductById productId (online (store c))
  = (Returned
       (option_map
          (fun p =>
             returned_product
               (set_stock_quantity
                  (stock_after_sale (CreateTransactionInput.items input) p) p))
          (find_product (products (tables (store c0))) productId)),
     online (store c)).
Proof.
  intros Hrun. pose proof (createTransaction_spec input c0) as H.
  rewrite Hrun in H. destruct H as (_ & _ & Hrows & _).
  rewrite getProductById_online, Hrows, find_product_after_sale.
  destruct (find_product (products (tables (store c0))) productId);
    reflexivity.
Qed.

Lemma stock_after_createTransaction_witness :
  getProductById (N := decimal) 1
    (online (store (snd (createTransaction (N := decimal)
                           (a_cart [a_line 1 2 1000; a_line 1 3 1000] 0 0 cash)
                           (online (a_shop [a_product 1 10 true]))))))
  = (Returned
       (Some (returned_product (a_product 1 7 true))),
     online (store (snd (createTransaction (N := decimal)
                           (a_cart [a_line 1 2 1000; a_line 1 3 1000] 0 0 cash)
                           (online (a_shop [a_product 1 10 true])))))).
Proof.
  exact (stock_after_createTransaction (N := decimal)
           (a_cart [a_line 1 2 1000; a_line 1 3 1000] 0 0 cash)
           (online (a_shop [a_product 1 10 true])) _ _ 1 eq_refl).
Defined.

(** * The item rows of a sale *)

Section ItemRows.

Context {N : Number}.
Variable input : CreateTransactionInput.t.
Variable c0 : Conn.

Local Abbreviation items := (CreateTransactionInput.items input).
Local Abbreviation items0 := (transaction_items (tables (store c0))).

(** No item row has been written yet. *)
Local Abbreviation items_kept :=
  (fun c : Conn => transaction_items (tables (store c)) = items0).

(** The item rows of the lines [lines] have been written, for the
    transaction with the id [transactionId]. *)
Local Abbreviation items_written :=
  (fun (transactionId : Z) (lines : list CartItem.t) (c : Conn) =>
     exists rows,
       transaction_items (tables (store c)) = items0 ++ rows
       /\ Forall2 (item_row_of transactionId) lines rows).

Local Abbreviation anywhere := (fun (_ : Error) (_ : Conn) => True).

Lemma load_product_keeps_items productId :
  triple items_kept (load_product productId)
    (fun p c => items_kept c /\ True) anywhere.
Proof.
  unfold load_product.
  apply (triple_bind _ _ _ (fun _ => items_kept)).
  - apply triple_execute; [intros c Hc _; exact Hc | auto].
  - intros [ | first others]; [apply triple_throw; auto | ].
    apply triple_ret. auto.
Qed.

Lemma check_stock_keeps_items allProducts (item : CartItem.t) :
  triple items_kept (check_stock allProducts item) (fun _ => items_kept)
    anywhere.
Proof.
  unfold check_stock.
  destruct (find_product allProducts (CartItem.product_id item)) as [p | ];
    [ | apply triple_throw; auto].
  destruct (Product.stock_quantity p <? CartItem.quantity item);
    [apply triple_throw; auto | apply triple_ret; auto].
Qed.

Lemma insert_item_rows (t : TransactionRow.t) :
  triple items_kept
    (for_of items
       (fun item => execute (insert_transaction_item (item_values t item))))
    (fun _ => items_written (TransactionRow.id t) items) anywhere.
Proof.
  apply (triple_weaken _ (items_written (TransactionRow.id t) []) _ _
           (fun _ => items_written (TransactionRow.id t) items) _ anywhere);
    [ | | auto | auto].
  - apply (triple_for_of (items_written (TransactionRow.id t))).
    intros before item after _. apply triple_execute; [ | auto].
    intros c (rows & Hrows & Hall) _. simpl. rewrite Hrows.
    exists (rows ++ [item_values t item
                       (transaction_items_id_seq (sequences (store c)) + 1)]).
    split; [rewrite app_assoc; reflexivity | ].
    apply Forall2_app; [exact Hall | ].
    constructor; [ | constructor]. unfold item_row_of. simpl. auto.
  - intros c Hc. exists []. split; [ | constructor].
    rewrite app_nil_r. exact Hc.
Qed.

Lemma update_stock_keeps_items transactionId allProducts (item : CartItem.t) :
  triple (items_written transactionId items) (update_stock allProducts item)
    (fun _ => items_written transactionId items) anywhere.
Proof.
  unfold update_stock.
  destruct (find_product allProducts (CartItem.product_id item)) as [p | ];
    [ | apply triple_ret; auto].
  apply triple_execute; [ | auto]. intros c Hc _. exact Hc.
Qed.

(** One run of the body of createTransaction, as far as the item rows
    go. *)
Lemma createTransaction_body_items :
  triple (fun c => c = c0) (createTransaction_body input)
    (fun t => items_written (Transaction.id t) items) anywhere.
Proof.
  unfold createTransaction_body. cbv zeta.
  apply (triple_bind _ _ _ (fun _ => items_kept)).
  { apply triple_execute; [ | auto]. intros c -> _. reflexivity. }
  intros _.
  apply (triple_bind _ _ _ (fun _ => items_kept)).
  { apply (triple_weaken _ items_kept _ _
             (fun ys c =>
                items_kept c
                /\ Forall2 (fun (_ : Z) (_ : Product.t) => True)
                     (map CartItem.product_id items) ys)
             _ anywhere); [ | auto | tauto | auto].
    apply triple_for_of_push. intros productId _.
    apply load_product_keeps_items. }
  intros allProducts.
  apply (triple_bind _ _ _ (fun _ => items_kept)).
  { apply triple_for_of_In. intros item _. apply check_stock_keeps_items. }
  intros _.
  apply (triple_bind _ _ _ (fun t c =>
           items_kept c)).
  { apply triple_execute; [ | auto]. intros c Hc _. exact Hc. }
  intros t.
  apply (triple_bind _ _ _
           (fun _ => items_written (TransactionRow.id t) items)).
  { apply insert_item_rows. }
  intros _.
  apply (triple_bind _ _ _
           (fun _ => items_written (TransactionRow.id t) items)).
  { apply triple_for_of_In. intros item _. apply update_stock_keeps_items. }
  intros _. apply triple_ret. auto.
Qed.

End ItemRows.

Section WhatASaleLeaves.

Context {N : Number}.

Lemma createTransaction_items (input : CreateTransactionInput.t) c0 t c :
  createTransaction input c0 = (Returned t, c) ->
  exists rows,
    transaction_items (tables (store c))
    = transaction_items (tables (store c0)) ++ rows
    /\ Forall2 (item_row_of (Transaction.id t))
         (CreateTransactionInput.items input) rows.
Proof.
  unfold createTransaction, transaction. intros Hrun.
  pose proof (createTransaction_body_items input c0 c0 eq_refl) as H.
  destruct (createTransaction_body input c0) as [[t' | e] c'];
    [ | discriminate].
  injection Hrun as <- <-. exact H.
Qed.

Lemma only_stock_changed_refl rows : only_stock_changed rows rows.
Proof.
  induction rows as [ | p rest IH]; constructor; [ | exact IH].
  exists (Product.stock_quantity p). destruct p. reflexivity.
Qed.

Lemma only_stock_changed_update where_ n before rows :
  only_stock_changed before rows ->
  only_stock_changed before (update_where where_ (set_stock_quantity n) rows).
Proof.
  unfold only_stock_changed, update_where.
  induction 1 as [ | p p' before' rows' [m Hp] _ IH]; simpl; constructor;
    [ | exact IH].
  destruct (where_ p'); [ | exists m; exact Hp].
  exists n. rewrite Hp. reflexivity.
Qed.

Lemma only_stock_changed_sell loaded (items : list CartItem.t) before :
  forall rows,
    only_stock_changed before rows ->
    only_stock_changed before (fold_left (sell_line loaded) items rows).
Proof.
  induction items as [ | item rest IH]; intros rows Hrows; simpl;
    [exact Hrows | ].
  apply IH. unfold sell_line.
  destruct (find_product loaded (CartItem.product_id item)) as [p | ];
    [ | exact Hrows].
  apply only_stock_changed_update. exact Hrows.
Qed.

End WhatASaleLeaves.

(** X3 -- The item rows of a committed sale.  When createTransaction
    returns, the transaction items table is what it was followed by one
    new row for each line of the cart, in the order of the cart; the row
    of a line bears the id of the returned transaction, the product id
    and the quantity of the line, the unit price of the line as the
    numeric column keeps it, and as subtotal what the column keeps of
    quantity times unit price.  A product named by two lines gets two
    rows. *)
Theorem createTransaction_item_rows {N : Number}
  (input : CreateTransactionInput.t) (c0 c : Conn) (t : Transaction.t) :
  createTransaction input c0 = (Returned t, c) ->
  exists rows,
    transaction_items (tables (store c))
    = transaction_items (tables (store c0)) ++ rows
    /\ Forall2 (item_row_of (Transaction.id t))
         (CreateTransactionInput.items input) rows.
Proof.
  unfold createTransaction, transaction. intros Hrun.
  pose proof (createTransaction_body_items input c0 c0 eq_refl) as Hbody.
  destruct (createTransaction_body input c0) as [[t' | e] c'];
    [ | discriminate].
  injection Hrun as <- <-.
  destruct Hbody as (rows & Hrows & Hall).
  exists rows. split; [exact Hrows | exact Hall].
Qed.

Lemma createTransaction_item_rows_witness :
  exists rows,
    transaction_items
      (tables (store (snd (createTransaction (N := binary64)
                             (a_cart [a_line 1 2 1000; a_line 1 3 1000] 0 0 cash)
                             (online (a_shop [a_product 1 10 true]))))))
    = [] ++ rows
    /\ Forall2 (item_row_of (N := binary64) 1)
         [a_line 1 2 1000; a_line 1 3 1000] rows.
Proof.
  exact (createTransaction_item_rows (N := binary64)
           (a_cart [a_line 1 2 1000; a_line 1 3 1000] 0 0 cash)
           (online (a_shop [a_product 1 10 true])) _ _ eq_refl).
Defined.



(** X5 -- What createTransaction never touches.  Whatever the cart and
    whatever the store serves, and whether the call returns or throws,
    the products table afterwards has the rows it had, in the same
    order, each with its id, name, price and flag, only stock quantities
    differing; the payments table is what it was; and the transactions
    and the transaction items that were there are still there,
    unchanged, before whatever the call added. *)
Theorem createTransaction_leaves_the_rest {N : Number}
  (input : CreateTransactionInput.t) (c0 : Conn) :
  only_stock_changed (products (tables (store c0)))
    (products (tables (store (snd (createTransaction input c0)))))
  /\ payments (tables (store (snd (createTransaction input c0))))
     = payments (tables (store c0))
  /\ (exists new,
         transactions (tables (store (snd (createTransaction input c0))))
         = transactions (tables (store c0)) ++ new)
  /\ (exists new,
         transaction_items (tables (store (snd (createTransaction input c0))))
         = transaction_items (tables (store c0)) ++ new).
Proof.
  pose proof (createTransaction_spec input c0) as H.
  pose proof (createTransaction_items input c0) as Hitems.
  destruct (createTransaction input c0) as [[t | e] c]; simpl.
  - destruct H as (_ & _ & Hproducts & Htransactions & Hpayments & _).
    destruct (Hitems t c eq_refl) as (rows & Hrows & _).
    split; [ | split; [exact Hpayments | split]].
    + rewrite Hproducts. apply only_stock_changed_sell.
      apply only_stock_changed_refl.
    + eexists. exact Htransactions.
    + exists rows. exact Hrows.
  - destruct H as [_ Hsame]. rewrite Hsame.
    split; [apply only_stock_changed_refl | ].
    split; [reflexivity | ].
    split; exists []; rewrite app_nil_r; reflexivity.
Qed.

(** * getTransactionById *)

Lemma filter_block {L R} (p : L -> bool) (l : L) (block : list (L * R)) :
  Forall (fun row => fst row = l) block ->
  filter (fun row => p (fst row)) block = if p l then block else [].
Proof.
  induction 1 as [ | row rest Hrow _ IH]; simpl.
  - destruct (p l); reflexivity.
  - rewrite Hrow, IH. destruct (p l); reflexivity.
Qed.

(** The first row of a left join that satisfies a condition on its left
    part has as left part the first row of the left side that satisfies
    it: the right side neither removes it nor puts another before it. *)
Lemma leftJoin_first {L R} (p : L -> bool) (left : list L) (right : list R)
  (on : L -> R -> bool) :
  option_map fst
    (hd_error (filter (fun row => p (fst row)) (leftJoin left right on)))
  = find p left.
Proof.
  unfold leftJoin. induction left as [ | l rest IH]; simpl; [reflexivity | ].
  rewrite filter_app.
  set (block := match filter (on l) right with
                | [] => [(l, None)]
                | r :: matching => (l, Some r) :: map (fun r0 => (l, Some r0)) matching
                end).
  assert (Hblock : Forall (fun row : L * option R => fst row = l) block).
  { unfold block. destruct (filter (on l) right) as [ | r matching].
    - constructor; [reflexivity | constructor].
    - constructor; [reflexivity | ].
      apply Forall_map. apply Forall_forall. reflexivity. }
  assert (Hfirst : exists row others, block = row :: others /\ fst row = l).
  { unfold block. destruct (filter (on l) right) as [ | r matching];
      eexists; eexists; split; reflexivity. }
  change (match filter (on l) right with
          | [] => [(l, None)]
          | r :: matching0 => (l, Some r) :: map (fun r0 => (l, Some r0)) matching0
          end) with block.
  rewrite (filter_block p l block Hblock).
  destruct (p l).
  - destruct Hfirst as (row & others & -> & Hrow). simpl. rewrite Hrow.
    reflexivity.
  - exact IH.
Qed.

Lemma leftJoin_first_map {L R A} (g : L -> A) (p : L -> bool) (left : list L)
  (right : list R) (on : L -> R -> bool) :
  option_map (fun row => g (fst row))
    (hd_error (filter (fun row => p (fst row)) (leftJoin left right on)))
  = option_map g (find p left).
Proof.
  rewrite <- (leftJoin_first p left right on).
  destruct (hd_error _); reflexivity.
Qed.

Section GetTransactionById.

Context {N : Number}.

Lemma select_transaction_joined_first customersTable id d :
  option_map joined_transactions
    (hd_error (fst (select_transaction_joined customersTable id d)))
  = find_transaction (transactions (tables d)) id.
Proof.
  unfold select_transaction_joined, find_transaction. cbv zeta. simpl fst.
  pose (p1 := fun t : TransactionRow.t => TransactionRow.id t =? id).
  pose (p2 := fun row : TransactionRow.t * option Customer.t => p1 (fst row)).
  pose (p3 := fun row : TransactionRow.t * option Customer.t
                        * option TransactionItem.t => p2 (fst row)).
  etransitivity.
  { apply (leftJoin_first_map (fun row => fst (fst row)) p3). }
  rewrite (filter_head_find p3).
  etransitivity.
  { apply (leftJoin_first_map fst p2). }
  rewrite (filter_head_find p2).
  apply (leftJoin_first p1).
Qed.

Lemma getTransactionById_online customersTable id d :
  getTransactionById customersTable id (online d)
  = (Returned
       (option_map returned_transaction
          (find_transaction (transactions (tables d)) id)),
     online d).
Proof.
  unfold getTransactionById, bind, online. rewrite execute_online.
  rewrite <- select_transaction_joined_first with (customersTable := customersTable).
  replace (snd (select_transaction_joined customersTable id d)) with d
    by reflexivity.
  destruct (fst (select_transaction_joined customersTable id d));
    reflexivity.
Qed.

Lemma getTransactionById_reads_only customersTable id c0 :
  store (snd (getTransactionById customersTable id c0)) = store c0.
Proof.
  unfold getTransactionById, bind, execute.
  destruct c0 as [d [[ | n] | ]]; simpl; [reflexivity | | ];
    destruct (filter _ _); reflexivity.
Qed.

Lemma find_transaction_last rows row id :
  find_transaction rows id = None ->
  TransactionRow.id row = id ->
  find_transaction (rows ++ [row]) id = Some row.
Proof.
  unfold find_transaction. intros Hnone Hid.
  induction rows as [ | r rest IH]; simpl in *.
  - rewrite Hid, Z.eqb_refl. reflexivity.
  - destruct (TransactionRow.id r =? id); [discriminate | ].
    apply IH. exact Hnone.
Qed.

End GetTransactionById.

(** X6 -- getTransactionById.  On a store that serves the statement, the
    call returns null when no row of the transactions table has the id,
    and otherwise the first row that has it, its four amounts read with
    parseFloat; what the customers, the transaction items and the
    products tables hold makes no difference to the answer, although the
    statement joins all three.  And the call leaves the store as it found
    it, whether or not the statement is served. *)
Theorem getTransactionById_spec {N : Number}
  (customersTable : list Customer.t) (id : Z) (d : Db) :
  getTransactionById customersTable id (online d)
  = (Returned
       (option_map returned_transaction
          (find_transaction (transactions (tables d)) id)),
     online d)
  /\ (forall c0,
         store (snd (getTransactionById customersTable id c0)) = store c0).
Proof.
  split; [apply getTransactionById_online | ].
  intros c0. apply getTransactionById_reads_only.
Qed.

(** X7 -- A committed sale can be read back.  When createTransaction
    returns a transaction, and no row of the transactions table had its
    id before (the id is drawn from the sequence of the table),
    getTransactionById of that id on the store the call leaves returns
    that same transaction, field for field, whatever the customers table
    holds. *)
Theorem createTransaction_then_getTransactionById {N : Number}
  (input : CreateTransactionInput.t) (c0 c : Conn) (t : Transaction.t)
  (customersTable : list Customer.t) :
  createTransaction input c0 = (Returned t, c) ->
  find_transaction (transactions (tables (store c0))) (Transaction.id t) = None ->
  getTransactionById customersTable (Transaction.id t) (online (store c))
  = (Returned (Some t), online (store c)).
Proof.
  intros Hrun Hfresh.
  pose proof (createTransaction_spec input c0) as H. rewrite Hrun in H.
  destruct H as (_ & Ht & _ & Hrows & _).
  rewrite getTransactionById_online, Hrows.
  rewrite (find_transaction_last _
             (transaction_values input
                (transactions_id_seq (sequences (store c0)) + 1))
             (Transaction.id t) Hfresh).
  - rewrite Ht. reflexivity.
  - rewrite Ht. reflexivity.
Qed.

Lemma createTransaction_then_getTransactionById_witness :
  getTransactionById (N := binary64) [] 1
    (online (store (snd (createTransaction (N := binary64)
                           (a_cart [a_line 1 2 1000] 500 200 debt)
                           (online (a_shop [a_product 1 10 true]))))))
  = (Returned
       (Some (returned_transaction
                (transaction_values (N := binary64)
                   (a_cart [a_line 1 2 1000] 500 200 debt) 1))),
     online (store (snd (createTransaction (N := binary64)
                           (a_cart [a_line 1 2 1000] 500 200 debt)
                           (online (a_shop [a_product 1 10 true])))))).
Proof.
  exact (createTransaction_then_getTransactionById (N := binary64)
           (a_cart [a_line 1 2 1000] 500 200 debt)
           (online (a_shop [a_product 1 10 true])) _ _ [] eq_refl eq_refl).
Defined.

(** * createPayment: what it changes, and when the store fails *)

Section CreatePaymentChanges.

Context {N : Number}.

Lemma only_status_changed_refl id rows : only_status_changed id rows rows.
Proof.
  induction rows as [ | t rest IH]; constructor; [ | exact IH].
  split; [ | reflexivity].
  exists (TransactionRow.payment_status t). symmetry.
  apply set_payment_status_same.
Qed.

Lemma only_status_changed_update id status before rows :
  only_status_changed id before rows ->
  only_status_changed id before
    (update_where (eq_ TransactionRow.id id) (set_payment_status status) rows).
Proof.
  unfold only_status_changed, update_where, eq_.
  induction 1 as [ | t t' before' rows' [[s Hs] Hother] _ IH]; simpl;
    constructor; [ | exact IH].
  destruct (Z.eqb_spec (TransactionRow.id t') id) as [Heq | Hne].
  - split.
    + exists status. rewrite Hs. reflexivity.
    + intros Hid. exfalso. rewrite (Hother Hid) in Heq. contradiction.
  - split; [exists s; exact Hs | exact Hother].
Qed.

End CreatePaymentChanges.

(** X8 -- What createPayment changes.  Whatever the input and whatever
    the store serves, and whether the call returns or throws, the
    transactions table afterwards has the rows it had, in the same order,
    a row differing from what it was at most in its payment status, and
    only if its id is the transaction id of the payment: no amount and no
    other transaction is ever changed.  The products and the transaction
    items are what they were, and the payments that were there are still
    there, unchanged, before whatever the call added. *)
Theorem createPayment_changes_one_status {N : Number}
  (input : CreatePaymentInput.t) (c0 : Conn) :
  only_status_changed (CreatePaymentInput.transaction_id input)
    (transactions (tables (store c0)))
    (transactions (tables (store (snd (createPayment input c0)))))
  /\ products (tables (store (snd (createPayment input c0))))
     = products (tables (store c0))
  /\ transaction_items (tables (store (snd (createPayment input c0))))
     = transaction_items (tables (store c0))
  /\ (exists new,
         payments (tables (store (snd (createPayment input c0))))
         = payments (tables (store c0)) ++ new).
Proof.
  pose (kept := fun c : Conn =>
          only_status_changed (CreatePaymentInput.transaction_id input)
            (transactions (tables (store c0)))
            (transactions (tables (store c)))
          /\ products (tables (store c)) = products (tables (store c0))
          /\ transaction_items (tables (store c))
             = transaction_items (tables (store c0))
          /\ (exists new,
                 payments (tables (store c))
                 = payments (tables (store c0)) ++ new)).
  assert (H : triple kept (createPayment input)
                (fun _ => kept) (fun _ => kept)).
  { unfold createPayment. cbv zeta.
    apply (triple_bind _ _ _ (fun _ => kept)).
    { apply triple_execute; intros c Hc _; exact Hc. }
    intros [ | transaction0 others]; [apply triple_throw; auto | ].
    destruct (negb (PaymentMethod_eqb
                      (TransactionRow.payment_method transaction0) debt));
      [apply triple_throw; auto | ].
    apply (triple_bind _ _ _ (fun _ => kept)).
    { apply triple_execute; [ | intros c Hc _; exact Hc].
      intros c (Ht & Hp & Hi & new & Hnew) _. unfold kept. simpl.
      repeat split; try assumption.
      rewrite Hnew. rewrite <- app_assoc. eexists. reflexivity. }
    intros payment.
    apply (triple_bind _ _ _ (fun _ => kept)).
    { apply triple_execute; intros c Hc _; exact Hc. }
    intros totalPayments.
    apply (triple_bind _ _ _ (fun _ => kept)).
    { destruct (negb (PaymentStatus_eqb _ _)).
      - apply triple_execute; [ | intros c Hc _; exact Hc].
        intros c (Ht & Hp & Hi & Hnew) _. unfold kept. simpl.
        repeat split; try assumption.
        apply only_status_changed_update. exact Ht.
      - apply triple_ret. auto. }
    intros _. apply triple_ret. auto. }
  assert (H0 : kept c0).
  { unfold kept. split; [apply only_status_changed_refl | ].
    repeat split. exists []. rewrite app_nil_r. reflexivity. }
  specialize (H c0 H0).
  destruct (createPayment input c0) as [[payment | e] c]; exact H.
Qed.

(** A payment on a debt transaction, the store serving the select of
    the transaction, the insert of the payment and [n] statements more. *)
Lemma createPayment_served_twice {N : Number} (input : CreatePaymentInput.t)
  (d : Db) (transaction0 : TransactionRow.t) (n : nat) :
  find_transaction (transactions (tables d))
    (CreatePaymentInput.transaction_id input) = Some transaction0 ->
  TransactionRow.payment_method transaction0 = debt ->
  createPayment input (failing_after (S (S n)) d)
  = match n with
    | O =>
        (Thrown StorageError,
         failing_after 0 (snd (insert_payment (payment_values input) d)))
    | S m =>
        if PaymentStatus_eqb
             (newPaymentStatus (TransactionRow.payment_status transaction0)
                (totalPaidAmount
                   (payments_of (snd (insert_payment (payment_values input) d))
                      (CreatePaymentInput.transaction_id input)))
                (parseFloat (TransactionRow.final_amount transaction0)))
             (TransactionRow.payment_status transaction0)
        then
          (Returned
             (returned_payment input
                (payment_values input (payments_id_seq (sequences d) + 1))),
           failing_after m (settled input transaction0 d))
        else
          match m with
          | O =>
              (Thrown StorageError,
               failing_after 0 (snd (insert_payment (payment_values input) d)))
          | S k =>
              (Returned
                 (returned_payment input
                    (payment_values input (payments_id_seq (sequences d) + 1))),
               failing_after k (settled input transaction0 d))
          end
    end.
Proof.
  intros Hsome Hmethod.
  unfold find_transaction in Hsome. apply find_filter_cons in Hsome.
  destruct Hsome as [others Hrows].
  unfold createPayment, bind, failing_after, execute. simpl.
  unfold eq_ at 1. rewrite Hrows. rewrite Hmethod. simpl.
  destruct n as [ | m]; [reflexivity | ]. simpl.
  unfold settled, payments_of. simpl.
  destruct (PaymentStatus_eqb _ (TransactionRow.payment_status transaction0));
    simpl; [reflexivity | ].
  destruct m as [ | k]; reflexivity.
Qed.

(** X9 -- createPayment is not atomic.  On a debt transaction, with a
    store that serves at least the first two statements of the call (the
    select of the transaction and the insert of the payment) and fails at
    a later one, the call throws the error of the store, and the payment
    row it has inserted stays in the payments table, while the
    transactions table is what it was: the payment is recorded, the
    status is not brought up to date, and the caller is told that the
    call failed. *)
Theorem createPayment_failure_keeps_the_payment {N : Number}
  (input : CreatePaymentInput.t) (d : Db) (transaction0 : TransactionRow.t)
  (n : nat) (e : Error) :
  find_transaction (transactions (tables d))
    (CreatePaymentInput.transaction_id input) = Some transaction0 ->
  TransactionRow.payment_method transaction0 = debt ->
  (2 <= n)%nat ->
  fst (createPayment input (failing_after n d)) = Thrown e ->
  e = StorageError
  /\ payments (tables (store (snd (createPayment input (failing_after n d)))))
     = payments (tables d)
       ++ [payment_values input (payments_id_seq (sequences d) + 1)]
  /\ transactions (tables (store (snd (createPayment input (failing_after n d)))))
     = transactions (tables d).
Proof.
  intros Hsome Hmethod Hn.
  destruct n as [ | [ | n]]; [lia | lia | ].
  rewrite (createPayment_served_twice input d transaction0 n Hsome Hmethod).
  destruct n as [ | m].
  - intros He. injection He as <-. repeat split.
  - destruct (PaymentStatus_eqb _ _); [discriminate | ].
    destruct m as [ | k]; [ | discriminate].
    intros He. injection He as <-. repeat split.
Qed.

Lemma createPayment_failure_keeps_the_payment_witness :
  StorageError = StorageError
  /\ payments
       (tables (store (snd (createPayment (N := binary64) (a_payment 1 7 4000)
                              (failing_after 2
                                 (a_ledger [a_sale 1 (Some 7) 10000 debt pending]
                                    []))))))
     = [] ++ [payment_values (N := binary64) (a_payment 1 7 4000) (0 + 1)]
  /\ transactions
       (tables (store (snd (createPayment (N := binary64) (a_payment 1 7 4000)
                              (failing_after 2
                                 (a_ledger [a_sale 1 (Some 7) 10000 debt pending]
                                    []))))))
     = [a_sale 1 (Some 7) 10000 debt pending].
Proof.
  apply (createPayment_failure_keeps_the_payment (N := binary64)
           (a_payment 1 7 4000)
           (a_ledger [a_sale 1 (Some 7) 10000 debt pending] [])
           (a_sale 1 (Some 7) 10000 debt pending) 2 StorageError).
  - reflexivity.
  - reflexivity.
  - lia.
  - reflexivity.
Defined.

(** * getCustomerDebt: customers without rows, and debts after a payment *)

Lemma filter_none {R} (f : R -> bool) (rows : list R) :
  Forall (fun r => f r = false) rows -> filter f rows = [].
Proof.
  induction 1 as [ | r rest Hr _ IH]; simpl; [reflexivity | ].
  rewrite Hr. exact IH.
Qed.

(** X10 -- getCustomerDebt does not look the customer up.  For an id
    that no transaction and no payment bears, be it the id of a customer
    without sales or of no customer at all, the call returns 0, in exact
    arithmetic and with the numbers of JavaScript alike: both sums are
    NULL and are read as '0'. *)
Theorem getCustomerDebt_of_unknown_customer (customerId : Z) (d : Db) :
  Forall (fun t => TransactionRow.customer_id t <> Some customerId)
    (transactions (tables d)) ->
  Forall (fun p => PaymentRow.customer_id p <> customerId)
    (payments (tables d)) ->
  getCustomerDebt (N := decimal) customerId (online d) = (Returned 0, online d)
  /\ getCustomerDebt (N := binary64) customerId (online d)
     = (Returned PrimFloat.zero, online d).
Proof.
  intros Htransactions Hpayments.
  assert (Hunpaid : unpaid_total d customerId = 0).
  { unfold unpaid_total. rewrite filter_none; [reflexivity | ].
    apply (Forall_impl _ (P := fun t =>
             TransactionRow.customer_id t <> Some customerId));
      [ | exact Htransactions].
    intros t Ht. unfold owed_by.
    destruct (TransactionRow.customer_id t) as [customer | ]; [ | reflexivity].
    destruct (Z.eqb_spec customer customerId) as [-> | _];
      [contradiction | ].
    destruct (TransactionRow.payment_status t); reflexivity. }
  assert (Hpaid : paid_total d customerId = 0).
  { unfold paid_total. rewrite filter_none; [reflexivity | ].
    apply (Forall_impl _ (P := fun p => PaymentRow.customer_id p <> customerId));
      [ | exact Hpayments].
    intros p Hp. apply Z.eqb_neq. exact Hp. }
  split; rewrite getCustomerDebt_online, Hunpaid, Hpaid; reflexivity.
Qed.

Lemma getCustomerDebt_of_unknown_customer_witness :
  getCustomerDebt (N := decimal) 9
    (online (a_ledger [a_sale 1 (Some 7) 10000 debt pending] [a_paid 1 1 7 2500]))
  = (Returned 0,
     online (a_ledger [a_sale 1 (Some 7) 10000 debt pending] [a_paid 1 1 7 2500]))
  /\ getCustomerDebt (N := binary64) 9
       (online (a_ledger [a_sale 1 (Some 7) 10000 debt pending]
                  [a_paid 1 1 7 2500]))
     = (Returned PrimFloat.zero,
        online (a_ledger [a_sale 1 (Some 7) 10000 debt pending]
                  [a_paid 1 1 7 2500])).
Proof.
  apply (getCustomerDebt_of_unknown_customer 9
           (a_ledger [a_sale 1 (Some 7) 10000 debt pending] [a_paid 1 1 7 2500])).
  - repeat constructor. simpl. discriminate.
  - repeat constructor. simpl. discriminate.
Defined.

Section DebtAfterPayment.

Local Existing Instance decimal.




End DebtAfterPayment.



(** * Sales, payments and the debt of a customer *)

(** X12 -- The debt of a customer after a sale.  When createTransaction
    returns, the payments are what they were, and the unpaid total that
    getCustomerDebt reads for a customer is the one before the sale,
    plus the final amount of the new row (as the numeric column keeps it)
    when the sale is on credit and names that customer, and plus nothing
    otherwise.  So a sale that is not on credit raises no debt, and
    neither does a sale on credit without a customer, which the handler
    accepts: its row is pending and counts for nobody. *)
Theorem getCustomerDebt_after_createTransaction {N : Number}
  (input : CreateTransactionInput.t) (c0 c : Conn) (t : Transaction.t)
  (customerId : Z) :
  createTransaction input c0 = (Returned t, c) ->
  Transaction.payment_status t
  = (if PaymentMethod_eqb (CreateTransactionInput.payment_method input) debt
     then pending else paid)
  /\ getCustomerDebt customerId (online (store c))
     = (Returned
          (Math_max
             (sub
                (parseFloat
                   (unpaid_total (store c0) customerId
                    + match CreateTransactionInput.customer_id input with
                      | Some customer =>
                          if PaymentMethod_eqb
                               (CreateTransactionInput.payment_method input) debt
                             && (customer =? customerId)
                          then to_numeric (finalAmount input)
                          else 0
                      | None => 0
                      end))
                (parseFloat (paid_total (store c0) customerId)))
             zero),
        online (store c)).
Proof.
  intros Hrun. pose proof (createTransaction_spec input c0) as H.
  rewrite Hrun in H. destruct H as (_ & Ht & _ & Hrows & Hpayments & _).
  split; [rewrite Ht; reflexivity | ].
  rewrite getCustomerDebt_online. unfold unpaid_total, paid_total.
  rewrite Hrows, Hpayments, filter_app, sum_of_app. simpl filter.
  unfold owed_by at 2. simpl TransactionRow.customer_id.
  simpl TransactionRow.payment_status. unfold paymentStatus.
  destruct (CreateTransactionInput.customer_id input) as [customer | ];
    destruct (PaymentMethod_eqb (CreateTransactionInput.payment_method input)
                debt); simpl;
    try destruct (customer =? customerId); simpl;
    rewrite ?Z.add_0_r; reflexivity.
Qed.

Lemma getCustomerDebt_after_createTransaction_witness :
  Transaction.payment_status
    (returned_transaction (N := decimal)
       (transaction_values (N := decimal)
          (a_cart [a_line 1 2 1000] 0 0 debt) 1))
  = pending
  /\ getCustomerDebt (N := decimal) 7
       (online (store (snd (createTransaction (N := decimal)
                              (a_cart [a_line 1 2 1000] 0 0 debt)
                              (online (a_shop [a_product 1 10 true]))))))
     = (Returned 0,
        online (store (snd (createTransaction (N := decimal)
                              (a_cart [a_line 1 2 1000] 0 0 debt)
                              (online (a_shop [a_product 1 10 true])))))).
Proof.
  exact (getCustomerDebt_after_createTransaction (N := decimal)
           (a_cart [a_line 1 2 1000] 0 0 debt)
           (online (a_shop [a_product 1 10 true])) _ _ 7 eq_refl).
Defined.

(** X13 -- A payment never takes a transaction back to pending.  On a
    store that serves every statement, whatever the payment (its amount
    may even be 0 or less, which the handler itself does not refuse) and
    whatever the arithmetic, the status of the transaction the payment
    names is afterwards paid, partial, or what it was: a transaction that
    was partial or paid is never pending again. *)
Theorem createPayment_never_back_to_pending {N : Number}
  (input : CreatePaymentInput.t) (d : Db) (transaction0 : TransactionRow.t) :
  find_transaction (transactions (tables d))
    (CreatePaymentInput.transaction_id input) = Some transaction0 ->
  stored_status (store (snd (createPayment input (online d))))
    (CreatePaymentInput.transaction_id input) = Some paid
  \/ stored_status (store (snd (createPayment input (online d))))
       (CreatePaymentInput.transaction_id input) = Some partial
  \/ stored_status (store (snd (createPayment input (online d))))
       (CreatePaymentInput.transaction_id input)
     = Some (TransactionRow.payment_status transaction0).
Proof.
  intros Hsome.
  destruct (PaymentMethod_eqb (TransactionRow.payment_method transaction0) debt)
    eqn:Hmethod.
  - apply PaymentMethod_eqb_eq in Hmethod.
    rewrite (createPayment_online input d transaction0 Hsome Hmethod).
    simpl snd. simpl store. unfold stored_status.
    rewrite (settled_transaction input transaction0 d Hsome). simpl.
    unfold newPaymentStatus.
    destruct (geb _ _); [left; reflexivity | ].
    destruct (gtb _ _); [right; left; reflexivity | ].
    right. right. reflexivity.
  - rewrite (createPayment_not_debt input (online d) transaction0);
      [ | simpl; discriminate | exact Hsome | ].
    + right. right. simpl. unfold stored_status. rewrite Hsome. reflexivity.
    + intros Hdebt. apply PaymentMethod_eqb_eq in Hdebt. congruence.
Qed.

Lemma createPayment_never_back_to_pending_witness :
  stored_status
    (store (snd (createPayment (N := binary64) (a_payment 1 7 4000)
                   (online (a_ledger [a_sale 1 (Some 7) 10000 debt pending] [])))))
    1 = Some paid
  \/ stored_status
       (store (snd (createPayment (N := binary64) (a_payment 1 7 4000)
                      (online (a_ledger [a_sale 1 (Some 7) 10000 debt pending]
                                 [])))))
       1 = Some partial
  \/ stored_status
       (store (snd (createPayment (N := binary64) (a_payment 1 7 4000)
                      (online (a_ledger [a_sale 1 (Some 7) 10000 debt pending]
                                 [])))))
       1 = Some pending.
Proof.
  exact (createPayment_never_back_to_pending (N := binary64)
           (a_payment 1 7 4000)
           (a_ledger [a_sale 1 (Some 7) 10000 debt pending] [])
           (a_sale 1 (Some 7) 10000 debt pending) eq_refl).
Defined.

(** * The router and the point of sale *)

(** X14 -- The empty cart.  createTransaction itself does not refuse a
    cart without lines: on a store that serves every statement it
    returns, having added a transaction row whose total is that of no
    line and whose final amount is tax minus discount, no item row, and
    having left every product as it was.  It is the schema of the router
    (items: at least one) that keeps such a cart out: the procedure
    answers it with BAD_REQUEST and the store is not touched. *)
Theorem createTransaction_of_empty_cart {N : Number}
  (input : CreateTransactionInput.t) (d : Db) :
  CreateTransactionInput.items input = [] ->
  (exists row c,
      createTransaction input (online d)
      = (Returned (returned_transaction row), c)
      /\ transactions (tables (store c)) = transactions (tables d) ++ [row]
      /\ TransactionRow.total_amount row = to_numeric zero
      /\ TransactionRow.final_amount row
         = to_numeric
             (add (sub zero (CreateTransactionInput.discount_amount input))
                (CreateTransactionInput.tax_amount input))
      /\ transaction_items (tables (store c)) = transaction_items (tables d)
      /\ products (tables (store c)) = products (tables d))
  /\ appRouter.createTransaction input (online d) = (BAD_REQUEST, online d).
Proof.
  intros Hempty. split.
  - exists (transaction_values input (transactions_id_seq (sequences d) + 1)).
    eexists. unfold createTransaction, transaction, createTransaction_body.
    unfold transaction_values, finalAmount. rewrite Hempty.
    split; [reflexivity | ]. repeat split.
  - unfold appRouter.createTransaction, procedure, createTransactionInputSchema.
    rewrite Hempty. reflexivity.
Qed.

Lemma createTransaction_of_empty_cart_witness :
  (exists row c,
      createTransaction (N := decimal) (a_cart [] 500 200 cash)
        (online (a_shop [a_product 1 10 true]))
      = (Returned (returned_transaction row), c)
      /\ transactions (tables (store c)) = [] ++ [row]
      /\ TransactionRow.total_amount row = 0
      /\ TransactionRow.final_amount row = 0 - 500 + 200
      /\ transaction_items (tables (store c)) = []
      /\ products (tables (store c)) = [a_product 1 10 true])
  /\ appRouter.createTransaction (N := decimal) (a_cart [] 500 200 cash)
       (online (a_shop [a_product 1 10 true]))
     = (BAD_REQUEST, online (a_shop [a_product 1 10 true])).
Proof.
  exact (createTransaction_of_empty_cart (N := decimal) (a_cart [] 500 200 cash)
           (a_shop [a_product 1 10 true]) eq_refl).
Defined.

(** ** The procedures of the router *)

(** X15 -- The createPayment procedure on a store that serves every
    statement.  An amount that is not above 0 is answered with
    BAD_REQUEST; otherwise a transaction id that no row bears is answered
    with the error 'Transaction not found', and a transaction that is not
    a debt sale with the error 'Payment can only be made for debt
    transactions'; in these three cases the store is what it was.  In the
    one case left, a positive amount on a debt sale, the procedure
    answers with the payment, numbered by the sequence, and the store has
    the payment row and the status derived from the payments of the
    transaction.  Nothing else is checked: not the customer, not the
    status the transaction has, not what is left to pay. *)
Theorem createPayment_procedure_outcome {N : Number}
  (input : CreatePaymentInput.t) (d : Db) :
  appRouter.createPayment input (online d)
  = if positive (CreatePaymentInput.amount input)
    then
      match find_transaction (transactions (tables d))
              (CreatePaymentInput.transaction_id input) with
      | None => (INTERNAL_SERVER_ERROR TransactionNotFound, online d)
      | Some transaction0 =>
          if PaymentMethod_eqb (TransactionRow.payment_method transaction0) debt
          then
            (Ok (returned_payment input
                   (payment_values input (payments_id_seq (sequences d) + 1))),
             online (settled input transaction0 d))
          else (INTERNAL_SERVER_ERROR NotADebtTransaction, online d)
      end
    else (BAD_REQUEST, online d).
Proof.
  unfold appRouter.createPayment, procedure, createPaymentInputSchema.
  destruct (positive (CreatePaymentInput.amount input)); [ | reflexivity].
  destruct (find_transaction (transactions (tables d))
              (CreatePaymentInput.transaction_id input))
    as [transaction0 | ] eqn:Hfind.
  - destruct (PaymentMethod_eqb (TransactionRow.payment_method transaction0) debt)
      eqn:Hmethod.
    + apply PaymentMethod_eqb_eq in Hmethod.
      rewrite (createPayment_online input d transaction0 Hfind Hmethod).
      reflexivity.
    + rewrite (createPayment_not_debt input (online d) transaction0);
        [reflexivity | simpl; discriminate | exact Hfind | ].
      intros Hdebt. apply PaymentMethod_eqb_eq in Hdebt. congruence.
  - rewrite (createPayment_not_found input (online d));
      [reflexivity | simpl; discriminate | exact Hfind].
Qed.

Lemma createTransactionInputSchema_quantities {N : Number}
  (input : CreateTransactionInput.t) :
  createTransactionInputSchema input = true ->
  Forall (fun item => 0 < CartItem.quantity item)
    (CreateTransactionInput.items input).
Proof.
  unfold createTransactionInputSchema. intros H.
  apply andb_prop in H. destruct H as [H _].
  apply andb_prop in H. destruct H as [H _].
  apply andb_prop in H. destruct H as [H _].
  rewrite forallb_forall in H. apply Forall_forall. intros item Hin.
  specialize (H item Hin). apply andb_prop in H. destruct H as [H _].
  apply Z.ltb_lt. exact H.
Qed.

(** X16 -- A sale made through the router never raises a stock.  When
    the createTransaction procedure answers with the transaction, every
    product that was in the table is still found under its id, with a
    stock that is not above the one it had, and strictly below it exactly
    when some line of the cart names the product.  (The handler alone
    would take a line with a quantity below 0 and raise the stock by it:
    the schema of the router, quantity positive, keeps such lines out.) *)
Theorem sale_by_procedure_never_raises_stock {N : Number}
  (input : CreateTransactionInput.t) (c0 c : Conn) (t : Transaction.t)
  (productId : Z) (p : Product.t) :
  appRouter.createTransaction input c0 = (Ok t, c) ->
  find_product (products (tables (store c0))) productId = Some p ->
  exists p',
    find_product (products (tables (store c))) productId = Some p'
    /\ Product.stock_quantity p' <= Product.stock_quantity p
    /\ (Product.stock_quantity p' < Product.stock_quantity p
        <-> In productId
              (map CartItem.product_id (CreateTransactionInput.items input))).
Proof.
  unfold appRouter.createTransaction, procedure. intros Hrun Hp.
  destruct (createTransactionInputSchema input) eqn:Hschema;
    [ | discriminate].
  pose proof (createTransactionInputSchema_quantities input Hschema)
    as Hquantities.
  pose proof (createTransaction_spec input c0) as H.
  destruct (createTransaction input c0) as [[t' | e] c']; [ | discriminate].
  injection Hrun as _ <-.
  destruct H as (_ & _ & Hrows & _).
  exists (set_stock_quantity
            (stock_after_sale (CreateTransactionInput.items input) p) p).
  split; [rewrite Hrows, find_product_after_sale, Hp; reflexivity | ].
  simpl Product.stock_quantity.
  destruct (find_product_id _ _ _ Hp) as [Hid _].
  unfold stock_after_sale, last_line. rewrite Hid.
  destruct (find (fun item : CartItem.t => CartItem.product_id item =? productId)
              (rev (CreateTransactionInput.items input)))
    as [item | ] eqn:Hlast.
  - apply find_some in Hlast. destruct Hlast as [Hin Hitem].
    apply in_rev in Hin. apply Z.eqb_eq in Hitem.
    rewrite Forall_forall in Hquantities. specialize (Hquantities item Hin).
    split; [lia | ]. split; [ | lia].
    intros _. rewrite <- Hitem. apply in_map. exact Hin.
  - split; [lia | ]. split; [lia | ].
    intros Hin. exfalso. apply in_map_iff in Hin.
    destruct Hin as (item & Hitem & Hin).
    apply in_rev in Hin.
    pose proof (find_none _ _ Hlast item Hin) as Hnot. simpl in Hnot.
    rewrite Hitem, Z.eqb_refl in Hnot. discriminate.
Qed.

Lemma sale_by_procedure_never_raises_stock_witness :
  exists p',
    find_product
      (products
         (tables
            (store
               (snd (appRouter.createTransaction (N := binary64)
                       (a_cart [a_line 1 2 1000; a_line 1 3 1000] 0 0 cash)
                       (online (a_shop [a_product 1 10 true;
                                        a_product 2 5 true]))))))) 1
    = Some p'
    /\ Product.stock_quantity p' <= 10
    /\ (Product.stock_quantity p' < 10 <-> In 1 [1; 1]).
Proof.
  exact (sale_by_procedure_never_raises_stock (N := binary64)
           (a_cart [a_line 1 2 1000; a_line 1 3 1000] 0 0 cash)
           (online (a_shop [a_product 1 10 true; a_product 2 5 true]))
           _ _ 1 (a_product 1 10 true) eq_refl eq_refl).
Defined.

(** ** The cart *)

Section Cart.

Context {N : Number}.

Local Abbreviation product_ids :=
  (map (fun item : POSSystem.CartLine.t =>
          ApiProduct.id (POSSystem.CartLine.product item))).

Lemma find_none_not_in (productId : Z) (cart_ : list POSSystem.CartLine.t) :
  find (fun item =>
          ApiProduct.id (POSSystem.CartLine.product item) =? productId) cart_
  = None ->
  ~ In productId (product_ids cart_).
Proof.
  intros Hnone Hin. apply in_map_iff in Hin. destruct Hin as (item & Hid & Hin).
  pose proof (find_none _ _ Hnone item Hin) as H. simpl in H.
  rewrite Hid, Z.eqb_refl in H. discriminate.
Qed.

Lemma NoDup_snoc (l : list Z) (x : Z) :
  NoDup l -> ~ In x l -> NoDup (l ++ [x]).
Proof.
  induction 1 as [ | y rest Hfresh _ IH]; intros Hx; simpl.
  - constructor; [intros [] | constructor].
  - constructor.
    + intros Hin. apply in_app_or in Hin. destruct Hin as [Hin | [Heq | []]].
      * contradiction.
      * apply Hx. left. symmetry. exact Heq.
    + apply IH. intros Hin. apply Hx. right. exact Hin.
Qed.

Lemma NoDup_filter {R} (g : R -> Z) (f : R -> bool) (l : list R) :
  NoDup (map g l) -> NoDup (map g (filter f l)).
Proof.
  induction l as [ | r rest IH]; simpl; intros H; [constructor | ].
  apply NoDup_cons_iff in H. destruct H as [Hfresh Hrest].
  destruct (f r); simpl; [ | apply IH; exact Hrest].
  constructor; [ | apply IH; exact Hrest].
  intros Hin. apply Hfresh. apply in_map_iff in Hin.
  destruct Hin as (x & Hx & Hin). apply filter_In in Hin.
  apply in_map_iff. exists x. split; [exact Hx | apply Hin].
Qed.

(** What every action keeps: no product twice, and every quantity at
    least 1. *)
Lemma act_well_formed (cart_ : list POSSystem.CartLine.t) action :
  NoDup (product_ids cart_)
  /\ Forall (fun item => 1 <= POSSystem.CartLine.quantity item) cart_ ->
  NoDup (product_ids (POSSystem.act cart_ action))
  /\ Forall (fun item => 1 <= POSSystem.CartLine.quantity item)
       (POSSystem.act cart_ action).
Proof.
  intros [Hdistinct Hquantities].
  destruct action as [product | productId quantity | productId]; simpl.
  - unfold POSSystem.addToCart.
    destruct (find _ cart_) as [existingItem | ] eqn:Hfind.
    + split.
      * rewrite map_map.
        erewrite map_ext; [exact Hdistinct | ].
        intros item. simpl.
        destruct (_ =? _); reflexivity.
      * apply Forall_map.
        apply (Forall_impl _ (P := fun item =>
                 1 <= POSSystem.CartLine.quantity item));
          [ | exact Hquantities].
        intros item Hitem. destruct (_ =? _); simpl; lia.
    + split.
      * rewrite map_app. simpl.
        apply NoDup_snoc; [exact Hdistinct | ].
        apply find_none_not_in. exact Hfind.
      * apply Forall_app. split; [exact Hquantities | ].
        constructor; [simpl; lia | constructor].
  - unfold POSSystem.updateQuantity, POSSystem.removeFromCart.
    destruct (Z.leb_spec quantity 0) as [Hle | Hgt].
    + split; [apply NoDup_filter; exact Hdistinct | ].
      apply Forall_forall. intros item Hin. apply filter_In in Hin.
      rewrite Forall_forall in Hquantities. apply Hquantities. apply Hin.
    + split.
      * rewrite map_map.
        erewrite map_ext; [exact Hdistinct | ].
        intros item. simpl.
        destruct (_ =? _); reflexivity.
      * apply Forall_map.
        apply (Forall_impl _ (P := fun item =>
                 1 <= POSSystem.CartLine.quantity item));
          [ | exact Hquantities].
        intros item Hitem. destruct (_ =? _); simpl; lia.
  - unfold POSSystem.removeFromCart.
    split; [apply NoDup_filter; exact Hdistinct | ].
    apply Forall_forall. intros item Hin. apply filter_In in Hin.
    rewrite Forall_forall in Hquantities. apply Hquantities. apply Hin.
Qed.

Lemma cart_after_well_formed (actions : list POSSystem.Action) :
  NoDup (product_ids (POSSystem.cart_after actions))
  /\ Forall (fun item => 1 <= POSSystem.CartLine.quantity item)
       (POSSystem.cart_after actions).
Proof.
  unfold POSSystem.cart_after.
  assert (H : forall cart_,
             NoDup (product_ids cart_)
             /\ Forall (fun item => 1 <= POSSystem.CartLine.quantity item) cart_ ->
             NoDup (product_ids (fold_left POSSystem.act actions cart_))
             /\ Forall (fun item => 1 <= POSSystem.CartLine.quantity item)
                  (fold_left POSSystem.act actions cart_)).
  { induction actions as [ | action rest IH]; intros cart_ Hcart; simpl;
      [exact Hcart | ].
    apply IH. apply act_well_formed. exact Hcart. }
  apply H. split; constructor.
Qed.

Lemma transactionData_product_ids (s : POSSystem.State) :
  map CartItem.product_id
    (CreateTransactionInput.items (POSSystem.transactionData s))
  = product_ids (POSSystem.cart s).
Proof. simpl. rewrite map_map. reflexivity. Qed.

Lemma transactionData_quantity_sold (s : POSSystem.State) :
  quantity_sold (CreateTransactionInput.items (POSSystem.transactionData s))
  = sum_of POSSystem.CartLine.quantity (POSSystem.cart s).
Proof.
  unfold quantity_sold. simpl.
  induction (POSSystem.cart s) as [ | item rest IH]; simpl;
    [reflexivity | rewrite IH; reflexivity].
Qed.

End Cart.
(** X17 -- The cart of the point of sale never names a product twice.
    Whatever products are added, whatever quantities are set and
    whatever lines are removed, starting from the empty cart, the request
    a checkout builds from the cart has one line for each product in it,
    no two lines with the same product id, and every quantity at least
    1: adding a product that is already in the cart raises the quantity
    of its line, and a quantity of 0 or less removes the line. *)
Theorem cart_never_repeats_a_product {N : Number}
  (s : POSSystem.State) (actions : list POSSystem.Action) :
  POSSystem.cart s = POSSystem.cart_after actions ->
  NoDup (map CartItem.product_id
           (CreateTransactionInput.items (POSSystem.transactionData s)))
  /\ Forall (fun item => 1 <= CartItem.quantity item)
       (CreateTransactionInput.items (POSSystem.transactionData s)).
Proof.
  intros Hcart.
  destruct (cart_after_well_formed actions) as [Hdistinct Hquantities].
  rewrite <- Hcart in Hdistinct, Hquantities. split.
  - rewrite transactionData_product_ids. exact Hdistinct.
  - simpl. apply Forall_map.
    apply (Forall_impl _ (P := fun item =>
             1 <= POSSystem.CartLine.quantity item));
      [ | exact Hquantities].
    intros item Hitem. exact Hitem.
Qed.

Lemma cart_never_repeats_a_product_witness :
  NoDup (map CartItem.product_id
           (CreateTransactionInput.items
              (POSSystem.transactionData (N := binary64)
                 (a_till [POSSystem.AddToCart (a_listed 1 10);
                          POSSystem.AddToCart (a_listed 2 10);
                          POSSystem.AddToCart (a_listed 1 10);
                          POSSystem.UpdateQuantity 2 0] 0 0 cash))))
  /\ Forall (fun item => 1 <= CartItem.quantity item)
       (CreateTransactionInput.items
          (POSSystem.transactionData (N := binary64)
             (a_till [POSSystem.AddToCart (a_listed 1 10);
                      POSSystem.AddToCart (a_listed 2 10);
                      POSSystem.AddToCart (a_listed 1 10);
                      POSSystem.UpdateQuantity 2 0] 0 0 cash))).
Proof.
  exact (cart_never_repeats_a_product (N := binary64)
           (a_till [POSSystem.AddToCart (a_listed 1 10);
                    POSSystem.AddToCart (a_listed 2 10);
                    POSSystem.AddToCart (a_listed 1 10);
                    POSSystem.UpdateQuantity 2 0] 0 0 cash)
           _ eq_refl).
Defined.

(** X18 -- A checkout sells the cart or nothing.  For a cart built from
    the empty cart by the actions of the cashier, and a products table
    whose ids are unique, whatever the store serves: either the form is
    left as it was and the four tables are what they were (the cart was
    empty, the router refused the request, or createTransaction threw),
    or the form is reset and the stock of the products in the cart has
    gone down by exactly the quantities in the cart. *)
Theorem processTransaction_sells_the_cart_or_nothing {N : Number}
  (s : POSSystem.State) (actions : list POSSystem.Action) (c0 : Conn) :
  POSSystem.cart s = POSSystem.cart_after actions ->
  unique_product_ids (products (tables (store c0))) ->
  (fst (POSSystem.processTransaction s c0) = s
   /\ tables (store (snd (POSSystem.processTransaction s c0)))
      = tables (store c0))
  \/ (fst (POSSystem.processTransaction s c0) = POSSystem.reset
      /\ affected_stock
           (CreateTransactionInput.items (POSSystem.transactionData s))
           (products (tables (store c0)))
         - affected_stock
             (CreateTransactionInput.items (POSSystem.transactionData s))
             (products (tables (store (snd (POSSystem.processTransaction s c0)))))
         = sum_of POSSystem.CartLine.quantity (POSSystem.cart s)).
Proof.
  intros Hcart Hunique.
  destruct (cart_after_well_formed actions) as [Hdistinct _].
  rewrite <- Hcart, <- transactionData_product_ids in Hdistinct.
  unfold POSSystem.processTransaction.
  destruct (POSSystem.cart s) as [ | line lines] eqn:Hlines;
    [left; split; reflexivity | ].
  unfold appRouter.createTransaction, procedure.
  destruct (createTransactionInputSchema (POSSystem.transactionData s));
    [ | left; split; reflexivity].
  pose proof (createTransaction_spec (POSSystem.transactionData s) c0) as H.
  destruct (createTransaction (POSSystem.transactionData s) c0)
    as [[t | e] c] eqn:Hrun.
  - right. split; [reflexivity | ]. simpl snd.
    rewrite (stock_conserved_for_distinct_products _ c0 t c Hunique Hdistinct
               Hrun).
    rewrite transactionData_quantity_sold, Hlines. reflexivity.
  - left. split; [reflexivity | ]. apply H.
Qed.

Lemma processTransaction_sells_the_cart_or_nothing_witness :
  (fst (POSSystem.processTransaction (N := binary64)
          (a_till [POSSystem.AddToCart (a_listed 1 10);
                   POSSystem.AddToCart (a_listed 1 10)] 0 0 cash)
          (online (a_shop [a_product 1 10 true])))
   = a_till [POSSystem.AddToCart (a_listed 1 10);
             POSSystem.AddToCart (a_listed 1 10)] 0 0 cash
   /\ tables (store (snd (POSSystem.processTransaction (N := binary64)
                            (a_till [POSSystem.AddToCart (a_listed 1 10);
                                     POSSystem.AddToCart (a_listed 1 10)]
                               0 0 cash)
                            (online (a_shop [a_product 1 10 true])))))
      = tables (store (online (a_shop [a_product 1 10 true]))))
  \/ (fst (POSSystem.processTransaction (N := binary64)
             (a_till [POSSystem.AddToCart (a_listed 1 10);
                      POSSystem.AddToCart (a_listed 1 10)] 0 0 cash)
             (online (a_shop [a_product 1 10 true])))
      = POSSystem.reset
      /\ affected_stock
           (CreateTransactionInput.items
              (POSSystem.transactionData (N := binary64)
                 (a_till [POSSystem.AddToCart (a_listed 1 10);
                          POSSystem.AddToCart (a_listed 1 10)] 0 0 cash)))
           (products (tables (store (online (a_shop [a_product 1 10 true])))))
         - affected_stock
             (CreateTransactionInput.items
                (POSSystem.transactionData (N := binary64)
                   (a_till [POSSystem.AddToCart (a_listed 1 10);
                            POSSystem.AddToCart (a_listed 1 10)] 0 0 cash)))
             (products
                (tables
                   (store
                      (snd (POSSystem.processTransaction (N := binary64)
                              (a_till [POSSystem.AddToCart (a_listed 1 10);
                                       POSSystem.AddToCart (a_listed 1 10)]
                                 0 0 cash)
                              (online (a_shop [a_product 1 10 true])))))))
         = sum_of POSSystem.CartLine.quantity
             (POSSystem.cart (N := binary64)
                (a_till [POSSystem.AddToCart (a_listed 1 10);
                         POSSystem.AddToCart (a_listed 1 10)] 0 0 cash))).
Proof.
  apply (processTransaction_sells_the_cart_or_nothing (N := binary64)
           (a_till [POSSystem.AddToCart (a_listed 1 10);
                    POSSystem.AddToCart (a_listed 1 10)] 0 0 cash)
           [POSSystem.AddToCart (a_listed 1 10);
            POSSystem.AddToCart (a_listed 1 10)]
           (online (a_shop [a_product 1 10 true]))).
  - reflexivity.
  - repeat constructor. simpl. intros [].
Defined.

Section CartTotals.

Local Existing Instance decimal.

Local Abbreviation priced :=
  (fun item : @POSSystem.CartLine.t decimal =>
     POSSystem.CartLine.subtotal item
     = POSSystem.CartLine.quantity item
       * ApiProduct.price (POSSystem.CartLine.product item)).




End CartTotals.


